(** * vscode-pytest-runner: a shallow embedding of the discovery, position
      resolution and command synthesis code, with the properties of its
      specification.

    The development follows the TypeScript sources file by file:
    - [JS]      the ECMAScript string and array operations the sources call;
    - [Util]    util.ts (quote, unquote, findFullTestName, searchPathToParent);
    - [Parser]  parser.ts (PythonTestParser and parse);
    - [Config]  pytestRunnerConfig.ts (PytestRunnerConfig);
    - [Runner]  pytestRunner.ts (findCurrentTestName, buildPytestArgs,
                buildPytestCommand);
    - [UtilRest], [ConfigRest], [Env]  the remaining helpers of util.ts and
                getters of pytestRunnerConfig.ts;
    - [CodeLensProvider]  PytestRunnerCodeLensProvider.ts;
    - [Session]  pytestRunner.ts, the public methods of PytestRunner with
                the lookup of the configuration file and the terminal;
    - [Extension]  extension.ts (the registered commands).

    Strings are [string]s of 8-bit code units; line numbers are [Z]. *)

From Stdlib Require Import ZArith List Bool Lia Ascii String.
From Stdlib Require Import Sorted Permutation.
From Equations.Prop Require Import Equations Logic.
Import ListNotations.

Local Open Scope string_scope.
Local Open Scope list_scope.
Local Open Scope Z_scope.

(** String concatenation, kept apart from the [++] of lists. *)
Infix "^^" := String.append (right associativity, at level 60).

#[local] Set Warnings "-register-all".

(* ===================================================================== *)
(** ** ECMAScript primitives used by the sources *)
(* ===================================================================== *)

Module JS.

(** JavaScript truthiness of a string value: the empty string is falsy. *)
Definition truthy (s : string) : bool :=
  match s with EmptyString => false | String _ _ => true end.

(** [a || b] on strings. *)
Definition or_else (a b : string) : string := if truthy a then a else b.

(** [s.length] *)
Definition len (s : string) : Z := Z.of_nat (String.length s).

(** [s[i]]: [None] stands for [undefined] (index out of range). *)
Definition charAt (s : string) (i : Z) : option ascii :=
  if i <? 0 then None else String.get (Z.to_nat i) s.

(** [s.substring(start, end)]: both indices are clamped to [0, s.length]
    and swapped when out of order. *)
Definition clamp (s : string) (i : Z) : Z := Z.max 0 (Z.min i (len s)).

Definition substring (s : string) (i j : Z) : string :=
  let a := clamp s i in
  let b := clamp s j in
  let lo := Z.min a b in
  let hi := Z.max a b in
  String.substring (Z.to_nat lo) (Z.to_nat (hi - lo)) s.

(** [s.substring(start)] *)
Definition substringFrom (s : string) (i : Z) : string := substring s i (len s).

(** [s.startsWith(p)] *)
Fixpoint startsWith (s p : string) {struct p} : bool :=
  match p, s with
  | EmptyString, _ => true
  | String _ _, EmptyString => false
  | String a p', String b s' => Ascii.eqb a b && startsWith s' p'
  end.

(** [s.includes(p)] *)
Fixpoint includes (s p : string) : bool :=
  startsWith s p ||
  match s with
  | EmptyString => false
  | String _ s' => includes s' p
  end.

(** Drop the first [n] code units. *)
Fixpoint drop (n : nat) (s : string) : string :=
  match n, s with
  | O, _ => s
  | S _, EmptyString => EmptyString
  | S n', String _ s' => drop n' s'
  end.

(** [s.endsWith(p)] *)
Definition endsWith (s p : string) : bool :=
  (String.length p <=? String.length s)%nat &&
  String.eqb (drop (String.length s - String.length p) s) p.

(** [s.replace(pat, rep)] for a string pattern and a replacement without
    [$] patterns: only the first occurrence is replaced. *)
Fixpoint replace (s pat rep : string) : string :=
  if startsWith s pat then rep ^^ drop (String.length pat) s
  else match s with
       | EmptyString => EmptyString
       | String c s' => String c (replace s' pat rep)
       end.

(** [s.replace(/\\/g, '/')]: every backslash becomes a slash. *)
Fixpoint replaceAllBackslash (s : string) : string :=
  match s with
  | EmptyString => EmptyString
  | String c s' =>
      String (if Ascii.eqb c "\"%char then "/"%char else c) (replaceAllBackslash s')
  end.

(** [arr.join(sep)] *)
Fixpoint join (sep : string) (l : list string) : string :=
  match l with
  | [] => EmptyString
  | [x] => x
  | x :: r => x ^^ sep ^^ join sep r
  end.

(** The class [\s] of a regular expression, which is also what [trim]
    removes, restricted to 8-bit code units: TAB, LF, VT, FF, CR, SPACE and
    NBSP. *)
Definition isSpace (c : ascii) : bool :=
  let n := nat_of_ascii c in
  ((9 <=? n) && (n <=? 13) || (n =? 32) || (n =? 160))%nat.

(** The class [\w]: ASCII letters, digits and underscore. *)
Definition isWord (c : ascii) : bool :=
  let n := nat_of_ascii c in
  ((48 <=? n) && (n <=? 57) || (65 <=? n) && (n <=? 90)
   || (97 <=? n) && (n <=? 122) || (n =? 95))%nat.

(** Longest prefix whose code units satisfy [p], and what follows it. *)
Fixpoint span (p : ascii -> bool) (s : string) : string * string :=
  match s with
  | EmptyString => (EmptyString, EmptyString)
  | String c s' =>
      if p c then let (a, b) := span p s' in (String c a, b)
      else (EmptyString, s)
  end.

Fixpoint trimStart (s : string) : string :=
  match s with
  | EmptyString => EmptyString
  | String c s' => if isSpace c then trimStart s' else s
  end.

(** [trimEnd] keeps a code unit when it is not white space or when
    something survives after it. *)
Fixpoint trimEnd (s : string) : string :=
  match s with
  | EmptyString => EmptyString
  | String c s' =>
      match trimEnd s' with
      | EmptyString => if isSpace c then EmptyString else String c EmptyString
      | t => String c t
      end
  end.

(** [s.trim()] *)
Definition trim (s : string) : string := trimEnd (trimStart s).

(** [s.split('\n')]: a string always yields at least one piece. *)
Fixpoint splitLines (s : string) : list string :=
  match s with
  | EmptyString => [EmptyString]
  | String c s' =>
      if Ascii.eqb c "010"%char then EmptyString :: splitLines s'
      else match splitLines s' with
           | [] => [String c EmptyString]
           | l :: r => String c l :: r
           end
  end.

(** [[...new Set(xs)]]: duplicates collapse onto their first occurrence. *)
Fixpoint setOf (seen xs : list string) : list string :=
  match xs with
  | [] => []
  | x :: r =>
      if existsb (String.eqb x) seen then setOf seen r
      else x :: setOf (x :: seen) r
  end.

End JS.

(* ===================================================================== *)
(** ** The test entity (parser.ts, interface PythonTestNode) *)
(* ===================================================================== *)

(** [endLine] is not declared by the interface: the parser never sets it,
    but [findFullTestName] receives its elements as [any] and reads it, so
    the field is kept and is [None] ([undefined]) on every parser result. *)
Inductive PythonTestNode : Type := mkNode {
  name : string;
  line : Z;
  type : string;
  class : option string;
  fullName : string;
  parametrized : bool;
  async : bool;
  fixtures : option (list string);
  children : option (list PythonTestNode);
  endLine : option Z
}.

(* ===================================================================== *)
(** ** Effects: exceptions and the instrumented parser calls *)
(* ===================================================================== *)

(** Count of the invocations of the two underlying parsers; this is the
    call-count instrumentation a test would put on them. *)
Record Calls : Type := mkCalls {
  structuralCalls : nat;
  patternCalls : nat
}.

(** Outcome of a JavaScript computation: a value or a thrown exception. *)
Inductive Outcome (A : Type) : Type :=
| Returned : A -> Outcome A
| Thrown : Outcome A.
Arguments Returned {A} _.
Arguments Thrown {A}.

Module Eff.

Definition M (A : Type) : Type := Calls -> Outcome A * Calls.

Definition ret {A} (a : A) : M A := fun c => (Returned a, c).

Definition throw {A} : M A := fun c => (Thrown, c).

Definition bind {A B} (m : M A) (k : A -> M B) : M B :=
  fun c =>
    match m c with
    | (Returned a, c') => k a c'
    | (Thrown, c') => (Thrown, c')
    end.

(** [try { m } catch { handler }] *)
Definition tryCatch {A} (m : M A) (handler : M A) : M A :=
  fun c =>
    match m c with
    | (Returned a, c') => (Returned a, c')
    | (Thrown, c') => handler c'
    end.

(** A host call that either yields a value or throws. *)
Definition orThrow {A} (o : option A) : M A :=
  match o with Some a => ret a | None => throw end.

Definition countStructural : M unit :=
  fun c => (Returned tt, mkCalls (S (structuralCalls c)) (patternCalls c)).

Definition countPattern : M unit :=
  fun c => (Returned tt, mkCalls (structuralCalls c) (S (patternCalls c))).

End Eff.

Notation "x <- m ;; k" := (Eff.bind m (fun x => k))
  (at level 61, m at next level, right associativity).
Notation "m ;;; k" := (Eff.bind m (fun _ => k))
  (at level 61, right associativity).

(* ===================================================================== *)
(** ** The host: file system, subprocess and JSON decoding *)
(* ===================================================================== *)

(** One entry of the [tests] array printed by the companion script, as
    decoded JSON: every field but [name] may be absent. *)
Module Raw.
Record t : Type := mk {
  name : string;
  line : option Z;
  type : option string;
  class : option string;
  full_name : option string;
  parametrized : option bool;
  async : option bool;
  fixtures : option (list string)
}.
End Raw.

(** [PythonParserResult]: [tests] is [None] when it is not an array. *)
Record PythonParserResult : Type := mkResult {
  tests : option (list Raw.t);
  success : bool
}.

Record Host : Type := mkHost {
  (** [fs.existsSync] *)
  existsSync : string -> bool;
  (** [fs.readFileSync(path, 'utf8')]; [None] when it throws *)
  readFileSync : string -> option string;
  (** [fs.statSync(path).isDirectory()]; [None] when [statSync] throws *)
  statIsDirectory : string -> option bool;
  (** [execSync(command, ...)]: the standard output; [None] when it throws
      (non-zero exit, timeout, output above the buffer limit) *)
  execSync : string -> option string;
  (** [JSON.parse]; [None] when it throws *)
  JSON_parse : string -> option PythonParserResult;
  (** [path.join(__dirname, 'python-parser', 'ast_parser.py')] *)
  pythonParserPath : string;
  (** [process.platform.includes('win32')] *)
  platformWin32 : bool
}.

(* ===================================================================== *)
(** ** util.ts *)
(* ===================================================================== *)

Module Util.

(** [isWindows()], from the platform of the host. *)
Definition isWindows (win32 : bool) : bool := win32.

Definition normalizePath (win32 : bool) (path : string) : string :=
  if isWindows win32 then JS.replaceAllBackslash path else path.

Definition dquote : ascii := "034"%char.
Definition squote : ascii := "'"%char.
Definition bquote : ascii := "`"%char.

(** [QUOTES[c]] for [c = s[i]]; [QUOTES[undefined]] is [undefined]. *)
Definition QUOTES (c : option ascii) : bool :=
  match c with
  | Some c => Ascii.eqb c dquote || Ascii.eqb c squote || Ascii.eqb c bquote
  | None => false
  end.

Definition quote (win32 : bool) (s : string) : string :=
  let q := String (if isWindows win32 then dquote else squote) EmptyString in
  JS.join EmptyString [q; s; q].

Definition unquote (s : string) : string :=
  let s := if QUOTES (JS.charAt s 0) then JS.substringFrom s 1 else s in
  let s := if QUOTES (JS.charAt s (JS.len s - 1))
           then JS.substring s 0 (JS.len s - 1) else s in
  s.

(** [element.fullName || element.name] *)
Definition returnedName (element : PythonTestNode) : string :=
  JS.or_else (fullName element) (name element).

(** The two tests of the first loop of [findFullTestName]: the line is the
    element's line, or [endLine] is truthy and the line lies in the range. *)
Definition lineMatches (selectedLine : Z) (element : PythonTestNode) : bool :=
  (selectedLine =? line element)
  || match endLine element with
     | Some e => negb (e =? 0) && (line element <=? selectedLine) && (selectedLine <=? e)
     | None => false
     end.

(** Second loop: the first element whose recursive search gives a truthy
    result ([undefined] and the empty string are skipped). *)
Fixpoint firstNested (rec : PythonTestNode -> option string)
  (l : list PythonTestNode) : option string :=
  match l with
  | [] => None
  | element :: rest =>
      match rec element with
      | Some result => if JS.truthy result then Some result else firstNested rec rest
      | None => firstNested rec rest
      end
  end.

(** Body of [findFullTestName] on a defined array; [rec element] stands for
    the call on [element.children]. *)
Definition findLevel (selectedLine : Z) (rec : PythonTestNode -> option string)
  (l : list PythonTestNode) : option string :=
  match find (lineMatches selectedLine) l with
  | Some element => Some (returnedName element)
  | None => firstNested rec l
  end.

(** [findFullTestName(selectedLine, element.children)] *)
Fixpoint findInChildren (selectedLine : Z) (element : PythonTestNode)
  {struct element} : option string :=
  match element with
  | mkNode _ _ _ _ _ _ _ _ None _ => None
  | mkNode _ _ _ _ _ _ _ _ (Some l) _ =>
      findLevel selectedLine (findInChildren selectedLine) l
  end.

(** [findFullTestName]: [None] is [undefined]. *)
Definition findFullTestName (selectedLine : Z)
  (children : option (list PythonTestNode)) : option string :=
  match children with
  | None => None
  | Some l => findLevel selectedLine (findInChildren selectedLine) l
  end.

(** *** searchPathToParent *)

(** The directory walk works on absolute, normalised POSIX paths, kept as
    the list of their segments (non-empty, without a slash); [[]] is the
    root. On such paths [path.resolve] is the identity, [normalizePath]
    too, and comparing two paths compares their segments. *)
Definition fspath : Type := list string.

Fixpoint renderSegments (p : fspath) : string :=
  match p with
  | [] => EmptyString
  | seg :: r => "/" ^^ seg ^^ renderSegments r
  end.

(** The path as the string the host sees. *)
Definition render (p : fspath) : string :=
  match p with
  | [] => "/"
  | _ :: _ => renderSegments p
  end.

(** [path.dirname]; the root is its own parent. *)
Definition dirname (p : fspath) : fspath := removelast p.

(** [path.join(dir, fileName)] *)
Definition joinPath (dir : fspath) (fileName : string) : fspath := dir ++ [fileName].

Definition pathEqb (a b : fspath) : bool :=
  if list_eq_dec string_dec a b then true else false.

(** The condition of the [do ... while]: after [lastPath] was visited the
    walk goes on with its parent unless that is [endPath] or [lastPath]. *)
Definition walkContinues (endPath lastPath : fspath) : bool :=
  let currentFolderPath := dirname lastPath in
  negb (pathEqb currentFolderPath endPath) && negb (pathEqb currentFolderPath lastPath).

(** The [do ... while] loop; a falsy callback result is [None]. The walk
    ends because a parent that differs from its child is shorter. *)
Equations? searchLoop {T : Type} (callback : fspath -> option T)
  (endPath currentFolderPath : fspath) : option T
  by wf (List.length currentFolderPath) lt :=
searchLoop callback endPath currentFolderPath with callback currentFolderPath := {
  | Some result => Some result
  | None with inspect (walkContinues endPath currentFolderPath) := {
    | exist _ true Hgo => searchLoop callback endPath (dirname currentFolderPath)
    | exist _ false _ => None } }.
Proof.
  unfold walkContinues, pathEqb, dirname in Hgo.
  apply andb_true_iff in Hgo as [_ Hgo].
  destruct (list_eq_dec string_dec (removelast currentFolderPath) currentFolderPath)
    as [|Hne]; [discriminate|].
  destruct currentFolderPath as [|seg rest] using rev_ind; [now elim Hne|].
  unfold dirname. rewrite removelast_last, length_app. simpl. lia.
Qed.

(** [false] is [None]; [fs.statSync] may throw. *)
Definition searchPathToParent {T : Type} (host : Host)
  (startingPath ancestorPath : fspath) (callback : fspath -> option T)
  : Eff.M (option T) :=
  isDirectory <- Eff.orThrow (statIsDirectory host (render startingPath)) ;;
  let currentFolderPath := if isDirectory : bool then startingPath else dirname startingPath in
  let endPath := dirname ancestorPath in
  let resolvedStart := render currentFolderPath in
  let resolvedEnd := render endPath in
  if negb (JS.startsWith resolvedStart resolvedEnd) then Eff.ret None
  else Eff.ret (searchLoop callback endPath currentFolderPath).

End Util.

(* ===================================================================== *)
(** ** parser.ts *)
(* ===================================================================== *)

Module Parser.

(** [path.basename], POSIX flavour: the last non-empty segment between
    slashes. [last] is the last finished segment, [cur] the one being read. *)
Fixpoint basenameScan (last cur s : string) : string :=
  match s with
  | EmptyString => if JS.truthy cur then cur else last
  | String c s' =>
      if Ascii.eqb c "/"%char
      then basenameScan (if JS.truthy cur then cur else last) EmptyString s'
      else basenameScan last (cur ^^ String c EmptyString) s'
  end.

Definition basename (path : string) : string :=
  basenameScan EmptyString EmptyString path.

Definition isTestFile (filePath : string) : bool :=
  let fileName := basename filePath in
  JS.endsWith fileName ".py"
  && (JS.startsWith fileName "test_"
      || JS.endsWith fileName "_test.py"
      || JS.includes fileName "test").

(** *** processTestNodes *)

(** [test.line || 1] *)
Definition lineOr1 (o : option Z) : Z :=
  match o with
  | Some n => if n =? 0 then 1 else n
  | None => 1
  end.

(** [v || d] for an optional string [v] *)
Definition stringOr (o : option string) (d : string) : string :=
  match o with
  | Some s => JS.or_else s d
  | None => d
  end.

(** [test.class || null] *)
Definition classOrNull (o : option string) : option string :=
  match o with
  | Some s => if JS.truthy s then Some s else None
  | None => None
  end.

(** [v || false] *)
Definition boolOrFalse (o : option bool) : bool :=
  match o with Some b => b | None => false end.

(** [test.fixtures || []] *)
Definition listOrEmpty (o : option (list string)) : list string :=
  match o with Some l => l | None => [] end.

(** The node built by the first pass. *)
Definition toNode (test : Raw.t) : PythonTestNode :=
  {| name := Raw.name test;
     line := lineOr1 (Raw.line test);
     type := stringOr (Raw.type test) "function";
     class := classOrNull (Raw.class test);
     fullName := stringOr (Raw.full_name test) (Raw.name test);
     parametrized := boolOrFalse (Raw.parametrized test);
     async := boolOrFalse (Raw.async test);
     fixtures := Some (listOrEmpty (Raw.fixtures test));
     children := None;
     endLine := None |}.

(** [Map<string, PythonTestNode[]>]: iteration follows insertion order, so
    the map is an association list with one entry per key. *)
Definition ClassMap : Type := list (string * list PythonTestNode).

Fixpoint mapHas (m : ClassMap) (k : string) : bool :=
  match m with
  | [] => false
  | (k', _) :: r => String.eqb k' k || mapHas r k
  end.

(** [m.set(k, [])] for a key that is not in the map *)
Definition mapSetEmpty (m : ClassMap) (k : string) : ClassMap := m ++ [(k, [])].

(** [m.get(k)!.push(node)] *)
Fixpoint mapPush (m : ClassMap) (k : string) (node : PythonTestNode) : ClassMap :=
  match m with
  | [] => []
  | (k', v) :: r =>
      if String.eqb k' k then (k', v ++ [node]) :: r
      else (k', v) :: mapPush r k node
  end.

(** First pass: one step of [tests.forEach], on the pair
    [(processedTests, testsByClass)]. *)
Definition groupStep (st : list PythonTestNode * ClassMap) (test : Raw.t)
  : list PythonTestNode * ClassMap :=
  let (processedTests, testsByClass) := st in
  let node := toNode test in
  match class node with
  | Some c =>
      let testsByClass :=
        if negb (mapHas testsByClass c) then mapSetEmpty testsByClass c
        else testsByClass in
      (processedTests, mapPush testsByClass c node)
  | None => (processedTests ++ [node], testsByClass)
  end.

(** [test.name === className && test.type === 'class'] *)
Definition isClassNamed (className : string) (test : Raw.t) : bool :=
  String.eqb (Raw.name test) className
  && match Raw.type test with
     | Some t => String.eqb t "class"
     | None => false
     end.

(** Second pass: one step of [testsByClass.forEach]. *)
Definition attachStep (tests : list Raw.t) (processedTests : list PythonTestNode)
  (entry : string * list PythonTestNode) : list PythonTestNode :=
  let (className, methods) := entry in
  match find (isClassNamed className) tests with
  | Some classNode =>
      processedTests ++
      [ {| name := className;
           line := lineOr1 (Raw.line classNode);
           type := "class";
           class := None;
           fullName := className;
           parametrized := false;
           async := false;
           fixtures := None;
           children := Some methods;
           endLine := None |} ]
  | None => processedTests ++ methods
  end.

(** [arr.sort((a, b) => a.line - b.line)]: the sort is stable, an element
    goes before the first one whose line is not smaller. *)
Fixpoint insertByLine (x : PythonTestNode) (l : list PythonTestNode)
  : list PythonTestNode :=
  match l with
  | [] => [x]
  | y :: r => if line x <=? line y then x :: y :: r else y :: insertByLine x r
  end.

Fixpoint sortByLine (l : list PythonTestNode) : list PythonTestNode :=
  match l with
  | [] => []
  | x :: r => insertByLine x (sortByLine r)
  end.

Definition processTestNodes (tests : list Raw.t) : list PythonTestNode :=
  let (processedTests, testsByClass) :=
    fold_left groupStep tests (([] : list PythonTestNode), ([] : ClassMap)) in
  let processedTests := fold_left (attachStep tests) testsByClass processedTests in
  sortByLine processedTests.

(** *** parsePythonFile *)

Definition dq : string := String "034"%char EmptyString.

Definition parsePythonFile (host : Host) (filePath : string)
  : Eff.M (list PythonTestNode) :=
  Eff.countStructural ;;;
  Eff.tryCatch
    ((if negb (existsSync host (pythonParserPath host))
      then Eff.throw else Eff.ret tt) ;;;
     let command :=
       "python " ^^ dq ^^ pythonParserPath host ^^ dq ^^ " " ^^ dq ^^ filePath ^^ dq in
     output <- Eff.orThrow (execSync host command) ;;
     result <- Eff.orThrow (JSON_parse host output) ;;
     match success result, tests result with
     | true, Some ts => Eff.ret (processTestNodes ts)
     | _, _ => Eff.ret []
     end)
    (Eff.ret []).

(** *** parseWithRegex *)

Fixpoint stripPrefix (p s : string) {struct p} : option string :=
  match p, s with
  | EmptyString, _ => Some s
  | String _ _, EmptyString => None
  | String a p', String b s' => if Ascii.eqb a b then stripPrefix p' s' else None
  end.

(** The pattern: [keyword], one or more [\s], the capture group made of
    [prefix] and any number of [\w], any number of [\s], and one code unit
    accepted by [closing]; the result is the capture group. The classes [\s], [\w]
    and the literals that follow them are disjoint, so the greedy match is
    the only one. *)
Definition matchDeclaration (keyword prefix : string) (closing : ascii -> bool)
  (s : string) : option string :=
  match stripPrefix keyword s with
  | None => None
  | Some r1 =>
      let (ws, r2) := JS.span JS.isSpace r1 in
      if negb (JS.truthy ws) then None
      else match stripPrefix prefix r2 with
           | None => None
           | Some r3 =>
               let (w, r4) := JS.span JS.isWord r3 in
               let (_, r5) := JS.span JS.isSpace r4 in
               match r5 with
               | String c _ => if closing c then Some (prefix ^^ w) else None
               | EmptyString => None
               end
           end
  end.

Definition isParen (c : ascii) : bool := Ascii.eqb c "("%char.
Definition isParenOrColon (c : ascii) : bool :=
  Ascii.eqb c "("%char || Ascii.eqb c ":"%char.

(** The pattern [^def\s+(test_\w* )\s*\(] (group: [test_] and word characters) *)
Definition functionMatch (s : string) : option string :=
  matchDeclaration "def" "test_" isParen s.

(** The pattern [^class\s+(Test\w* )\s*] closed by a parenthesis or a colon *)
Definition classMatch (s : string) : option string :=
  matchDeclaration "class" "Test" isParenOrColon s.

(** The pattern [^async\s+def\s+(test_\w* )\s*\(] *)
Definition asyncFunctionMatch (s : string) : option string :=
  match stripPrefix "async" s with
  | None => None
  | Some r1 =>
      let (ws, r2) := JS.span JS.isSpace r1 in
      if negb (JS.truthy ws) then None
      else matchDeclaration "def" "test_" isParen r2
  end.

Definition regexNode (nm : string) (ln : Z) (ty : string) (isAsync : bool)
  : PythonTestNode :=
  {| name := nm; line := ln; type := ty; class := None; fullName := nm;
     parametrized := false; async := isAsync; fixtures := None;
     children := None; endLine := None |}.

(** The [for] loop over [lines], from index [i], pushing onto [tests]. *)
Fixpoint scanLines (i : Z) (lines : list string) (tests : list PythonTestNode)
  : list PythonTestNode :=
  match lines with
  | [] => tests
  | line :: rest =>
      let trimmedLine := JS.trim line in
      match functionMatch trimmedLine with
      | Some m => scanLines (i + 1) rest (tests ++ [regexNode m (i + 1) "function" false])
      | None =>
        match classMatch trimmedLine with
        | Some m => scanLines (i + 1) rest (tests ++ [regexNode m (i + 1) "class" false])
        | None =>
          match asyncFunctionMatch trimmedLine with
          | Some m => scanLines (i + 1) rest (tests ++ [regexNode m (i + 1) "function" true])
          | None => scanLines (i + 1) rest tests
          end
        end
      end
  end.

Definition parseWithRegex (host : Host) (filePath : string)
  : Eff.M (list PythonTestNode) :=
  Eff.countPattern ;;;
  Eff.tryCatch
    (content <- Eff.orThrow (readFileSync host filePath) ;;
     Eff.ret (scanLines 0 (JS.splitLines content) []))
    (Eff.ret []).

(** *** parseTestFile and parse *)

Definition parseTestFile (host : Host) (filePath : string)
  : Eff.M (list PythonTestNode) :=
  if negb (existsSync host filePath) then Eff.ret []
  else if negb (isTestFile filePath) then Eff.ret []
  else Eff.tryCatch
         (result <- parsePythonFile host filePath ;;
          if (0 <? Z.of_nat (List.length result)) then Eff.ret result
          else parseWithRegex host filePath)
         (parseWithRegex host filePath).

(** [parse] builds a new [PythonTestParser], which holds no state besides
    the script path, and calls [parseTestFile]. *)
Definition parse (host : Host) (filePath : string) : Eff.M (list PythonTestNode) :=
  parseTestFile host filePath.

End Parser.

(* ===================================================================== *)
(** ** pytestRunnerConfig.ts *)
(* ===================================================================== *)

Module Config.

(** What [vscode.workspace.getConfiguration().get(...)] returns for the
    settings read here; [None] is [undefined] (for [pytestArgs]: anything
    that is not an array). *)
Record Settings : Type := mkSettings {
  setting_pytestPath : option string;
  setting_usePoetry : option bool;
  setting_pytestArgs : option (list string)
}.

(** The state a [PytestRunnerConfig] reads. Resolution of the pytest
    configuration file ([getPytestConfigPath]: the configPath setting, its
    glob mapping and the search for pytest.ini, pyproject.toml, setup.cfg)
    enters command building only through its result, the empty string when
    no file is found, and is a field here: what the lookup gives when it
    returns. The lookup itself, which throws when the path cannot be
    examined, is [Session.getPytestConfigPath]; the methods of the runner
    go through it ([Session.buildPytestArgs]). *)
Record PytestRunnerConfig : Type := mkConfig {
  host : Host;
  settings : Settings;
  (** [vscode.window.activeTextEditor?.document?.uri?.fsPath] *)
  activeFile : option Util.fspath;
  currentWorkspaceFolderPath : Util.fspath;
  getPytestConfigPath : string -> string
}.

Definition pytestPath (cfg : PytestRunnerConfig) : string :=
  match setting_pytestPath (settings cfg) with
  | Some p => p
  | None => "pytest"
  end.

Definition usePoetry (cfg : PytestRunnerConfig) : bool :=
  match setting_usePoetry (settings cfg) with
  | Some b => b
  | None => true
  end.

Definition pytestArgs (cfg : PytestRunnerConfig) : list string :=
  match setting_pytestArgs (settings cfg) with
  | Some args => args
  | None => ["-v"]
  end.

(** The helper of [getPoetryProjectRoot]: the directory itself when its
    pyproject.toml exists, can be read and contains the section tag. *)
Definition checkPoetryProject (h : Host) (dirPath : Util.fspath)
  : option Util.fspath :=
  let pyprojectPath := Util.render (Util.joinPath dirPath "pyproject.toml") in
  if existsSync h pyprojectPath then
    match readFileSync h pyprojectPath with
    | Some content =>
        if JS.includes content "[tool.poetry]" then Some dirPath else None
    | None => None
    end
  else None.

Definition getPoetryProjectRoot (cfg : PytestRunnerConfig)
  : Eff.M (option Util.fspath) :=
  let startPath :=
    match activeFile cfg with
    | Some fsPath => Util.dirname fsPath
    | None => currentWorkspaceFolderPath cfg
    end in
  (* Check workspace root first (common case for Poetry projects) *)
  match checkPoetryProject (host cfg) (currentWorkspaceFolderPath cfg) with
  | Some workspaceCheck => Eff.ret (Some workspaceCheck)
  | None =>
      (* Then search from current file up to workspace root *)
      foundPath <- Util.searchPathToParent (host cfg) startPath
                     (currentWorkspaceFolderPath cfg)
                     (checkPoetryProject (host cfg)) ;;
      Eff.ret foundPath
  end.

Definition detectPoetryProject (cfg : PytestRunnerConfig) : Eff.M bool :=
  projectRoot <- getPoetryProjectRoot cfg ;;
  match projectRoot with
  | None => Eff.ret false
  | Some root =>
      let pyprojectPath := Util.render (Util.joinPath root "pyproject.toml") in
      if negb (existsSync (host cfg) pyprojectPath) then Eff.ret false
      else Eff.tryCatch
             (content <- Eff.orThrow (readFileSync (host cfg) pyprojectPath) ;;
              Eff.ret (JS.includes content "[tool.poetry]"))
             (Eff.ret false)
  end.

Definition pytestCommand (cfg : PytestRunnerConfig) : Eff.M string :=
  poetry <- (if usePoetry cfg then detectPoetryProject cfg else Eff.ret false) ;;
  let baseCommand := if poetry : bool then "poetry run pytest" else pytestPath cfg in
  let args := JS.join " " (pytestArgs cfg) in
  Eff.ret (baseCommand ^^ (if JS.truthy args then " " ^^ args else EmptyString)).

End Config.

(* ===================================================================== *)
(** ** pytestRunner.ts *)
(* ===================================================================== *)

Module Runner.

(** The part of a [vscode.TextEditor] that [findCurrentTestName] reads. *)
Record TextEditor : Type := mkEditor {
  selection_isEmpty : bool;
  (** [document.getText(selection)] *)
  selection_text : string;
  (** [selection.active.line], counted from 0 *)
  selection_active_line : Z;
  document_fileName : string
}.

Definition findCurrentTestName (h : Host) (editor : TextEditor)
  : Eff.M (option string) :=
  if negb (selection_isEmpty editor)
  then Eff.ret (Some (Util.unquote (selection_text editor)))
  else
    let selectedLine := selection_active_line editor + 1 in
    let filePath := document_fileName editor in
    testFile <- Parser.parse h filePath ;;
    Eff.ret (Util.findFullTestName selectedLine (Some testFile)).

(** [testName] and [options] are optional parameters; an absent [options]
    takes the default [[]]. This is the assembly of the list once
    [getPytestConfigPath] has returned. *)
Definition buildPytestArgs (cfg : Config.PytestRunnerConfig) (filePath : string)
  (testName : option string) (withQuotes : bool) (options : option (list string))
  : list string :=
  let win32 := platformWin32 (Config.host cfg) in
  let options := match options with Some o => o | None => [] end in
  let args : list string := [] in
  let quoter := if withQuotes then Util.quote win32 else (fun str => str) in
  (* Add the file path *)
  let args := args ++ [quoter (Util.normalizePath win32 filePath)] in
  (* Add test name if specified *)
  let args :=
    match testName with
    | Some testName =>
        if JS.truthy testName then
          if JS.includes testName "::"
          then args ++ ["-k"; quoter (JS.replace testName "::" " and ")]
          else args ++ ["-k"; quoter testName]
        else args
    | None => args
    end in
  (* Add pytest configuration file if available *)
  let pytestConfigPath := Config.getPytestConfigPath cfg filePath in
  let args :=
    if JS.truthy pytestConfigPath
    then args ++ ["-c"; quoter (Util.normalizePath win32 pytestConfigPath)]
    else args in
  (* Add pytest arguments from configuration *)
  let configArgs := Config.pytestArgs cfg in
  let args :=
    if 0 <? Z.of_nat (List.length configArgs) then args ++ configArgs else args in
  (* Add additional options *)
  let args :=
    if 0 <? Z.of_nat (List.length options) then args ++ JS.setOf [] options else args in
  args.

Definition buildPytestCommand (cfg : Config.PytestRunnerConfig) (filePath : string)
  (testName : option string) (options : option (list string)) : Eff.M string :=
  let args := buildPytestArgs cfg filePath testName true options in
  command <- Config.pytestCommand cfg ;;
  Eff.ret (command ^^ " " ^^ JS.join " " args).

End Runner.

(* ===================================================================== *)
(** ** util.ts, the remaining helpers *)
(* ===================================================================== *)

Module UtilRest.

(** [Array.prototype.push.apply(arr, items)]: the array after the push and
    the new length, which is what [pushMany] returns. *)
Definition pushMany {A : Type} (arr items : list A) : list A * Z :=
  (arr ++ items, Z.of_nat (List.length (arr ++ items))).

(** [['run', 'debug', 'watch', 'coverage'].includes(option)] *)
Definition isCodeLensOption (option : string) : bool :=
  existsb (String.eqb option) ["run"; "debug"; "watch"; "coverage"].

Definition validateCodeLensOptions (maybeCodeLensOptions : list string) : list string :=
  filter isCodeLensOption (JS.setOf [] maybeCodeLensOptions).

Definition isPythonTestFile (filePath : string) : bool :=
  let fileName := Parser.basename filePath in
  JS.endsWith fileName ".py"
  && (JS.startsWith fileName "test_"
      || JS.endsWith fileName "_test.py"
      || JS.includes fileName "test").

(** [filePath] is an optional parameter; an absent or empty one is falsy.
    The two first branches of the source build the same string. *)
Definition formatPytestTestName (testName : string) (filePath : option string) : string :=
  match filePath with
  | Some filePath =>
      if JS.truthy filePath && JS.includes testName "::"
      then filePath ^^ "::" ^^ testName
      else if JS.truthy filePath then filePath ^^ "::" ^^ testName
      else testName
  | None => testName
  end.

(** [s.split(sep)] for a non-empty separator: the pieces of [s], the first
    of them being the one under construction; [skip] code units of a
    separator already recognised remain to be passed over. *)
Fixpoint splitFrom (sep : string) (skip : nat) (s : string) : list string :=
  match s with
  | EmptyString => [EmptyString]
  | String c s' =>
      match skip with
      | S k => splitFrom sep k s'
      | O =>
          if JS.startsWith s sep
          then EmptyString :: splitFrom sep (String.length sep - 1) s'
          else match splitFrom sep 0 s' with
               | [] => [String c EmptyString]
               | piece :: pieces => String c piece :: pieces
               end
      end
  end.

Definition split (s sep : string) : list string := splitFrom sep 0 s.

Record TestFullName : Type := mkFullName {
  className : option string;
  methodName : string
}.

(** [parts[0]] and [parts[1]]; with a separator in [fullName] both exist,
    the defaults below are never taken. *)
Definition parseTestFullName (fullName : string) : TestFullName :=
  if JS.includes fullName "::" then
    let parts := split fullName "::" in
    {| className := Some (nth 0 parts EmptyString);
       methodName := nth 1 parts EmptyString |}
  else {| className := None; methodName := fullName |}.

End UtilRest.

(* ===================================================================== *)
(** ** PytestRunnerCodeLensProvider.ts *)
(* ===================================================================== *)

Module CodeLensProvider.

(** [new Range(startLine, startCharacter, endLine, endCharacter)] *)
Record Range : Type := mkRange {
  range_startLine : Z;
  range_startCharacter : Z;
  range_endLine : Z;
  range_endCharacter : Z
}.

(** A [CodeLens] with its command; [None] is [undefined], what indexing
    [titleMap] or [commandMap] gives for a key they do not hold. *)
Record CodeLens : Type := mkCodeLens {
  lens_range : Range;
  lens_arguments : list string;
  lens_title : option string;
  lens_command : option string
}.

Definition titleMap (codeLensOption : string) : option string :=
  if String.eqb codeLensOption "run" then Some "Run"
  else if String.eqb codeLensOption "debug" then Some "Debug"
  else if String.eqb codeLensOption "watch" then Some "Run --watch"
  else if String.eqb codeLensOption "coverage" then Some "Run --coverage"
  else None.

Definition commandMap (codeLensOption : string) : option string :=
  if String.eqb codeLensOption "run" then Some "extension.runPytest"
  else if String.eqb codeLensOption "debug" then Some "extension.debugPytest"
  else if String.eqb codeLensOption "watch" then Some "extension.watchPytest"
  else if String.eqb codeLensOption "coverage" then Some "extension.runPytestCoverage"
  else None.

Definition getCodeLensForOption (range : Range) (codeLensOption fullTestName : string)
  : CodeLens :=
  {| lens_range := range;
     lens_arguments := [fullTestName];
     lens_title := titleMap codeLensOption;
     lens_command := commandMap codeLensOption |}.

(** One turn of [testNodes.forEach]: the lenses of the node, one per
    option, then those of its children. *)
Fixpoint lensesOfNode (codeLensOptions : list string) (testNode : PythonTestNode)
  {struct testNode} : list CodeLens :=
  match testNode with
  | mkNode _ ln _ _ fullTestName _ _ _ ch _ =>
      let range := mkRange (ln - 1) 0 (ln - 1) 100 in
      map (fun option => getCodeLensForOption range option fullTestName) codeLensOptions
      ++ match ch with
         | Some l =>
             if 0 <? Z.of_nat (List.length l)
             then flat_map (lensesOfNode codeLensOptions) l
             else []
         | None => []
         end
  end.

Definition getTestsBlocks (testNodes : list PythonTestNode)
  (codeLensOptions : list string) : list CodeLens :=
  flat_map (lensesOfNode codeLensOptions) testNodes.

(** The part of the editor and of the configuration that
    [provideCodeLenses] reads. [globSync patterns cwd] is [sync] of
    fast-glob with [{cwd, absolute: true}]; [None] when it throws. *)
Record Workbench : Type := mkWorkbench {
  include : list string;
  exclude : list string;
  currentWorkspaceFolderPath : string;
  globSync : list string -> string -> option (list string)
}.

(** [provideCodeLenses]: the lenses returned and the new value of
    [lastSuccessfulCodeLens]. *)
Definition provideCodeLenses (h : Host) (wb : Workbench)
  (codeLensOptions : list string) (document_fileName : string)
  (lastSuccessfulCodeLens : list CodeLens)
  : Eff.M (list CodeLens * list CodeLens) :=
  Eff.tryCatch
    (if negb (UtilRest.isPythonTestFile document_fileName)
     then Eff.ret ([], lastSuccessfulCodeLens)
     else
       let filePath := Util.normalizePath (platformWin32 h) document_fileName in
       let workspaceRoot :=
         Util.normalizePath (platformWin32 h) (currentWorkspaceFolderPath wb) in
       included <-
         (if 0 <? Z.of_nat (List.length (include wb))
          then found <- Eff.orThrow (globSync wb (include wb) workspaceRoot) ;;
               Eff.ret (existsb (String.eqb filePath) found)
          else Eff.ret true) ;;
       if negb included then Eff.ret ([], lastSuccessfulCodeLens)
       else
         excluded <-
           (if 0 <? Z.of_nat (List.length (exclude wb))
            then found <- Eff.orThrow (globSync wb (exclude wb) workspaceRoot) ;;
                 Eff.ret (existsb (String.eqb filePath) found)
            else Eff.ret false) ;;
         if excluded then Eff.ret ([], lastSuccessfulCodeLens)
         else
           testNodes <- Parser.parse h document_fileName ;;
           let lastSuccessfulCodeLens :=
             if 0 <? Z.of_nat (List.length testNodes)
             then getTestsBlocks testNodes codeLensOptions
             else [] in
           Eff.ret (lastSuccessfulCodeLens, lastSuccessfulCodeLens))
    (Eff.ret (lastSuccessfulCodeLens, lastSuccessfulCodeLens)).

End CodeLensProvider.

(* ===================================================================== *)
(** ** pytestRunnerConfig.ts, configuration file and environment *)
(* ===================================================================== *)

Module ConfigRest.

(** [findPytestConfigPath]: the callback tries the three file names in
    their order of precedence. *)
Definition configFilenames : list string := ["pytest.ini"; "pyproject.toml"; "setup.cfg"].

Definition configIn (h : Host) (currentFolderPath : Util.fspath) : option Util.fspath :=
  find (fun currentFolderConfigPath => existsSync h (Util.render currentFolderConfigPath))
       (map (Util.joinPath currentFolderPath) configFilenames).

(** [targetPath] is optional; the result is the empty string when no file
    is found. *)
Definition findPytestConfigPath (cfg : Config.PytestRunnerConfig)
  (targetPath : option Util.fspath) : Eff.M string :=
  let startingPath :=
    match targetPath with
    | Some t => t
    | None =>
        Util.dirname match Config.activeFile cfg with
                     | Some fsPath => fsPath
                     | None => Config.currentWorkspaceFolderPath cfg
                     end
    end in
  foundPath <- Util.searchPathToParent (Config.host cfg) startingPath
                 (Config.currentWorkspaceFolderPath cfg) (configIn (Config.host cfg)) ;;
  Eff.ret match foundPath with
          | Some p => Util.normalizePath false (Util.render p)
          | None => EmptyString
          end.

End ConfigRest.

(* ===================================================================== *)
(** ** pytestRunnerConfig.ts, working directory, interpreter and debugging *)
(* ===================================================================== *)

Module Env.

(** A [vscode.DebugConfiguration] with the keys that [getDebugConfig] and
    the [debugOptions] getter give a value to or read. [None] is an absent
    key. Further keys of a [debugOptions] setting are carried along
    unchanged by the source and have no counterpart here. *)
Record DebugConfiguration : Type := mkDebugConfiguration {
  dbg_name : string;
  dbg_type : string;
  dbg_request : string;
  dbg_module : string;
  dbg_console : string;
  dbg_cwd : string;
  dbg_args : option (list string);
  dbg_python : option string
}.

(** [Partial<vscode.DebugConfiguration>] *)
Record DebugOptions : Type := mkDebugOptions {
  opt_name : option string;
  opt_type : option string;
  opt_request : option string;
  opt_module : option string;
  opt_console : option string;
  opt_cwd : option string;
  opt_args : option (list string);
  opt_python : option string
}.

(** The [configPath] setting: unset, a path, or a mapping from glob
    patterns to paths, in the order of its entries. *)
Inductive ConfigPathSetting : Type :=
| NoConfigPath : ConfigPathSetting
| ConfigPath : string -> ConfigPathSetting
| ConfigMapping : list (string * string) -> ConfigPathSetting.

(** What the runner and the remaining getters of [PytestRunnerConfig] read
    at the time of a call: the configuration of the earlier sections, the
    active editor, further settings ([None] is [undefined]) and the host
    functions they call. *)
Record t : Type := mk {
  config : Config.PytestRunnerConfig;
  (** [vscode.window.activeTextEditor] *)
  activeTextEditor : option Runner.TextEditor;
  setting_changeDirectoryToWorkspaceRoot : option bool;
  setting_preserveEditorFocus : option bool;
  setting_poetryPath : option string;
  setting_virtualEnvPath : option string;
  setting_debugOptions : option DebugOptions;
  (** the codeLens setting; [None] when it is not an array *)
  setting_codeLens : option (list string);
  setting_disableCodeLens : option bool;
  setting_configPath : ConfigPathSetting;
  (** [mm.matcher(pattern)(path)] of micromatch; [None] when it throws *)
  globMatches : string -> string -> option bool;
  (** [path.resolve(from, to)] of the platform *)
  path_resolve : string -> string -> string;
  (** [execSync(command, {cwd, ...})] given the command and [cwd]: the
      standard output, [None] when it throws *)
  execSyncIn : string -> string -> option string;
  (** [path.join] of the platform *)
  path_join : list string -> string;
  (** [path.dirname] of the platform, on a string *)
  path_dirname : string -> string
}.

Definition changeDirectoryToWorkspaceRoot (env : t) : bool :=
  match setting_changeDirectoryToWorkspaceRoot env with
  | Some b => b
  | None => true
  end.

Definition preserveEditorFocus (env : t) : bool :=
  match setting_preserveEditorFocus env with
  | Some b => b || false
  | None => false
  end.

Definition poetryPath (env : t) : string :=
  match setting_poetryPath env with
  | Some p => p
  | None => "poetry"
  end.

Definition isRunInExternalNativeTerminal : bool := false.


Definition codeLensOptions (env : t) : list string :=
  match setting_codeLens env with
  | Some codeLensOptions => UtilRest.validateCodeLensOptions codeLensOptions
  | None => ["run"; "debug"]
  end.

(** [this.usePoetry && this.detectPoetryProject()]: the detection runs only
    when Poetry use is enabled. *)
Definition usesPoetryProject (env : t) : Eff.M bool :=
  if Config.usePoetry (config env) then Config.detectPoetryProject (config env)
  else Eff.ret false.

Definition getPoetryVirtualEnvPath (env : t) : Eff.M (option string) :=
  projectRoot <- Config.getPoetryProjectRoot (config env) ;;
  match projectRoot with
  | None => Eff.ret None
  | Some projectRoot =>
      match execSyncIn env (poetryPath env ^^ " env info --path")
                       (Util.render projectRoot) with
      | Some result => Eff.ret (Some (JS.trim result))
      | None => Eff.ret None
      end
  end.

Definition virtualEnvPath (env : t) : Eff.M string :=
  let customPath :=
    match setting_virtualEnvPath env with Some p => p | None => EmptyString end in
  if JS.truthy customPath then Eff.ret customPath
  else
    (* Try to get Poetry virtual environment path *)
    poetry <- usesPoetryProject env ;;
    if poetry : bool then
      poetryEnvPath <- getPoetryVirtualEnvPath env ;;
      match poetryEnvPath with
      | Some poetryEnvPath =>
          if JS.truthy poetryEnvPath then Eff.ret poetryEnvPath
          else Eff.ret EmptyString
      | None => Eff.ret EmptyString
      end
    else Eff.ret EmptyString.

(** The two last steps of [cwd], taken when the Poetry project root is not
    returned. *)
Definition cwdOutsidePoetry (env : t) : Eff.M string :=
  venvPath <- virtualEnvPath env ;;
  if JS.truthy venvPath then Eff.ret venvPath
  else Eff.ret (Util.render (Config.currentWorkspaceFolderPath (config env))).

Definition cwd (env : t) : Eff.M string :=
  (* For Poetry projects, always use the project root *)
  poetry <- usesPoetryProject env ;;
  if poetry : bool then
    poetryRoot <- Config.getPoetryProjectRoot (config env) ;;
    match poetryRoot with
    | Some poetryRoot => Eff.ret (Util.render poetryRoot)
    | None => cwdOutsidePoetry env
    end
  else cwdOutsidePoetry env.

(** The interpreter of the virtual environment, when there is one and the
    file exists; [process.platform === 'win32'] is the platform test of
    the host. Both [getPythonPath] of the sources start with it. *)
Definition venvPython (env : t) : Eff.M (option string) :=
  venvPath <- virtualEnvPath env ;;
  if JS.truthy venvPath then
    let pythonPath :=
      if platformWin32 (Config.host (config env))
      then path_join env [venvPath; "Scripts"; "python.exe"]
      else path_join env [venvPath; "bin"; "python"] in
    if existsSync (Config.host (config env)) pythonPath
    then Eff.ret (Some pythonPath)
    else Eff.ret None
  else Eff.ret None.

(** [PytestRunnerConfig.getPythonPath]: falls back to the system python. *)
Definition getPythonPath (env : t) : Eff.M string :=
  found <- venvPython env ;;
  match found with
  | Some pythonPath => Eff.ret pythonPath
  | None => Eff.ret "python"
  end.

(** A path of the runner as the directory walk takes it. The editor and
    the explorer hand over absolute, normalised POSIX paths
    ([uri.fsPath]); on those this is the inverse of [Util.render]. *)
Definition segmentsOf (path : string) : Util.fspath :=
  filter JS.truthy (UtilRest.split path "/").

(** The loop of [resolveConfigPathOrMapping] over the entries of the
    mapping: the glob is tried against the path and against the
    normalised path. [globMatches] is the matcher of the environment. *)
Fixpoint firstMatch (win32 : bool) (globMatches : string -> string -> option bool)
  (targetPath : string) (entries : list (string * string)) : Eff.M (option string) :=
  match entries with
  | [] => Eff.ret None
  | (key, value) :: rest =>
      plain <- Eff.orThrow (globMatches key targetPath) ;;
      normalised <-
        (if plain : bool then Eff.ret true
         else Eff.orThrow (globMatches key (Util.normalizePath win32 targetPath))) ;;
      if normalised : bool then Eff.ret (Some (Util.normalizePath win32 value))
      else firstMatch win32 globMatches targetPath rest
  end.

Definition debugOptions (env : t) : Eff.M DebugOptions :=
  match setting_debugOptions env with
  | Some debugOptions => Eff.ret debugOptions
  | None =>
      (* default Python debug configuration for pytest *)
      python <- getPythonPath env ;;
      Eff.ret {| opt_name := None;
                 opt_type := Some "python";
                 opt_request := Some "launch";
                 opt_module := Some "pytest";
                 opt_console := Some "integratedTerminal";
                 opt_cwd := None;
                 opt_args := None;
                 opt_python := Some python |}
  end.

End Env.

(* ===================================================================== *)
(** ** pytestRunner.ts, the runner and its terminal *)
(* ===================================================================== *)

Module Session.

(** A [vscode.Terminal], compared by identity: the terminals the runner
    created, numbered in the order of their creation, and all others. *)
Inductive Terminal : Type :=
| Own : nat -> Terminal
| Foreign : nat -> Terminal.

Definition terminalEqb (a b : Terminal) : bool :=
  match a, b with
  | Own n, Own m => Nat.eqb n m
  | Foreign n, Foreign m => Nat.eqb n m
  | _, _ => false
  end.

Record DebugCommand : Type := mkDebugCommand {
  documentUri : string;
  debugConfig : Env.DebugConfiguration
}.

(** [previousCommand: string | DebugCommand | undefined] *)
Inductive PreviousCommand : Type :=
| NoCommand : PreviousCommand
| TerminalCommand : string -> PreviousCommand
| Debugging : DebugCommand -> PreviousCommand.

(** What the runner asks of the editor, and the closing of a terminal,
    which the editor reports to it. *)
Inductive Event : Type :=
| DocumentSaved (fileName : string)
| WarningShown (message : string)
| TerminalCreated (t : Terminal) (name : string)
| TerminalShown (t : Terminal) (preserveFocus : bool)
| TerminalCleared
| TextSent (t : Terminal) (text : string)
| DebuggingStarted (debugConfig : Env.DebugConfiguration)
| TerminalClosed (t : Terminal).

(** The fields of a [PytestRunner]. *)
Record PytestRunner : Type := mkRunner {
  previousCommand : PreviousCommand;
  terminal : option Terminal;
  openNativeTerminal : bool;
  commands : list string
}.

(** The editor: the number of terminals the runner has created and the
    events so far, oldest first. *)
Record Window : Type := mkWindow {
  created : nat;
  events : list Event
}.

Record World : Type := mkWorld {
  runner : PytestRunner;
  window : Window;
  calls : Calls
}.

(** An asynchronous method of the runner, run to its end: it changes the
    world and settles with a value or a rejection. A command runs to its
    end before the next one starts. *)
Definition M (A : Type) : Type := World -> Outcome A * World.

Definition ret {A} (a : A) : M A := fun w => (Returned a, w).

Definition bind {A B} (m : M A) (k : A -> M B) : M B :=
  fun w =>
    match m w with
    | (Returned a, w') => k a w'
    | (Thrown, w') => (Thrown, w')
    end.

Notation "x <~ m ;; k" := (bind m (fun x => k))
  (at level 61, m at next level, right associativity).
Notation "m ~;; k" := (bind m (fun _ => k))
  (at level 61, right associativity).

(** A synchronous computation of the earlier sections. *)
Definition lift {A} (m : Eff.M A) : M A :=
  fun w =>
    let (o, c) := m (calls w) in
    (o, mkWorld (runner w) (window w) c).

Definition getRunner : M PytestRunner := fun w => (Returned (runner w), w).

Definition setRunner (r : PytestRunner) : M unit :=
  fun w => (Returned tt, mkWorld r (window w) (calls w)).

Definition emit (e : Event) : M unit :=
  fun w =>
    (Returned tt,
     mkWorld (runner w)
             (mkWindow (created (window w)) (events (window w) ++ [e]))
             (calls w)).

(** [vscode.window.createTerminal(name)] *)
Definition createTerminal (name : string) : M Terminal :=
  fun w =>
    let t := Own (created (window w)) in
    (Returned t,
     mkWorld (runner w)
             (mkWindow (S (created (window w)))
                       (events (window w) ++ [TerminalCreated t name]))
             (calls w)).

(** [new PytestRunner(config)] *)
Definition construct : PytestRunner :=
  {| previousCommand := NoCommand;
     terminal := None;
     openNativeTerminal := Env.isRunInExternalNativeTerminal;
     commands := [] |}.

(** *** The configuration file of a run *)

Definition noGlobMatched : string :=
  "None of the glob patterns in the configPath mapping matched the target file. Make sure you're using correct glob pattern syntax. Pytest-runner uses the same library (micromatch) for evaluating glob patterns.".

(** [resolveConfigPathOrMapping] of util.ts; [None] is [undefined]. A
    mapping with entries none of which matches shows a warning. *)
Definition resolveConfigPathOrMapping (env : Env.t)
  (configPathOrMapping : Env.ConfigPathSetting) (targetPath : string)
  : M (option string) :=
  match configPathOrMapping with
  | Env.NoConfigPath => ret None
  | Env.ConfigPath configPath => ret (Some configPath)
  | Env.ConfigMapping entries =>
      found <~ lift (Env.firstMatch (platformWin32 (Config.host (Env.config env)))
                       (Env.globMatches env) targetPath entries) ;;
      match found with
      | Some value => ret (Some value)
      | None =>
          (if 0 <? Z.of_nat (List.length entries)
           then emit (WarningShown noGlobMatched)
           else ret tt) ~;;
          ret None
      end
  end.

(** [PytestRunnerConfig.getPytestConfigPath]: the configured path resolved
    against the workspace folder, or else the file found by
    [findPytestConfigPath], which examines [targetPath] and throws when
    that cannot be done. *)
Definition getPytestConfigPath (env : Env.t) (targetPath : string) : M string :=
  let cfg := Env.config env in
  configPath <~ resolveConfigPathOrMapping env (Env.setting_configPath env) targetPath ;;
  let found :=
    lift (ConfigRest.findPytestConfigPath cfg
            (if JS.truthy targetPath then Some (Env.segmentsOf targetPath) else None)) in
  match configPath with
  | Some configPath =>
      if JS.truthy configPath
      then ret (Util.normalizePath (platformWin32 (Config.host cfg))
                  (Env.path_resolve env
                     (Util.render (Config.currentWorkspaceFolderPath cfg)) configPath))
      else found
  | None => found
  end.

(** The configuration once the lookup of the configuration file has
    returned [pytestConfigPath]. *)
Definition withConfigPath (cfg : Config.PytestRunnerConfig) (pytestConfigPath : string)
  : Config.PytestRunnerConfig :=
  {| Config.host := Config.host cfg;
     Config.settings := Config.settings cfg;
     Config.activeFile := Config.activeFile cfg;
     Config.currentWorkspaceFolderPath := Config.currentWorkspaceFolderPath cfg;
     Config.getPytestConfigPath := fun _ => pytestConfigPath |}.

(** [buildPytestArgs] with its lookup of the configuration file, the one
    step of it that can throw: [Runner.buildPytestArgs] assembles the
    list from what the lookup returned. *)
Definition buildPytestArgs (env : Env.t) (filePath : string) (testName : option string)
  (withQuotes : bool) (options : option (list string)) : M (list string) :=
  pytestConfigPath <~ getPytestConfigPath env filePath ;;
  ret (Runner.buildPytestArgs (withConfigPath (Env.config env) pytestConfigPath)
         filePath testName withQuotes options).

Definition buildPytestCommand (env : Env.t) (filePath : string) (testName : option string)
  (options : option (list string)) : M string :=
  args <~ buildPytestArgs env filePath testName true options ;;
  command <~ lift (Config.pytestCommand (Env.config env)) ;;
  ret (command ^^ " " ^^ JS.join " " args).

(** *** The terminal *)

(** The listener that [setup] registers with [onDidCloseTerminal]. *)
Definition onDidCloseTerminal (closedTerminal : Terminal) : M unit :=
  r <~ getRunner ;;
  match terminal r with
  | Some t =>
      if terminalEqb t closedTerminal
      then setRunner (mkRunner (previousCommand r) None (openNativeTerminal r) (commands r))
      else ret tt
  | None => ret tt
  end.

(** [if (!this.terminal) this.terminal = createTerminal('pytest')], then
    the terminal. *)
Definition ensureTerminal : M Terminal :=
  r <~ getRunner ;;
  match terminal r with
  | Some t => ret t
  | None =>
      t <~ createTerminal "pytest" ;;
      r <~ getRunner ;;
      setRunner (mkRunner (previousCommand r) (Some t) (openNativeTerminal r) (commands r)) ~;;
      ret t
  end.

Definition setCommands (l : list string) : M unit :=
  r <~ getRunner ;;
  setRunner (mkRunner (previousCommand r) (terminal r) (openNativeTerminal r) l).

Definition setPreviousCommand (p : PreviousCommand) : M unit :=
  r <~ getRunner ;;
  setRunner (mkRunner p (terminal r) (openNativeTerminal r) (commands r)).

Definition setOpenNativeTerminal (b : bool) : M unit :=
  r <~ getRunner ;;
  setRunner (mkRunner (previousCommand r) (terminal r) b (commands r)).

Definition runTerminalCommand (env : Env.t) (command : string) : M unit :=
  r <~ getRunner ;;
  if openNativeTerminal r then setCommands (commands r ++ [command])
  else
    t <~ ensureTerminal ;;
    emit (TerminalShown t (Env.preserveEditorFocus env)) ~;;
    emit TerminalCleared ~;;
    emit (TextSent t command).

Definition goToCwd (env : Env.t) : M unit :=
  dir <~ lift (Env.cwd env) ;;
  let command := "cd " ^^ Util.quote (platformWin32 (Config.host (Env.config env))) dir in
  if Env.changeDirectoryToWorkspaceRoot env then runTerminalCommand env command
  else ret tt.

Definition buildNativeTerminalCommand (toRun : string) : string :=
  "ttab -t 'pytest-runner' " ^^ String Util.dquote (toRun ^^ String Util.dquote EmptyString).

Definition runExternalNativeTerminalCommand (env : Env.t) (commands : list string)
  : M unit :=
  r <~ getRunner ;;
  if negb (openNativeTerminal r) then setCommands []
  else
    let command := JS.join "; " commands in
    let externalCommand := buildNativeTerminalCommand command in
    setCommands [] ~;;
    t <~ ensureTerminal ;;
    emit (TerminalShown t (Env.preserveEditorFocus env)) ~;;
    emit TerminalCleared ~;;
    emit (TextSent t externalCommand).

(** [for (const command of this.commands) await this.runTerminalCommand(command)] *)
Fixpoint runEach (env : Env.t) (commands : list string) : M unit :=
  match commands with
  | [] => ret tt
  | command :: rest => runTerminalCommand env command ~;; runEach env rest
  end.

Definition executeDebugCommand (env : Env.t) (debugCommand : DebugCommand) : M unit :=
  (* prevent open of external terminal when debug command is executed *)
  setOpenNativeTerminal false ~;;
  r <~ getRunner ;;
  runEach env (commands r) ~;;
  setCommands [] ~;;
  emit (DebuggingStarted (debugConfig debugCommand)) ~;;
  setPreviousCommand (Debugging debugCommand).

(** [PytestRunner.getPythonPath]: [None] is [undefined]. *)
Definition getPythonPath (env : Env.t) : Eff.M (option string) := Env.venvPython env.

Definition override {A} (base : A) (o : option A) : A :=
  match o with Some a => a | None => base end.

(** [currentTestName] is an optional parameter. *)
Definition getDebugConfig (env : Env.t) (filePath : string)
  (currentTestName : option string) : M Env.DebugConfiguration :=
  cwd <~ lift (Env.cwd env) ;;
  debugOptions <~ lift (Env.debugOptions env) ;;
  (* the object literal, [...this.config.debugOptions] last *)
  let name := override "Debug Pytest Tests" (Env.opt_name debugOptions) in
  let type := override "python" (Env.opt_type debugOptions) in
  let request := override "launch" (Env.opt_request debugOptions) in
  let module := override "pytest" (Env.opt_module debugOptions) in
  let console := override "integratedTerminal" (Env.opt_console debugOptions) in
  let cwd := override cwd (Env.opt_cwd debugOptions) in
  let python := Env.opt_python debugOptions in
  let args := match Env.opt_args debugOptions with Some a => a | None => [] end in
  standardArgs <~ buildPytestArgs env filePath currentTestName false None ;;
  let args := fst (UtilRest.pushMany args standardArgs) in
  (* Add debugging specific args *)
  let args := args ++ ["-s"] in
  let args := args ++ ["--tb=short"] in
  (* Set Python path if virtual environment is detected *)
  pythonPath <~ lift (getPythonPath env) ;;
  let python :=
    match pythonPath with
    | Some pythonPath => if JS.truthy pythonPath then Some pythonPath else python
    | None => python
    end in
  ret {| Env.dbg_name := name;
         Env.dbg_type := type;
         Env.dbg_request := request;
         Env.dbg_module := module;
         Env.dbg_console := console;
         Env.dbg_cwd := cwd;
         Env.dbg_args := Some args;
         Env.dbg_python := python |}.

Definition notATestFile : string :=
  "Current file does not appear to be a Python test file.".

(** [getFileName(filePath).replace(/test_/, '').replace(/_test\.py$/, '.py')] *)
Definition coverageFileName (filePath : string) : string :=
  let withoutPrefix := JS.replace (Parser.basename filePath) "test_" EmptyString in
  if JS.endsWith withoutPrefix "_test.py"
  then JS.substring withoutPrefix 0 (JS.len withoutPrefix - 8) ^^ ".py"
  else withoutPrefix.

(** [currentTestName || this.findCurrentTestName(editor)] *)
Definition resolveTestName (env : Env.t) (editor : Runner.TextEditor)
  (currentTestName : option string) : Eff.M (option string) :=
  match currentTestName with
  | Some name =>
      if JS.truthy name then Eff.ret (Some name)
      else Runner.findCurrentTestName (Config.host (Env.config env)) editor
  | None => Runner.findCurrentTestName (Config.host (Env.config env)) editor
  end.

(** *** The public methods *)

Definition runTestsOnPath (env : Env.t) (path : string) : M unit :=
  command <~ buildPytestCommand env path None None ;;
  setPreviousCommand (TerminalCommand command) ~;;
  goToCwd env ~;;
  runTerminalCommand env command ~;;
  r <~ getRunner ;;
  runExternalNativeTerminalCommand env (commands r).

(** [argument] is [Some] for a string argument; [options] and
    [collectCoverageFromCurrentFile] are optional parameters. *)
Definition runCurrentTest (env : Env.t) (argument : option string)
  (options : option (list string)) (collectCoverageFromCurrentFile : bool) : M unit :=
  let currentTestName := argument in
  match Env.activeTextEditor env with
  | None => ret tt
  | Some editor =>
      emit (DocumentSaved (Runner.document_fileName editor)) ~;;
      let filePath := Runner.document_fileName editor in
      (* Check if it's a Python test file *)
      if negb (UtilRest.isPythonTestFile filePath)
      then emit (WarningShown notATestFile)
      else
        let finalOptions := match options with Some o => o | None => [] end in
        let finalOptions :=
          if collectCoverageFromCurrentFile then
            let targetFileDir := Env.path_dirname env filePath in
            let targetFileName := coverageFileName filePath in
            let coverageTarget :=
              if existsSync (Config.host (Env.config env))
                            (targetFileDir ^^ "/" ^^ targetFileName)
              then targetFileName
              else targetFileDir in
            finalOptions ++ ["--cov"; coverageTarget]
          else finalOptions in
        testName <~ lift (resolveTestName env editor currentTestName) ;;
        command <~ buildPytestCommand env filePath testName (Some finalOptions) ;;
        setPreviousCommand (TerminalCommand command) ~;;
        goToCwd env ~;;
        runTerminalCommand env command ~;;
        r <~ getRunner ;;
        runExternalNativeTerminalCommand env (commands r)
  end.

Definition runCurrentFile (env : Env.t) (options : option (list string)) : M unit :=
  match Env.activeTextEditor env with
  | None => ret tt
  | Some editor =>
      emit (DocumentSaved (Runner.document_fileName editor)) ~;;
      let filePath := Runner.document_fileName editor in
      (* Check if it's a Python test file *)
      if negb (UtilRest.isPythonTestFile filePath)
      then emit (WarningShown notATestFile)
      else
        command <~ buildPytestCommand env filePath None options ;;
        setPreviousCommand (TerminalCommand command) ~;;
        goToCwd env ~;;
        runTerminalCommand env command ~;;
        r <~ getRunner ;;
        runExternalNativeTerminalCommand env (commands r)
  end.

Definition runPreviousTest (env : Env.t) : M unit :=
  match Env.activeTextEditor env with
  | None => ret tt
  | Some editor =>
      emit (DocumentSaved (Runner.document_fileName editor)) ~;;
      r <~ getRunner ;;
      match previousCommand r with
      | TerminalCommand command =>
          goToCwd env ~;;
          runTerminalCommand env command
      | Debugging debugCommand => executeDebugCommand env debugCommand
      | NoCommand => ret tt
      end ~;;
      r <~ getRunner ;;
      runExternalNativeTerminalCommand env (commands r)
  end.

Definition debugTestsOnPath (env : Env.t) (path : string) : M unit :=
  debugConfig <~ getDebugConfig env path None ;;
  goToCwd env ~;;
  executeDebugCommand env (mkDebugCommand path debugConfig) ~;;
  r <~ getRunner ;;
  runExternalNativeTerminalCommand env (commands r).

Definition debugCurrentTest (env : Env.t) (currentTestName : option string) : M unit :=
  match Env.activeTextEditor env with
  | None => ret tt
  | Some editor =>
      emit (DocumentSaved (Runner.document_fileName editor)) ~;;
      let filePath := Runner.document_fileName editor in
      (* Check if it's a Python test file *)
      if negb (UtilRest.isPythonTestFile filePath)
      then emit (WarningShown notATestFile)
      else
        testName <~ lift (resolveTestName env editor currentTestName) ;;
        debugConfig <~ getDebugConfig env filePath testName ;;
        goToCwd env ~;;
        executeDebugCommand env (mkDebugCommand filePath debugConfig) ~;;
        r <~ getRunner ;;
        runExternalNativeTerminalCommand env (commands r)
  end.

End Session.

(* ===================================================================== *)
(** ** extension.ts *)
(* ===================================================================== *)

Module Extension.









End Extension.

(* ===================================================================== *)
(** * Vocabulary of the properties *)
(* ===================================================================== *)

(** What the second test of [unquote] does to a string. *)
Definition stripTrailingQuote (s : string) : string :=
  if Util.QUOTES (JS.charAt s (JS.len s - 1))
  then JS.substring s 0 (JS.len s - 1) else s.

(** [a] ends where the first separator of [a ^^ "::" ^^ b] starts: no
    separator begins inside [a], also not on its last code unit. *)
Definition beforeFirstSeparator (a : string) : Prop :=
  JS.includes (a ^^ ":") "::" = false.

(** The [quoter] of [buildPytestArgs]. *)
Definition quoterOf (cfg : Config.PytestRunnerConfig) (withQuotes : bool)
  : string -> string :=
  if withQuotes then Util.quote (platformWin32 (Config.host cfg)) else (fun str => str).

(** *** Sample inputs *)

Definition noCalls : Calls := mkCalls 0 0.

Definition newline : string := String "010"%char EmptyString.

(** A workspace [/ws] holding [calc_test.py]; the companion script is not
    installed, and there is no pyproject.toml. *)
Definition plainHost : Host :=
  {| existsSync := fun p => String.eqb p "/ws/calc_test.py";
     readFileSync := fun p =>
       if String.eqb p "/ws/calc_test.py"
       then Some ("import calc" ^^ newline ^^
                  "def test_add():" ^^ newline ^^
                  "    assert calc.add(1, 2) == 3" ^^ newline ^^
                  "class TestCalc:" ^^ newline ^^
                  "    async def test_divide(self):" ^^ newline ^^
                  "        pass")
       else None;
     statIsDirectory := fun p => if String.eqb p "/ws" then Some true else None;
     execSync := fun _ => None;
     JSON_parse := fun _ => None;
     pythonParserPath := "/ext/python-parser/ast_parser.py";
     platformWin32 := false |}.

(** The configuration with every setting left at its default and no
    pytest configuration file. *)
Definition defaultConfig : Config.PytestRunnerConfig :=
  {| Config.host := plainHost;
     Config.settings := Config.mkSettings None None None;
     Config.activeFile := Some ["ws"; "calc_test.py"];
     Config.currentWorkspaceFolderPath := ["ws"];
     Config.getPytestConfigPath := fun _ => EmptyString |}.

(** An editor on [/ws/calc_test.py] with [selected] as selected text. *)
Definition editorSelecting (selected : string) (cursor : Z) : Runner.TextEditor :=
  {| Runner.selection_isEmpty := negb (JS.truthy selected);
     Runner.selection_text := selected;
     Runner.selection_active_line := cursor;
     Runner.document_fileName := "/ws/calc_test.py" |}.

(** A class spanning lines 1 to 10 with one method spanning lines 3 to
    5, as a tree with [endLine] information would hold them. *)
Definition spannedMethod : PythonTestNode :=
  {| name := "test_divide"; line := 3; type := "method"; class := Some "TestCalc";
     fullName := "TestCalc::test_divide"; parametrized := false; async := false;
     fixtures := Some []; children := None; endLine := Some 5 |}.

Definition spannedClass : PythonTestNode :=
  {| name := "TestCalc"; line := 1; type := "class"; class := None;
     fullName := "TestCalc"; parametrized := false; async := false;
     fixtures := None; children := Some [spannedMethod]; endLine := Some 10 |}.

(** The same class and method as [processTestNodes] builds them. *)
Definition parsedMethod : PythonTestNode :=
  {| name := "test_divide"; line := 3; type := "method"; class := Some "TestCalc";
     fullName := "TestCalc::test_divide"; parametrized := false; async := false;
     fixtures := Some []; children := None; endLine := None |}.

Definition parsedClass : PythonTestNode :=
  {| name := "TestCalc"; line := 1; type := "class"; class := None;
     fullName := "TestCalc"; parametrized := false; async := false;
     fixtures := None; children := Some [parsedMethod]; endLine := None |}.

(** The tree each underlying parser gives for a file, read off a run of
    the parser itself, and the call counts after one more call. *)
Definition structuralTree (h : Host) (filePath : string) : list PythonTestNode :=
  match fst (Parser.parsePythonFile h filePath noCalls) with
  | Returned result => result
  | Thrown => []
  end.

Definition patternTree (h : Host) (filePath : string) : list PythonTestNode :=
  match fst (Parser.parseWithRegex h filePath noCalls) with
  | Returned result => result
  | Thrown => []
  end.

Definition oneMoreStructural (c : Calls) : Calls :=
  mkCalls (S (structuralCalls c)) (patternCalls c).

Definition oneMorePattern (c : Calls) : Calls :=
  mkCalls (structuralCalls c) (S (patternCalls c)).

(** A host on which the companion script runs and reports a function, a
    class and a method of that class for [/ws/calc_test.py]. *)
Definition scriptInventory : list Raw.t :=
  [ Raw.mk "test_add" (Some 2) (Some "function") None (Some "test_add")
      (Some false) (Some false) (Some []);
    Raw.mk "TestCalc" (Some 4) (Some "class") None (Some "TestCalc")
      (Some false) (Some false) (Some []);
    Raw.mk "test_divide" (Some 5) (Some "method") (Some "TestCalc")
      (Some "TestCalc::test_divide") (Some false) (Some true) (Some []) ].

Definition hostReporting (inventory : list Raw.t) : Host :=
  {| existsSync := fun p =>
       String.eqb p "/ws/calc_test.py"
       || String.eqb p "/ext/python-parser/ast_parser.py";
     readFileSync := readFileSync plainHost;
     statIsDirectory := statIsDirectory plainHost;
     execSync := fun _ => Some "inventory of /ws/calc_test.py";
     JSON_parse := fun _ => Some (mkResult (Some inventory) true);
     pythonParserPath := "/ext/python-parser/ast_parser.py";
     platformWin32 := false |}.

Definition scriptHost : Host := hostReporting scriptInventory.

(** Two functions reported out of line order, and a class whose methods
    are reported out of line order. *)
Definition flatInventory : list Raw.t :=
  [ Raw.mk "test_b" (Some 7) (Some "function") None None None None None;
    Raw.mk "test_a" (Some 2) (Some "function") None None None None None ].

Definition unorderedInventory : list Raw.t :=
  [ Raw.mk "TestA" (Some 1) (Some "class") None None None None None;
    Raw.mk "test_b" (Some 5) (Some "method") (Some "TestA") (Some "TestA::test_b")
      None None None;
    Raw.mk "test_a" (Some 3) (Some "method") (Some "TestA") (Some "TestA::test_a")
      None None None ].

(** Order of two entities by line. *)
Definition lineLe (a b : PythonTestNode) : Prop := line a <= line b.

(** The raw entry declares no enclosing class ([test.class] is falsy). *)
Definition classless (test : Raw.t) : Prop :=
  Parser.classOrNull (Raw.class test) = None.

(** The raw entry is a member of the class [className]. *)
Definition memberOf (className : string) (test : Raw.t) : bool :=
  match Parser.classOrNull (Raw.class test) with
  | Some c => String.eqb c className
  | None => false
  end.

(** The methods of [className], in the order of the parser output. *)
Definition methodsOf (className : string) (tests : list Raw.t) : list PythonTestNode :=
  map Parser.toNode (filter (memberOf className) tests).

(** What the first pass maintains after the raw entries [seen]: one entry
    per class name, holding the methods of that class met so far, in their
    order; a class without entry has no method yet. *)
Definition grouped (m : Parser.ClassMap) (seen : list Raw.t) : Prop :=
  NoDup (map fst m)
  /\ (forall k v, In (k, v) m -> v = methodsOf k seen)
  /\ (forall k, Parser.mapHas m k = false -> methodsOf k seen = []).

(** The command line of the structural parser for a file. *)
Definition parserCommand (h : Host) (filePath : string) : string :=
  "python " ^^ Parser.dq ^^ pythonParserPath h ^^ Parser.dq
  ^^ " " ^^ Parser.dq ^^ filePath ^^ Parser.dq.

(** The ways in which the structural parser fails: the companion script
    is missing; the process throws (interpreter absent, non-zero exit,
    timeout, output too large); its output is not JSON; the output does
    not report success with an array of tests. *)
Inductive StructuralFailure (h : Host) (filePath : string) : Prop :=
| script_missing :
    existsSync h (pythonParserPath h) = false -> StructuralFailure h filePath
| process_failed :
    execSync h (parserCommand h filePath) = None -> StructuralFailure h filePath
| output_malformed (output : string) :
    execSync h (parserCommand h filePath) = Some output ->
    JSON_parse h output = None -> StructuralFailure h filePath
| not_successful (output : string) (result : PythonParserResult) :
    execSync h (parserCommand h filePath) = Some output ->
    JSON_parse h output = Some result ->
    success result = false \/ tests result = None ->
    StructuralFailure h filePath.

(** Every code unit of [s] satisfies [p]. *)
Fixpoint allOf (p : ascii -> bool) (s : string) : bool :=
  match s with
  | EmptyString => true
  | String c s' => p c && allOf p s'
  end.

(** The test declarations the pattern parser is meant for, line by line:
    [DeclaresTest text name type isAsync] when [text] is, after any
    indentation, [def test_...(], [class Test...(] or [class Test...:], or
    [async def test_...(], with white space where Python allows it. *)
Inductive DeclaresTest : string -> string -> string -> bool -> Prop :=
| declares_function (indent ws w ws2 rest : string) :
    allOf JS.isSpace indent = true ->
    allOf JS.isSpace ws = true -> ws <> EmptyString ->
    allOf JS.isWord w = true ->
    allOf JS.isSpace ws2 = true ->
    DeclaresTest (indent ^^ "def" ^^ ws ^^ "test_" ^^ w ^^ ws2 ^^ "(" ^^ rest)
      ("test_" ^^ w) "function" false
| declares_class (indent ws w ws2 rest : string) (closer : ascii) :
    allOf JS.isSpace indent = true ->
    allOf JS.isSpace ws = true -> ws <> EmptyString ->
    allOf JS.isWord w = true ->
    allOf JS.isSpace ws2 = true ->
    closer = "("%char \/ closer = ":"%char ->
    DeclaresTest (indent ^^ "class" ^^ ws ^^ "Test" ^^ w ^^ ws2 ^^ String closer rest)
      ("Test" ^^ w) "class" false
| declares_async (indent ws0 ws w ws2 rest : string) :
    allOf JS.isSpace indent = true ->
    allOf JS.isSpace ws0 = true -> ws0 <> EmptyString ->
    allOf JS.isSpace ws = true -> ws <> EmptyString ->
    allOf JS.isWord w = true ->
    allOf JS.isSpace ws2 = true ->
    DeclaresTest
      (indent ^^ "async" ^^ ws0 ^^ "def" ^^ ws ^^ "test_" ^^ w ^^ ws2 ^^ "(" ^^ rest)
      ("test_" ^^ w) "function" true.

(** What one turn of the loop of [parseWithRegex] pushes for the line of
    index [i], read off the loop itself. *)
Definition lineEntity (i : Z) (text : string) : option PythonTestNode :=
  match Parser.scanLines i [text] [] with
  | e :: _ => Some e
  | [] => None
  end.

Definition lineLt (a b : PythonTestNode) : Prop := line a < line b.

(** The first result of [f] along [l]. *)
Fixpoint firstSome {A B : Type} (f : A -> option B) (l : list A) : option B :=
  match l with
  | [] => None
  | x :: r => match f x with Some y => Some y | None => firstSome f r end
  end.

(** The directories from [ws ++ rest] up to [ws], nearest first; the
    segments below [ws] are given innermost first. *)
Fixpoint upwardsRev (ws : Util.fspath) (revRest : list string) : list Util.fspath :=
  match revRest with
  | [] => [ws]
  | _ :: r => (ws ++ rev revRest) :: upwardsRev ws r
  end.

Definition upwards (ws : Util.fspath) (rest : list string) : list Util.fspath :=
  upwardsRev ws (rev rest).

(** A workspace [/ws] that is a Poetry project and holds a second Poetry
    project in [/ws/pkg], where the active file lies. *)
Definition nestedHost : Host :=
  {| existsSync := fun p =>
       String.eqb p "/ws/pyproject.toml" || String.eqb p "/ws/pkg/pyproject.toml"
       || String.eqb p "/ws/pkg/test_calc.py";
     readFileSync := fun p =>
       if String.eqb p "/ws/pyproject.toml" || String.eqb p "/ws/pkg/pyproject.toml"
       then Some ("[tool.poetry]" ^^ newline ^^ "name = 'calc'")
       else None;
     statIsDirectory := fun p =>
       if String.eqb p "/ws" || String.eqb p "/ws/pkg" then Some true else None;
     execSync := fun _ => None;
     JSON_parse := fun _ => None;
     pythonParserPath := "/ext/python-parser/ast_parser.py";
     platformWin32 := false |}.

Definition nestedConfig : Config.PytestRunnerConfig :=
  {| Config.host := nestedHost;
     Config.settings := Config.mkSettings None None None;
     Config.activeFile := Some ["ws"; "pkg"; "test_calc.py"];
     Config.currentWorkspaceFolderPath := ["ws"];
     Config.getPytestConfigPath := fun _ => EmptyString |}.

(** The same tree without the marker in the workspace root. *)
Definition innerOnlyHost : Host :=
  {| existsSync := existsSync nestedHost;
     readFileSync := fun p =>
       if String.eqb p "/ws/pkg/pyproject.toml"
       then Some ("[tool.poetry]" ^^ newline ^^ "name = 'calc'")
       else if String.eqb p "/ws/pyproject.toml" then Some "[build-system]"
       else None;
     statIsDirectory := statIsDirectory nestedHost;
     execSync := fun _ => None;
     JSON_parse := fun _ => None;
     pythonParserPath := "/ext/python-parser/ast_parser.py";
     platformWin32 := false |}.

Definition innerOnlyConfig : Config.PytestRunnerConfig :=
  {| Config.host := innerOnlyHost;
     Config.settings := Config.mkSettings None None None;
     Config.activeFile := Some ["ws"; "pkg"; "test_calc.py"];
     Config.currentWorkspaceFolderPath := ["ws"];
     Config.getPytestConfigPath := fun _ => EmptyString |}.


(** *** Vocabulary of the further properties *)

(** The string holds no slash. *)
Definition slashFree (s : string) : bool :=
  allOf (fun c => negb (Ascii.eqb c "/"%char)) s.

(** The node the second pass of [processTestNodes] builds for the class
    [className] found at [classLine], with [methods] as children. *)
Definition classNodeFor (className : string) (classLine : Z)
  (methods : list PythonTestNode) : PythonTestNode :=
  {| name := className; line := classLine; type := "class"; class := None;
     fullName := className; parametrized := false; async := false;
     fixtures := None; children := Some methods; endLine := None |}.

(** What the second pass adds for one entry of the map. *)
Definition attached (tests : list Raw.t) (entry : string * list PythonTestNode)
  : list PythonTestNode :=
  match find (Parser.isClassNamed (fst entry)) tests with
  | Some classNode =>
      [classNodeFor (fst entry) (Parser.lineOr1 (Raw.line classNode)) (snd entry)]
  | None => snd entry
  end.

Definition classlessb (test : Raw.t) : bool :=
  match Parser.classOrNull (Raw.class test) with
  | Some _ => false
  | None => true
  end.

(** The entities of a tree in pre-order: a node, then its children's
    trees. *)
Fixpoint flatten (n : PythonTestNode) {struct n} : list PythonTestNode :=
  match n with
  | mkNode _ _ _ _ _ _ _ _ ch _ =>
      n :: match ch with
           | Some l => flat_map flatten l
           | None => []
           end
  end.

(** The lenses of one entity: one per option, on the line of the entity
    counted from 0, with the entity's [fullName] as argument. *)
Definition lensesFor (codeLensOptions : list string) (n : PythonTestNode)
  : list CodeLensProvider.CodeLens :=
  map (fun option =>
         CodeLensProvider.getCodeLensForOption
           (CodeLensProvider.mkRange (line n - 1) 0 (line n - 1) 100) option (fullName n))
      codeLensOptions.

(** A workspace [/ws] with a setup.cfg, and a package [/ws/pkg] with both
    a pytest.ini and a pyproject.toml next to the test file. *)
Definition configuredHost : Host :=
  {| existsSync := fun p =>
       String.eqb p "/ws/setup.cfg" || String.eqb p "/ws/pkg/pytest.ini"
       || String.eqb p "/ws/pkg/pyproject.toml" || String.eqb p "/ws/pkg/test_calc.py";
     readFileSync := fun _ => None;
     statIsDirectory := fun p =>
       if String.eqb p "/ws" || String.eqb p "/ws/pkg" then Some true
       else if String.eqb p "/ws/pkg/test_calc.py" then Some false
       else None;
     execSync := fun _ => None;
     JSON_parse := fun _ => None;
     pythonParserPath := "/ext/python-parser/ast_parser.py";
     platformWin32 := false |}.

Definition configuredConfig : Config.PytestRunnerConfig :=
  {| Config.host := configuredHost;
     Config.settings := Config.mkSettings None None None;
     Config.activeFile := Some ["ws"; "pkg"; "test_calc.py"];
     Config.currentWorkspaceFolderPath := ["ws"];
     Config.getPytestConfigPath := fun _ => "/ws/pkg/pytest.ini" |}.

(** A workbench without filters, and one whose include patterns make the
    glob library throw. *)
Definition openWorkbench : CodeLensProvider.Workbench :=
  {| CodeLensProvider.include := [];
     CodeLensProvider.exclude := [];
     CodeLensProvider.currentWorkspaceFolderPath := "/ws";
     CodeLensProvider.globSync := fun _ _ => Some [] |}.

Definition brokenWorkbench : CodeLensProvider.Workbench :=
  {| CodeLensProvider.include := ["**/["];
     CodeLensProvider.exclude := [];
     CodeLensProvider.currentWorkspaceFolderPath := "/ws";
     CodeLensProvider.globSync := fun _ _ => None |}.

(** The configuration file of a directory: pytest.ini when it exists,
    else pyproject.toml when it exists, else setup.cfg when it exists. *)
Definition configFileOf (h : Host) (dir : Util.fspath) : option Util.fspath :=
  if existsSync h (Util.render (dir ++ ["pytest.ini"]))
  then Some (dir ++ ["pytest.ini"])
  else if existsSync h (Util.render (dir ++ ["pyproject.toml"]))
  then Some (dir ++ ["pyproject.toml"])
  else if existsSync h (Util.render (dir ++ ["setup.cfg"]))
  then Some (dir ++ ["setup.cfg"])
  else None.

(** A workspace [/ws] with a pytest.ini, and a package [/ws/pkg] with a
    pyproject.toml and a setup.cfg, and no pytest.ini, next to the test
    file. *)
Definition tomlHost : Host :=
  {| existsSync := fun p =>
       String.eqb p "/ws/pytest.ini" || String.eqb p "/ws/pkg/pyproject.toml"
       || String.eqb p "/ws/pkg/setup.cfg" || String.eqb p "/ws/pkg/test_calc.py";
     readFileSync := fun _ => None;
     statIsDirectory := fun p =>
       if String.eqb p "/ws" || String.eqb p "/ws/pkg" then Some true
       else if String.eqb p "/ws/pkg/test_calc.py" then Some false
       else None;
     execSync := fun _ => None;
     JSON_parse := fun _ => None;
     pythonParserPath := "/ext/python-parser/ast_parser.py";
     platformWin32 := false |}.

Definition tomlConfig : Config.PytestRunnerConfig :=
  {| Config.host := tomlHost;
     Config.settings := Config.mkSettings None None None;
     Config.activeFile := Some ["ws"; "pkg"; "test_calc.py"];
     Config.currentWorkspaceFolderPath := ["ws"];
     Config.getPytestConfigPath := fun _ => "/ws/pkg/pyproject.toml" |}.

(** *** Vocabulary of the runner properties *)

(** The environment with another answer of the [poetry] subprocess. *)
Definition withPoetryAnswer (env : Env.t) (answer : string -> string -> option string)
  : Env.t :=
  {| Env.config := Env.config env;
     Env.activeTextEditor := Env.activeTextEditor env;
     Env.setting_changeDirectoryToWorkspaceRoot := Env.setting_changeDirectoryToWorkspaceRoot env;
     Env.setting_preserveEditorFocus := Env.setting_preserveEditorFocus env;
     Env.setting_poetryPath := Env.setting_poetryPath env;
     Env.setting_virtualEnvPath := Env.setting_virtualEnvPath env;
     Env.setting_debugOptions := Env.setting_debugOptions env;
     Env.setting_codeLens := Env.setting_codeLens env;
     Env.setting_disableCodeLens := Env.setting_disableCodeLens env;
     Env.setting_configPath := Env.setting_configPath env;
     Env.globMatches := Env.globMatches env;
     Env.path_resolve := Env.path_resolve env;
     Env.execSyncIn := answer;
     Env.path_join := Env.path_join env;
     Env.path_dirname := Env.path_dirname env |}.

(** The custom virtual environment path, the empty string when unset. *)
Definition customVirtualEnvPath (env : Env.t) : string :=
  match Env.setting_virtualEnvPath env with Some p => p | None => EmptyString end.

(** An environment on [cfg] with [editor] active, every further setting
    unset, a [poetry] that answers [/venvs/calc] followed by a line end,
    globs that match nothing, and the POSIX [path.join], [path.resolve]
    and [path.dirname] on the paths used. *)
Definition plainEnv (cfg : Config.PytestRunnerConfig) (editor : option Runner.TextEditor)
  : Env.t :=
  {| Env.config := cfg;
     Env.activeTextEditor := editor;
     Env.setting_changeDirectoryToWorkspaceRoot := None;
     Env.setting_preserveEditorFocus := None;
     Env.setting_poetryPath := None;
     Env.setting_virtualEnvPath := None;
     Env.setting_debugOptions := None;
     Env.setting_codeLens := None;
     Env.setting_disableCodeLens := None;
     Env.setting_configPath := Env.NoConfigPath;
     Env.globMatches := fun _ _ => Some false;
     Env.path_resolve := fun from to => from ^^ "/" ^^ to;
     Env.execSyncIn := fun command _ =>
       if String.eqb command "poetry env info --path"
       then Some ("/venvs/calc" ^^ newline) else None;
     Env.path_join := JS.join "/";
     Env.path_dirname := fun p => Util.render (Util.dirname (tl (UtilRest.split p "/"))) |}.

(** The environment with another active editor. *)
Definition withEditor (env : Env.t) (editor : option Runner.TextEditor) : Env.t :=
  {| Env.config := Env.config env;
     Env.activeTextEditor := editor;
     Env.setting_changeDirectoryToWorkspaceRoot := Env.setting_changeDirectoryToWorkspaceRoot env;
     Env.setting_preserveEditorFocus := Env.setting_preserveEditorFocus env;
     Env.setting_poetryPath := Env.setting_poetryPath env;
     Env.setting_virtualEnvPath := Env.setting_virtualEnvPath env;
     Env.setting_debugOptions := Env.setting_debugOptions env;
     Env.setting_codeLens := Env.setting_codeLens env;
     Env.setting_disableCodeLens := Env.setting_disableCodeLens env;
     Env.setting_configPath := Env.setting_configPath env;
     Env.globMatches := Env.globMatches env;
     Env.path_resolve := Env.path_resolve env;
     Env.execSyncIn := Env.execSyncIn env;
     Env.path_join := Env.path_join env;
     Env.path_dirname := Env.path_dirname env |}.

(** The texts sent to terminals, oldest first. *)
Definition sentTexts (evs : list Session.Event) : list string :=
  flat_map (fun e => match e with Session.TextSent _ text => [text] | _ => [] end) evs.

(** The runner queues nothing for an external terminal. *)
Definition Quiet (r : Session.PytestRunner) : Prop :=
  Session.openNativeTerminal r = false /\ Session.commands r = [].

(** The world after [e] was added to the events. *)
Definition logged (e : Session.Event) (w : Session.World) : Session.World :=
  Session.mkWorld (Session.runner w)
    (Session.mkWindow (Session.created (Session.window w))
                      (Session.events (Session.window w) ++ [e]))
    (Session.calls w).

(** The terminal the runner uses next: the one it holds, or a new one. *)
Definition terminalOf (w : Session.World) : Session.Terminal :=
  match Session.terminal (Session.runner w) with
  | Some t => t
  | None => Session.Own (Session.created (Session.window w))
  end.

(** The world once the runner holds a terminal. *)
Definition withTerminal (w : Session.World) : Session.World :=
  match Session.terminal (Session.runner w) with
  | Some _ => w
  | None =>
      let t := Session.Own (Session.created (Session.window w)) in
      Session.mkWorld
        (Session.mkRunner (Session.previousCommand (Session.runner w)) (Some t)
                          (Session.openNativeTerminal (Session.runner w))
                          (Session.commands (Session.runner w)))
        (Session.mkWindow (S (Session.created (Session.window w)))
                          (Session.events (Session.window w)
                           ++ [Session.TerminalCreated t "pytest"]))
        (Session.calls w)
  end.

(** The world after [text] was sent to the runner's terminal. *)
Definition afterSending (env : Env.t) (text : string) (w : Session.World) : Session.World :=
  let t := terminalOf w in
  logged (Session.TextSent t text)
    (logged Session.TerminalCleared
       (logged (Session.TerminalShown t (Env.preserveEditorFocus env)) (withTerminal w))).

(** The text of the change of directory. *)
Definition cdCommand (env : Env.t) (dir : string) : string :=
  "cd " ^^ Util.quote (platformWin32 (Config.host (Env.config env))) dir.

(** The world after the change of directory to [dir], which is sent only
    when the setting asks for it. *)
Definition afterCd (env : Env.t) (dir : string) (w : Session.World) : Session.World :=
  if Env.changeDirectoryToWorkspaceRoot env then afterSending env (cdCommand env dir) w
  else w.

Definition remembering (p : Session.PreviousCommand) (w : Session.World) : Session.World :=
  Session.mkWorld
    (Session.mkRunner p (Session.terminal (Session.runner w))
                      (Session.openNativeTerminal (Session.runner w))
                      (Session.commands (Session.runner w)))
    (Session.window w) (Session.calls w).

Definition withCalls (c : Calls) (w : Session.World) : Session.World :=
  Session.mkWorld (Session.runner w) (Session.window w) c.

(** A call of a public method of the runner, or the closing of a terminal. *)
Inductive Call : Type :=
| RunTestsOnPath (path : string)
| RunCurrentTest (argument : option string) (options : option (list string))
                 (collectCoverageFromCurrentFile : bool)
| RunCurrentFile (options : option (list string))
| RunPreviousTest
| DebugTestsOnPath (path : string)
| DebugCurrentTest (currentTestName : option string)
| TerminalCloses (t : Session.Terminal).

Definition perform (env : Env.t) (call : Call) : Session.M unit :=
  match call with
  | RunTestsOnPath path => Session.runTestsOnPath env path
  | RunCurrentTest argument options collect =>
      Session.runCurrentTest env argument options collect
  | RunCurrentFile options => Session.runCurrentFile env options
  | RunPreviousTest => Session.runPreviousTest env
  | DebugTestsOnPath path => Session.debugTestsOnPath env path
  | DebugCurrentTest currentTestName => Session.debugCurrentTest env currentTestName
  | TerminalCloses t =>
      Session.bind (Session.emit (Session.TerminalClosed t))
                   (fun _ => Session.onDidCloseTerminal t)
  end.

(** A terminal of the runner can close only once it was created. *)
Definition possible (w : Session.World) (call : Call) : Prop :=
  match call with
  | TerminalCloses (Session.Own n) => (n < Session.created (Session.window w))%nat
  | _ => True
  end.

Definition initialWorld : Session.World :=
  Session.mkWorld Session.construct (Session.mkWindow 0 []) noCalls.

(** The worlds that calls reach from a new runner, whatever the
    environment of each call and whether the call settles or rejects. *)
Inductive Reachable : Session.World -> Prop :=
| reachable_initial : Reachable initialWorld
| reachable_step (w : Session.World) (env : Env.t) (call : Call) :
    Reachable w -> possible w call -> Reachable (snd (perform env call w)).

(** The terminal was created by the runner and has not been closed. *)
Definition Live (evs : list Session.Event) (t : Session.Terminal) : Prop :=
  In (Session.TerminalCreated t "pytest") evs /\ ~ In (Session.TerminalClosed t) evs.

(** The computation preserves [P], whether it settles or rejects. *)
Definition Keeps (P : Session.World -> Prop) {A : Type} (m : Session.M A) : Prop :=
  forall w, P w -> P (snd (m w)).

(** What may follow the events [before]: a terminal is shown or written
    to only while it is live, and the runner creates a terminal only when
    every terminal it created earlier has been closed. *)
Definition allowed (before : list Session.Event) (e : Session.Event) : Prop :=
  match e with
  | Session.TextSent t _ => Live before t
  | Session.TerminalShown t _ => Live before t
  | Session.TerminalCreated _ _ =>
      forall t' name, In (Session.TerminalCreated t' name) before ->
                      In (Session.TerminalClosed t') before
  | _ => True
  end.

Definition Orderly (evs : list Session.Event) : Prop :=
  forall before e after, evs = before ++ e :: after -> allowed before e.

(** The runner and the events agree: nothing is queued, the terminal the
    runner holds is live, every other terminal it created is closed, and
    only terminals that exist were closed. *)
Definition WellKept (w : Session.World) : Prop :=
  let evs := Session.events (Session.window w) in
  Quiet (Session.runner w)
  /\ (forall t, Session.terminal (Session.runner w) = Some t -> Live evs t)
  /\ (forall n, In (Session.TerminalClosed (Session.Own n)) evs ->
                (n < Session.created (Session.window w))%nat)
  /\ (forall t name, In (Session.TerminalCreated t name) evs ->
                     Session.terminal (Session.runner w) = Some t
                     \/ In (Session.TerminalClosed t) evs)
  /\ Orderly evs.

(** What a run of [command] started in the world [w] with the calls [c]
    comes to: the change of directory, when the setting asks for it, and
    then the command are sent, and the command is remembered; when the
    working directory cannot be determined the run rejects with nothing
    sent, the command being remembered all the same. *)
Definition Launched (env : Env.t) (command : string) (w : Session.World) (c : Calls)
  (result : Outcome unit * Session.World) : Prop :=
  Session.previousCommand (Session.runner (snd result)) = Session.TerminalCommand command
  /\ match Env.cwd env c with
     | (Returned dir, c') =>
         fst result = Returned tt
         /\ sentTexts (Session.events (Session.window (snd result)))
            = sentTexts (Session.events (Session.window w))
              ++ (if Env.changeDirectoryToWorkspaceRoot env then [cdCommand env dir] else [])
              ++ [command]
         /\ Session.calls (snd result) = c'
     | (Thrown, c') =>
         fst result = Thrown
         /\ sentTexts (Session.events (Session.window (snd result)))
            = sentTexts (Session.events (Session.window w))
         /\ Session.calls (snd result) = c'
     end.

(** What a run of [command] started in the world [w] comes to when it
    settles: the working directory is determined, the change of directory,
    when the setting asks for it, and then the command are sent, and the
    command is remembered. *)
Definition Ran (env : Env.t) (command : string) (w : Session.World)
  (result : Outcome unit * Session.World) : Prop :=
  fst result = Returned tt
  /\ Session.previousCommand (Session.runner (snd result)) = Session.TerminalCommand command
  /\ exists dir,
       (forall c, Env.cwd env c = (Returned dir, c))
       /\ sentTexts (Session.events (Session.window (snd result)))
          = sentTexts (Session.events (Session.window w))
            ++ (if Env.changeDirectoryToWorkspaceRoot env then [cdCommand env dir] else [])
            ++ [command].

(** The call started in the world [w] rejects in the world [w1], where the
    runner is as it was and no text has been sent. *)
Definition Rejected (w w1 : Session.World) (result : Outcome unit * Session.World)
  : Prop :=
  result = (Thrown, w1)
  /\ Session.runner w1 = Session.runner w
  /\ sentTexts (Session.events (Session.window w1))
     = sentTexts (Session.events (Session.window w)).

(** The computation reads the host only: its outcome does not depend on
    the parser calls made so far, and it makes none. *)
Definition Pure {A : Type} (m : Eff.M A) : Prop :=
  exists o, forall c, m c = (o, c).

(** The computation leaves the world as it is, and its outcome does not
    depend on the world. *)
Definition Steady {A : Type} (m : Session.M A) : Prop :=
  exists o, forall w, m w = (o, w).

(** The world after the warning about the glob patterns, if there was
    one. *)
Definition warns (warned : bool) (w : Session.World) : Session.World :=
  if warned then logged (Session.WarningShown Session.noGlobMatched) w else w.

(** The computation changes the world by that warning at most, and
    neither its outcome nor the warning depends on the world. *)
Definition Advisory {A : Type} (m : Session.M A) : Prop :=
  exists o warned, forall w, m w = (o, warns warned w).

(** A key of the [debugOptions] setting, absent when the setting is. *)
Definition fromDebugOptions {A : Type} (env : Env.t) (key : Env.DebugOptions -> option A)
  : option A :=
  match Env.setting_debugOptions env with
  | Some debugOptions => key debugOptions
  | None => None
  end.

(** An editor on [/ws/pkg/test_calc.py] without selection, the cursor on
    its first line. *)
Definition calcEditor : Runner.TextEditor :=
  {| Runner.selection_isEmpty := true;
     Runner.selection_text := EmptyString;
     Runner.selection_active_line := 0;
     Runner.document_fileName := "/ws/pkg/test_calc.py" |}.

Definition notesEditor : Runner.TextEditor :=
  {| Runner.selection_isEmpty := true;
     Runner.selection_text := EmptyString;
     Runner.selection_active_line := 0;
     Runner.document_fileName := "/ws/notes.py" |}.

(** The workspace of [configuredConfig] with [calcEditor] active, the same
    with [/ws/notes.py] in the editor, and the Poetry project of
    [nestedConfig]. *)
Definition calcEnv : Env.t := plainEnv configuredConfig (Some calcEditor).

Definition notesEnv : Env.t := plainEnv configuredConfig (Some notesEditor).

Definition poetryEnv : Env.t := plainEnv nestedConfig None.

(** A path of the workspace of [calcEnv] at which there is no file. *)
Definition missingPath : string := "/ws/pkg/missing_test.py".

(** The world after the file of [calcEnv] was run, the terminal closed and
    the run repeated from [notesEnv]. *)
Definition rerunWorld : Session.World :=
  snd (perform notesEnv RunPreviousTest
         (snd (perform calcEnv (TerminalCloses (Session.Own 0))
                 (snd (perform calcEnv (RunCurrentFile None) initialWorld))))).

(* ===================================================================== *)
(** * Properties *)
(* ===================================================================== *)

(** ** Strings *)

Section StringFacts.

Lemma append_EmptyString_r (s : string) : s ^^ EmptyString = s.
Proof. induction s as [|c s IH]; simpl; [reflexivity | now rewrite IH]. Qed.

Lemma append_assoc (a b c : string) : (a ^^ b) ^^ c = a ^^ b ^^ c.
Proof. induction a as [|x a IH]; simpl; [reflexivity | now rewrite IH]. Qed.

Lemma length_append (a b : string) :
  String.length (a ^^ b) = (String.length a + String.length b)%nat.
Proof. induction a as [|x a IH]; simpl; [reflexivity | now rewrite IH]. Qed.

(** A string is empty or ends with a last code unit. *)
Lemma string_last_cases (s : string) :
  s = EmptyString \/ exists t c, s = t ^^ String c EmptyString.
Proof.
  induction s as [|x s IH]; [now left | right].
  destruct IH as [-> | (t & c & ->)].
  - now exists EmptyString, x.
  - now exists (String x t), c.
Qed.

Lemma substring_whole (s : string) : String.substring 0 (String.length s) s = s.
Proof. induction s as [|x s IH]; simpl; [reflexivity | now rewrite IH]. Qed.

Lemma substring_init (t u : string) :
  String.substring 0 (String.length t) (t ^^ u) = t.
Proof.
  induction t as [|x t IH]; simpl.
  - now destruct u.
  - now rewrite IH.
Qed.

Lemma get_last (t : string) (c : ascii) :
  String.get (String.length t) (t ^^ String c EmptyString) = Some c.
Proof. induction t as [|x t IH]; simpl; [reflexivity | exact IH]. Qed.

Lemma js_len_nonneg (s : string) : 0 <= JS.len s.
Proof. unfold JS.len. lia. Qed.

Lemma js_substringFrom_1 (c : ascii) (s : string) :
  JS.substringFrom (String c s) 1 = s.
Proof.
  unfold JS.substringFrom, JS.substring, JS.clamp, JS.len. simpl String.length.
  replace (Z.to_nat _) with 1%nat by lia.
  replace (Z.to_nat _) with (String.length s) by lia.
  simpl. apply substring_whole.
Qed.

Lemma js_charAt_last (t : string) (c : ascii) :
  JS.charAt (t ^^ String c EmptyString) (JS.len (t ^^ String c EmptyString) - 1) = Some c.
Proof.
  unfold JS.charAt, JS.len. rewrite length_append. simpl String.length.
  destruct (Z.ltb_spec (Z.of_nat (String.length t + 1) - 1) 0) as [H|_]; [lia|].
  replace (Z.to_nat _) with (String.length t) by lia.
  apply get_last.
Qed.

Lemma js_substring_init (t : string) (c : ascii) :
  JS.substring (t ^^ String c EmptyString) 0 (JS.len (t ^^ String c EmptyString) - 1) = t.
Proof.
  unfold JS.substring, JS.clamp, JS.len. rewrite length_append. simpl String.length.
  replace (Z.to_nat (Z.min _ _)) with 0%nat by lia.
  replace (Z.to_nat _) with (String.length t) by lia.
  apply substring_init.
Qed.

End StringFacts.

(** ** unquote *)

Lemma stripTrailingQuote_empty : stripTrailingQuote EmptyString = EmptyString.
Proof. reflexivity. Qed.

Lemma stripTrailingQuote_last (t : string) (c : ascii) :
  stripTrailingQuote (t ^^ String c EmptyString)
  = if Util.QUOTES (Some c) then t else t ^^ String c EmptyString.
Proof.
  unfold stripTrailingQuote. rewrite js_charAt_last, js_substring_init. reflexivity.
Qed.

Lemma unquote_cons (c : ascii) (s : string) :
  Util.unquote (String c s)
  = if Util.QUOTES (Some c) then stripTrailingQuote s
    else stripTrailingQuote (String c s).
Proof.
  unfold Util.unquote.
  change (JS.charAt (String c s) 0) with (Some c).
  destruct (Util.QUOTES (Some c)); [rewrite js_substringFrom_1|]; reflexivity.
Qed.

(** At most one code unit goes at each end, and only a quote. *)
Lemma stripTrailingQuote_shape (s : string) :
  exists post, s = stripTrailingQuote s ^^ post
    /\ (post = EmptyString
        \/ exists q, post = String q EmptyString /\ Util.QUOTES (Some q) = true).
Proof.
  destruct (string_last_cases s) as [-> | (t & c & ->)].
  - exists EmptyString. split; [reflexivity | now left].
  - rewrite stripTrailingQuote_last.
    destruct (Util.QUOTES (Some c)) eqn:Hq.
    + exists (String c EmptyString). split; [reflexivity | right; now exists c].
    + exists EmptyString. split; [now rewrite append_EmptyString_r | now left].
Qed.

Lemma unquote_shape (s : string) :
  exists pre post, s = pre ^^ Util.unquote s ^^ post
    /\ (pre = EmptyString
        \/ exists q, pre = String q EmptyString /\ Util.QUOTES (Some q) = true)
    /\ (post = EmptyString
        \/ exists q, post = String q EmptyString /\ Util.QUOTES (Some q) = true).
Proof.
  destruct s as [|c s].
  - exists EmptyString, EmptyString. repeat split; now left.
  - rewrite unquote_cons. destruct (Util.QUOTES (Some c)) eqn:Hq.
    + destruct (stripTrailingQuote_shape s) as (post & Hs & Hpost).
      exists (String c EmptyString), post. simpl. rewrite <- Hs.
      repeat split; [right; now exists c | exact Hpost].
    + destruct (stripTrailingQuote_shape (String c s)) as (post & Hs & Hpost).
      exists EmptyString, post. simpl. split; [exact Hs|]. split; [now left | exact Hpost].
Qed.

(** C9. Quote trimming is done independently at each end, a quote
    character being a double quote, a single quote or a backquote. With
    [q1] and [q2] quote characters, which need not be the same, and [c],
    [c'] code units that are not: a string that opens with [q1] and closes
    with [q2] loses both and becomes exactly what lies between them; a
    string that opens with [q1] and closes with [c] loses its first code
    unit only; a string that opens with [c] and closes with [q2] loses its
    last code unit only; a string that opens with [c] and closes with [c']
    is unchanged, also when it holds quote characters inside. A string
    that is one quote character becomes the empty string, one that is one
    other code unit is unchanged, and so is the empty string. So every
    string [s] loses at most one leading and at most one trailing code
    unit, each of them a quote character. *)
Theorem unquote_trims_each_end_independently
  (q1 q2 : ascii) (body s : string) :
  Util.QUOTES (Some q1) = true ->
  Util.QUOTES (Some q2) = true ->
  Util.unquote (String q1 (body ^^ String q2 EmptyString)) = body
  /\ Util.unquote (String q1 EmptyString) = EmptyString
  /\ (exists pre post, s = pre ^^ Util.unquote s ^^ post
       /\ (pre = EmptyString
           \/ exists q, pre = String q EmptyString /\ Util.QUOTES (Some q) = true)
       /\ (post = EmptyString
           \/ exists q, post = String q EmptyString /\ Util.QUOTES (Some q) = true))
  /\ (forall c, Util.QUOTES (Some c) = false ->
        Util.unquote (String q1 (body ^^ String c EmptyString))
        = body ^^ String c EmptyString)
  /\ (forall c, Util.QUOTES (Some c) = false ->
        Util.unquote (String c (body ^^ String q2 EmptyString)) = String c body)
  /\ (forall c c', Util.QUOTES (Some c) = false -> Util.QUOTES (Some c') = false ->
        Util.unquote (String c (body ^^ String c' EmptyString))
        = String c (body ^^ String c' EmptyString))
  /\ (forall c, Util.QUOTES (Some c) = false ->
        Util.unquote (String c EmptyString) = String c EmptyString)
  /\ Util.unquote EmptyString = EmptyString.
Proof.
  intros H1 H2. split; [|split; [|split; [|split; [|split; [|split; [|split]]]]]].
  - rewrite unquote_cons, H1, stripTrailingQuote_last, H2. reflexivity.
  - rewrite unquote_cons, H1. reflexivity.
  - apply unquote_shape.
  - intros c Hc. rewrite unquote_cons, H1, stripTrailingQuote_last, Hc. reflexivity.
  - intros c Hc. rewrite unquote_cons, Hc.
    change (String c (body ^^ String q2 EmptyString))
      with (String c body ^^ String q2 EmptyString).
    rewrite stripTrailingQuote_last, H2. reflexivity.
  - intros c c' Hc Hc'. rewrite unquote_cons, Hc.
    change (String c (body ^^ String c' EmptyString))
      with (String c body ^^ String c' EmptyString).
    rewrite stripTrailingQuote_last, Hc'. reflexivity.
  - intros c Hc. rewrite unquote_cons, Hc.
    change (String c EmptyString) with (EmptyString ^^ String c EmptyString).
    rewrite stripTrailingQuote_last, Hc. reflexivity.
  - reflexivity.
Qed.

(** A selection that opens with a single quote and closes with a double
    quote loses both; one that only opens with a single quote loses that
    one, and one that only closes with a backquote loses that one. *)
Lemma unquote_trims_each_end_independently_witness :
  Util.QUOTES (Some Util.squote) = true
  /\ Util.QUOTES (Some Util.bquote) = true
  /\ Util.unquote (String Util.squote ("test_add" ^^ String Util.dquote EmptyString))
     = "test_add"
  /\ Util.unquote "'test_add" = "test_add"
  /\ Util.unquote "test_add`" = "test_add"
  /\ Util.unquote "it's" = "it's".
Proof.
  destruct (unquote_trims_each_end_independently
              Util.squote Util.dquote "test_add" "test_add" eq_refl eq_refl)
    as (Hboth & _).
  destruct (unquote_trims_each_end_independently
              Util.squote Util.bquote "test_ad" "test_add" eq_refl eq_refl)
    as (_ & _ & _ & Hlead & _).
  destruct (unquote_trims_each_end_independently
              Util.squote Util.bquote "est_add" "test_add" eq_refl eq_refl)
    as (_ & _ & _ & _ & Htrail & _).
  destruct (unquote_trims_each_end_independently
              Util.squote Util.bquote "t'" "test_add" eq_refl eq_refl)
    as (_ & _ & _ & _ & _ & Hnone & _).
  split; [reflexivity|]. split; [reflexivity|]. split; [exact Hboth|].
  split; [exact (Hlead "d"%char eq_refl)|].
  split; [exact (Htrail "t"%char eq_refl)|].
  exact (Hnone "i"%char "s"%char eq_refl eq_refl).
Defined.

(** ** Selectors and the [-k] expression *)

Lemma startsWith_sep_cons (c : ascii) (s : string) :
  JS.startsWith (String c s) "::" = Ascii.eqb ":"%char c && JS.startsWith s ":".
Proof. reflexivity. Qed.

Lemma startsWith_colon (s : string) :
  JS.startsWith s ":" = match s with
                        | String d _ => Ascii.eqb ":"%char d
                        | EmptyString => false
                        end.
Proof. destruct s; [reflexivity | apply andb_true_r]. Qed.

(** The code unit after the prefix [a] is a colon in both strings. *)
Lemma startsWith_colon_after (a t : string) :
  JS.startsWith (a ^^ ":") ":" = false ->
  JS.startsWith (a ^^ t) ":" = false.
Proof.
  rewrite !startsWith_colon. destruct a as [|d a]; [|trivial].
  cbv. discriminate.
Qed.

Lemma includes_cons (c : ascii) (s p : string) :
  JS.includes (String c s) p = JS.startsWith (String c s) p || JS.includes s p.
Proof. reflexivity. Qed.

Lemma replace_cons (c : ascii) (s pat rep : string) :
  JS.replace (String c s) pat rep
  = if JS.startsWith (String c s) pat
    then rep ^^ JS.drop (String.length pat) (String c s)
    else String c (JS.replace s pat rep).
Proof. reflexivity. Qed.

Lemma replace_first_separator (a b : string) :
  beforeFirstSeparator a ->
  JS.replace (a ^^ "::" ^^ b) "::" " and " = a ^^ " and " ^^ b.
Proof.
  unfold beforeFirstSeparator.
  induction a as [|c a IH]; intros H.
  - reflexivity.
  - change (String c a ^^ ":") with (String c (a ^^ ":")) in H.
    rewrite includes_cons in H. apply orb_false_iff in H as [Hs Hi].
    change (String c a ^^ "::" ^^ b) with (String c (a ^^ "::" ^^ b)).
    assert (Hs' : JS.startsWith (String c (a ^^ "::" ^^ b)) "::" = false).
    { rewrite startsWith_sep_cons in *. destruct (Ascii.eqb ":" c); [|reflexivity].
      rewrite andb_true_l in *. now apply startsWith_colon_after. }
    rewrite replace_cons, Hs', IH by exact Hi. reflexivity.
Qed.

Lemma includes_append_r (a b p : string) :
  JS.includes b p = true -> JS.includes (a ^^ b) p = true.
Proof.
  intros H. induction a as [|c a IH]; [exact H|].
  change (String c a ^^ b) with (String c (a ^^ b)).
  rewrite includes_cons, IH. apply orb_true_r.
Qed.

Lemma includes_split (s : string) :
  JS.includes s "::" = true ->
  exists a b, s = a ^^ "::" ^^ b /\ beforeFirstSeparator a.
Proof.
  unfold beforeFirstSeparator.
  induction s as [|c s IH]; intros H; [discriminate|].
  rewrite includes_cons in H.
  destruct (JS.startsWith (String c s) "::") eqn:Hs.
  - exists EmptyString. rewrite startsWith_sep_cons in Hs.
    apply andb_true_iff in Hs as [Hc Hs]. apply Ascii.eqb_eq in Hc. subst c.
    rewrite startsWith_colon in Hs. destruct s as [|d s]; [discriminate|].
    apply Ascii.eqb_eq in Hs. subst d.
    exists s. split; reflexivity.
  - simpl in H. destruct (IH H) as (a & b & -> & Ha).
    exists (String c a), b. split; [reflexivity|].
    change (String c a ^^ ":") with (String c (a ^^ ":")).
    rewrite includes_cons, Ha, orb_false_r.
    rewrite startsWith_sep_cons in *. destruct (Ascii.eqb ":" c); [|reflexivity].
    rewrite andb_true_l in *. rewrite startsWith_colon in *.
    destruct a as [|d a]; exact Hs.
Qed.

Lemma no_separator_after_replace (a b : string) :
  beforeFirstSeparator a -> JS.includes b "::" = false ->
  JS.includes (a ^^ " and " ^^ b) "::" = false.
Proof.
  unfold beforeFirstSeparator. intros Ha Hb.
  induction a as [|c a IH].
  - simpl. rewrite Hb. reflexivity.
  - change (String c a ^^ ":") with (String c (a ^^ ":")) in Ha.
    rewrite includes_cons in Ha. apply orb_false_iff in Ha as [Hs Hi].
    change (String c a ^^ " and " ^^ b) with (String c (a ^^ " and " ^^ b)).
    rewrite includes_cons, (IH Hi), orb_false_r.
    rewrite startsWith_sep_cons in *. destruct (Ascii.eqb ":" c); [|reflexivity].
    rewrite andb_true_l in *. rewrite startsWith_colon in *.
    destruct a as [|d a]; [reflexivity | exact Hs].
Qed.


(** ** Command building *)

Lemma includes_true_truthy (s p : string) :
  JS.truthy p = true -> JS.includes s p = true -> JS.truthy s = true.
Proof. destruct s; [destruct p; discriminate | reflexivity]. Qed.

(** With a truthy selector the arguments are the file, [-k], the quoted
    expression, and then what is built without a selector. *)
Lemma buildPytestArgs_selector (cfg : Config.PytestRunnerConfig)
  (filePath testName : string) (withQuotes : bool) (options : option (list string)) :
  JS.truthy testName = true ->
  Runner.buildPytestArgs cfg filePath (Some testName) withQuotes options
  = quoterOf cfg withQuotes (Util.normalizePath (platformWin32 (Config.host cfg)) filePath)
    :: "-k"
    :: quoterOf cfg withQuotes
         (if JS.includes testName "::" then JS.replace testName "::" " and "
          else testName)
    :: tl (Runner.buildPytestArgs cfg filePath None withQuotes options).
Proof.
  intros Ht. unfold Runner.buildPytestArgs, quoterOf. rewrite Ht.
  destruct (JS.includes testName "::");
    destruct (JS.truthy (Config.getPytestConfigPath cfg filePath));
    destruct (0 <? Z.of_nat (List.length (Config.pytestArgs cfg)));
    destruct (0 <? Z.of_nat (List.length match options with Some o => o | None => [] end));
    cbn [app tl]; rewrite <- ?app_assoc; reflexivity.
Qed.

(** C7. For every selector containing the separator [::], the selector
    splits at its first separator into two parts [a] and [b], and the
    argument that follows [-k] is the (quoted) expression [a and b]: the two
    parts joined by the keyword, the separator between them gone; when the
    second part holds no further separator the expression holds no
    double colon at all. A non-empty selector without [::] follows [-k] as
    it is, as a single name. In both cases the file path comes first and
    the remaining arguments are those built without a selector. *)
Theorem selector_passed_to_k_option (cfg : Config.PytestRunnerConfig)
  (filePath testName : string) (withQuotes : bool) (options : option (list string)) :
  let quoter := quoterOf cfg withQuotes in
  let file := quoter (Util.normalizePath (platformWin32 (Config.host cfg)) filePath) in
  let args := Runner.buildPytestArgs cfg filePath (Some testName) withQuotes options in
  let others := tl (Runner.buildPytestArgs cfg filePath None withQuotes options) in
  (JS.includes testName "::" = true ->
   exists a b, testName = a ^^ "::" ^^ b
     /\ beforeFirstSeparator a
     /\ args = file :: "-k" :: quoter (a ^^ " and " ^^ b) :: others
     /\ (JS.includes b "::" = false -> JS.includes (a ^^ " and " ^^ b) "::" = false))
  /\ (JS.includes testName "::" = false -> JS.truthy testName = true ->
      args = file :: "-k" :: quoter testName :: others).
Proof.
  cbv zeta. split.
  - intros Hi. destruct (includes_split _ Hi) as (a & b & Hab & Ha).
    exists a, b. split; [exact Hab|]. split; [exact Ha|]. split.
    + rewrite buildPytestArgs_selector by (now apply includes_true_truthy with (p := "::")).
      rewrite Hi, Hab, replace_first_separator by exact Ha. reflexivity.
    + now apply no_separator_after_replace.
  - intros Hi Ht. rewrite buildPytestArgs_selector by exact Ht. now rewrite Hi.
Qed.

(** C10. Only the first separator is translated: for every selector
    [a::rest] whose first separator follows [a] and whose remainder [rest]
    holds further separators, the expression after [-k] is [a and rest],
    with [rest], and so its separators, verbatim; [A::B::C] gives
    [A and B::C]. *)
Theorem only_first_separator_translated (cfg : Config.PytestRunnerConfig)
  (filePath a rest : string) (withQuotes : bool) (options : option (list string)) :
  beforeFirstSeparator a ->
  JS.includes rest "::" = true ->
  Runner.buildPytestArgs cfg filePath (Some (a ^^ "::" ^^ rest)) withQuotes options
  = quoterOf cfg withQuotes (Util.normalizePath (platformWin32 (Config.host cfg)) filePath)
    :: "-k"
    :: quoterOf cfg withQuotes (a ^^ " and " ^^ rest)
    :: tl (Runner.buildPytestArgs cfg filePath None withQuotes options)
  /\ JS.includes (a ^^ " and " ^^ rest) "::" = true
  /\ JS.replace "A::B::C" "::" " and " = "A and B::C".
Proof.
  intros Ha Hr. split; [|split].
  - assert (Hi : JS.includes (a ^^ "::" ^^ rest) "::" = true).
    { apply includes_append_r. reflexivity. }
    rewrite buildPytestArgs_selector by (now apply includes_true_truthy with (p := "::")).
    rewrite Hi, replace_first_separator by exact Ha. reflexivity.
  - apply includes_append_r, includes_append_r, Hr.
  - reflexivity.
Qed.

Lemma selector_passed_to_k_option_witness :
  JS.includes "TestCalc::test_divide" "::" = true
  /\ (exists a b, "TestCalc::test_divide" = a ^^ "::" ^^ b
        /\ beforeFirstSeparator a
        /\ Runner.buildPytestArgs defaultConfig "calc_test.py"
             (Some "TestCalc::test_divide") true None
           = ["'calc_test.py'"; "-k"; Util.quote false (a ^^ " and " ^^ b); "-v"])
  /\ Runner.buildPytestArgs defaultConfig "calc_test.py" (Some "test_add") true None
     = ["'calc_test.py'"; "-k"; "'test_add'"; "-v"].
Proof.
  pose proof (selector_passed_to_k_option defaultConfig "calc_test.py"
                "TestCalc::test_divide" true None) as [Hsep _].
  pose proof (selector_passed_to_k_option defaultConfig "calc_test.py"
                "test_add" true None) as [_ Hbare].
  split; [reflexivity|]. split.
  - destruct (Hsep eq_refl) as (a & b & Hab & Ha & Hargs & _).
    exists a, b. split; [exact Hab|]. split; [exact Ha | exact Hargs].
  - exact (Hbare eq_refl eq_refl).
Defined.

(** The selector of the specification: class and method, on the command
    line. *)
Example method_selector_on_the_command_line :
  Runner.buildPytestArgs defaultConfig "calc_test.py"
    (Some "TestCalc::test_divide") true None
  = ["'calc_test.py'"; "-k"; "'TestCalc and test_divide'"; "-v"].
Proof. reflexivity. Qed.

Lemma only_first_separator_translated_witness :
  beforeFirstSeparator "A"
  /\ JS.includes "B::C" "::" = true
  /\ Runner.buildPytestArgs defaultConfig "calc_test.py" (Some "A::B::C") true None
     = ["'calc_test.py'"; "-k"; "'A and B::C'"; "-v"].
Proof.
  split; [reflexivity | split; [reflexivity|]].
  apply (only_first_separator_translated defaultConfig "calc_test.py" "A" "B::C" true None);
    reflexivity.
Defined.

(** C2. With the default settings, where the configured default arguments
    are [-v], the command built for the selector [test_add] on
    [calc_test.py] carries the default arguments twice: once inside the
    command prefix, where [pytestCommand] appends them to the executable,
    and once more after the [-k] expression, where [buildPytestArgs]
    appends them. *)
Theorem default_arguments_appear_twice :
  Config.pytestArgs defaultConfig = ["-v"]
  /\ Config.pytestCommand defaultConfig noCalls = (Returned "pytest -v", noCalls)
  /\ Runner.buildPytestArgs defaultConfig "calc_test.py" (Some "test_add") true None
     = ["'calc_test.py'"; "-k"; "'test_add'"; "-v"]
  /\ Runner.buildPytestCommand defaultConfig "calc_test.py" (Some "test_add") None noCalls
     = (Returned "pytest -v 'calc_test.py' -k 'test_add' -v", noCalls).
Proof. repeat split; reflexivity. Qed.

(** ** Position resolution: explicit selection *)

(** C8. For every host (hence every tree that parsing the file would
    give), every cursor line and every non-empty selection, position
    resolution returns the selected text after [unquote] has trimmed its
    enclosing quote characters: a selection that opens and closes with a
    quote character (a double quote, a single quote or a backquote) gives
    exactly what lies between the two, and a selection that neither opens
    nor closes with one is returned as it is. Neither parser is called,
    so no tree is looked up, and the answer is the same on any other
    host, whatever the file holds there. *)
Theorem explicit_selection_wins (h : Host) (editor : Runner.TextEditor) (calls : Calls) :
  Runner.selection_isEmpty editor = false ->
  Runner.findCurrentTestName h editor calls
  = (Returned (Some (Util.unquote (Runner.selection_text editor))), calls)
  /\ (forall h', Runner.findCurrentTestName h' editor calls
                 = Runner.findCurrentTestName h editor calls)
  /\ (forall q1 q2 name,
        Util.QUOTES (Some q1) = true -> Util.QUOTES (Some q2) = true ->
        Runner.selection_text editor = String q1 (name ^^ String q2 EmptyString) ->
        Runner.findCurrentTestName h editor calls = (Returned (Some name), calls))
  /\ (forall c c' inner,
        Util.QUOTES (Some c) = false -> Util.QUOTES (Some c') = false ->
        Runner.selection_text editor = String c (inner ^^ String c' EmptyString) ->
        Runner.findCurrentTestName h editor calls
        = (Returned (Some (Runner.selection_text editor)), calls))
  /\ (forall c,
        Util.QUOTES (Some c) = false ->
        Runner.selection_text editor = String c EmptyString ->
        Runner.findCurrentTestName h editor calls
        = (Returned (Some (Runner.selection_text editor)), calls)).
Proof.
  intros Hsel.
  assert (Hrun : forall h0, Runner.findCurrentTestName h0 editor calls
                 = (Returned (Some (Util.unquote (Runner.selection_text editor))), calls)).
  { intros h0. unfold Runner.findCurrentTestName. now rewrite Hsel. }
  split; [apply Hrun|]. split; [intros h'; now rewrite !Hrun|]. split; [|split].
  - intros q1 q2 name H1 H2 Htext. rewrite Hrun, Htext.
    now rewrite unquote_cons, H1, stripTrailingQuote_last, H2.
  - intros c c' inner Hc Hc' Htext. rewrite Hrun, Htext. rewrite unquote_cons, Hc.
    change (String c (inner ^^ String c' EmptyString))
      with (String c inner ^^ String c' EmptyString).
    now rewrite stripTrailingQuote_last, Hc'.
  - intros c Hc Htext. rewrite Hrun, Htext. rewrite unquote_cons, Hc.
    change (String c EmptyString) with (EmptyString ^^ String c EmptyString).
    now rewrite stripTrailingQuote_last, Hc.
Qed.

(** The selection [foo] is returned as it is, and a selection of
    [test_add] with its enclosing quotes gives [test_add]. *)
Lemma explicit_selection_wins_witness :
  Runner.selection_isEmpty (editorSelecting "foo" 1) = false
  /\ Runner.findCurrentTestName plainHost (editorSelecting "foo" 1) noCalls
     = (Returned (Some "foo"), noCalls)
  /\ Runner.selection_isEmpty (editorSelecting "'test_add`" 1) = false
  /\ Runner.findCurrentTestName plainHost (editorSelecting "'test_add`" 1) noCalls
     = (Returned (Some "test_add"), noCalls).
Proof.
  destruct (explicit_selection_wins plainHost (editorSelecting "foo" 1) noCalls eq_refl)
    as (_ & _ & _ & Hplain & _).
  destruct (explicit_selection_wins plainHost (editorSelecting "'test_add`" 1) noCalls
              eq_refl)
    as (_ & _ & Hquoted & _).
  split; [reflexivity|]. split; [exact (Hplain "f"%char "o"%char "o" eq_refl eq_refl eq_refl)|].
  split; [reflexivity|].
  exact (Hquoted Util.squote Util.bquote "test_add" eq_refl eq_refl eq_refl).
Defined.

(** ** Position resolution: the tree search *)

Lemma findInChildren_children (selectedLine : Z) (element : PythonTestNode) :
  Util.findInChildren selectedLine element
  = Util.findFullTestName selectedLine (children element).
Proof. destruct element as [? ? ? ? ? ? ? ? [l|] ?]; reflexivity. Qed.

Lemma find_all_false {A : Type} (f : A -> bool) (l : list A) :
  (forall x, In x l -> f x = false) -> find f l = None.
Proof.
  induction l as [|x l IH]; intros H; [reflexivity|].
  simpl. rewrite (H x (or_introl eq_refl)). apply IH.
  intros y Hy. apply H. now right.
Qed.

(** Elements whose search gives nothing truthy are passed over. *)
Lemma firstNested_skip (rec : PythonTestNode -> option string)
  (pre rest : list PythonTestNode) :
  (forall p, In p pre -> forall r, rec p = Some r -> JS.truthy r = false) ->
  Util.firstNested rec (pre ++ rest) = Util.firstNested rec rest.
Proof.
  induction pre as [|p pre IH]; intros H; [reflexivity|].
  simpl. destruct (rec p) as [r|] eqn:Hr.
  - rewrite (H p (or_introl eq_refl) r Hr). apply IH.
    intros q Hq. apply H. now right.
  - apply IH. intros q Hq. apply H. now right.
Qed.

(** C1 (amended). The entities of one level are tested before any of
    their children. (1) When an entity of the top level matches the cursor
    line (the line is the entity's line, or its [endLine] is known and the
    line lies between the two) the first such entity is the answer, with
    its [fullName], or its [name] when that is empty. (2) A method [m] is
    the answer when no entity of the top level matches the cursor line,
    its class [c] is the first top-level entity whose children give a
    non-empty name, [m] is the first child of [c] that matches the cursor
    line, and the name returned for [m] is not empty. *)
Theorem resolution_tests_a_level_before_its_children
  (selectedLine : Z) (top : list PythonTestNode) :
  (forall e, find (Util.lineMatches selectedLine) top = Some e ->
     Util.findFullTestName selectedLine (Some top) = Some (Util.returnedName e))
  /\ (forall pre c post ms m,
        top = pre ++ c :: post ->
        (forall e, In e top -> Util.lineMatches selectedLine e = false) ->
        (forall p, In p pre -> forall r,
           Util.findFullTestName selectedLine (children p) = Some r ->
           JS.truthy r = false) ->
        children c = Some ms ->
        find (Util.lineMatches selectedLine) ms = Some m ->
        JS.truthy (Util.returnedName m) = true ->
        Util.findFullTestName selectedLine (Some top) = Some (Util.returnedName m)).
Proof.
  split.
  - intros e He. unfold Util.findFullTestName, Util.findLevel. now rewrite He.
  - intros pre c post ms m -> Hnone Hpre Hms Hm Hname.
    unfold Util.findFullTestName at 1. unfold Util.findLevel.
    rewrite (find_all_false _ _ Hnone).
    rewrite firstNested_skip.
    + simpl. rewrite findInChildren_children, Hms.
      unfold Util.findFullTestName, Util.findLevel. rewrite Hm, Hname. reflexivity.
    + intros p Hp r Hr. rewrite findInChildren_children in Hr. now apply (Hpre p Hp).
Qed.

Lemma resolution_tests_a_level_before_its_children_witness :
  find (Util.lineMatches 4) [spannedClass] = Some spannedClass
  /\ Util.findFullTestName 4 (Some [spannedClass]) = Some "TestCalc"
  /\ Util.lineMatches 3 parsedClass = false
  /\ find (Util.lineMatches 3) [parsedMethod] = Some parsedMethod
  /\ Util.findFullTestName 3 (Some [parsedClass]) = Some "TestCalc::test_divide".
Proof.
  pose proof (resolution_tests_a_level_before_its_children 4 [spannedClass]) as [Hlevel _].
  pose proof (resolution_tests_a_level_before_its_children 3 [parsedClass]) as [_ Hchild].
  split; [reflexivity|]. split; [exact (Hlevel spannedClass eq_refl)|].
  split; [reflexivity|]. split; [reflexivity|].
  apply (Hchild [] parsedClass [] [parsedMethod] parsedMethod); try reflexivity.
  - intros e [<- | []]. reflexivity.
  - intros p [].
Defined.

(** C1 as stated fails: line 4 lies strictly inside the span 3..5 of the
    method [TestCalc::test_divide], yet the answer is the enclosing class,
    whose span 1..10 is tested first. On the tree the parser builds for the
    same file, which carries no [endLine], line 4 resolves to nothing. *)
Lemma cursor_inside_method_resolves_to_class :
  children spannedClass = Some [spannedMethod]
  /\ line spannedMethod < 4
  /\ endLine spannedMethod = Some 5
  /\ 4 < 5
  /\ Util.findFullTestName 4 (Some [spannedClass]) = Some (fullName spannedClass)
  /\ Util.findFullTestName 4 (Some [spannedClass]) <> Some (fullName spannedMethod)
  /\ Util.findFullTestName 4 (Some [parsedClass]) = None.
Proof. repeat split; try reflexivity. discriminate. Qed.

(** ** The parse coordinator *)

(** Each parser returns, whatever the host answers, and is counted once. *)
Lemma parsePythonFile_run (h : Host) (filePath : string) (c : Calls) :
  Parser.parsePythonFile h filePath c
  = (Returned (structuralTree h filePath), oneMoreStructural c).
Proof.
  unfold structuralTree, Parser.parsePythonFile, Eff.bind, Eff.tryCatch,
    Eff.countStructural, Eff.orThrow, Eff.ret, Eff.throw, oneMoreStructural.
  simpl.
  destruct (existsSync h (pythonParserPath h)); simpl; [|reflexivity].
  destruct (execSync h _) as [output|]; simpl; [|reflexivity].
  destruct (JSON_parse h output) as [[[ts|] [|]]|]; reflexivity.
Qed.

Lemma parseWithRegex_run (h : Host) (filePath : string) (c : Calls) :
  Parser.parseWithRegex h filePath c
  = (Returned (patternTree h filePath), oneMorePattern c).
Proof.
  unfold patternTree, Parser.parseWithRegex, Eff.bind, Eff.tryCatch,
    Eff.countPattern, Eff.orThrow, Eff.ret, Eff.throw, oneMorePattern.
  simpl. destruct (readFileSync h filePath); reflexivity.
Qed.

Lemma parseTestFile_run (h : Host) (filePath : string) (c : Calls) :
  Parser.parseTestFile h filePath c
  = if negb (existsSync h filePath) then (Returned [], c)
    else if negb (Parser.isTestFile filePath) then (Returned [], c)
    else if 0 <? Z.of_nat (List.length (structuralTree h filePath))
         then (Returned (structuralTree h filePath), oneMoreStructural c)
         else (Returned (patternTree h filePath),
               oneMorePattern (oneMoreStructural c)).
Proof.
  unfold Parser.parseTestFile.
  destruct (negb (existsSync h filePath)); [reflexivity|].
  destruct (negb (Parser.isTestFile filePath)); [reflexivity|].
  unfold Eff.tryCatch, Eff.bind. rewrite parsePythonFile_run.
  destruct (0 <? Z.of_nat (List.length (structuralTree h filePath))); [reflexivity|].
  rewrite parseWithRegex_run. reflexivity.
Qed.

(** C3 (amended). There is no cache: on a file that exists and has a
    test-file name, every call of [parse] invokes the structural parser
    once more, so that its call count grows by one with each of two
    successive calls, and the second call, on the unchanged host, returns a
    tree equal to the one of the first call. *)
Theorem parse_invokes_the_parser_on_every_call
  (h : Host) (filePath : string) (c : Calls) :
  existsSync h filePath = true ->
  Parser.isTestFile filePath = true ->
  let first := Parser.parse h filePath c in
  let second := Parser.parse h filePath (snd first) in
  fst second = fst first
  /\ structuralCalls (snd first) = S (structuralCalls c)
  /\ structuralCalls (snd second) = S (structuralCalls (snd first)).
Proof.
  intros He Ht. cbv zeta. unfold Parser.parse.
  rewrite !parseTestFile_run, He, Ht. simpl negb. cbv iota.
  destruct (0 <? Z.of_nat (List.length (structuralTree h filePath)));
    repeat split; reflexivity.
Qed.

Lemma parse_invokes_the_parser_on_every_call_witness :
  existsSync scriptHost "/ws/calc_test.py" = true
  /\ Parser.isTestFile "/ws/calc_test.py" = true
  /\ structuralCalls
       (snd (Parser.parse scriptHost "/ws/calc_test.py"
               (snd (Parser.parse scriptHost "/ws/calc_test.py" noCalls))))
     = S (structuralCalls (snd (Parser.parse scriptHost "/ws/calc_test.py" noCalls))).
Proof.
  split; [reflexivity | split; [reflexivity|]].
  apply (parse_invokes_the_parser_on_every_call scriptHost "/ws/calc_test.py" noCalls);
    reflexivity.
Defined.

(** C3 as stated fails: parsing the same unmodified file a second time
    returns an equal tree but invokes the structural parser again; the call
    count goes from 1 to 2. *)
Lemma second_parse_invokes_the_parser_again :
  let first := Parser.parse scriptHost "/ws/calc_test.py" noCalls in
  let second := Parser.parse scriptHost "/ws/calc_test.py" (snd first) in
  fst second = fst first
  /\ structuralCalls (snd first) = 1%nat
  /\ structuralCalls (snd second) = 2%nat
  /\ structuralCalls (snd second) <> structuralCalls (snd first).
Proof. repeat split; try reflexivity. discriminate. Qed.

(** ** Sorting by line *)

Section SortByLine.

Lemma insertByLine_perm (x : PythonTestNode) (l : list PythonTestNode) :
  Permutation (x :: l) (Parser.insertByLine x l).
Proof.
  induction l as [|y l IH]; simpl; [apply Permutation_refl|].
  destruct (line x <=? line y); [apply Permutation_refl|].
  eapply perm_trans; [apply perm_swap | apply perm_skip, IH].
Qed.

Lemma sortByLine_perm (l : list PythonTestNode) :
  Permutation l (Parser.sortByLine l).
Proof.
  induction l as [|x l IH]; simpl; [apply perm_nil|].
  eapply perm_trans; [apply perm_skip, IH | apply insertByLine_perm].
Qed.

Lemma insertByLine_sorted (x : PythonTestNode) (l : list PythonTestNode) :
  StronglySorted lineLe l -> StronglySorted lineLe (Parser.insertByLine x l).
Proof.
  induction 1 as [|y l Hs IH Hy]; simpl.
  - constructor; constructor.
  - destruct (Z.leb_spec (line x) (line y)) as [Hle|Hgt].
    + constructor; [now constructor|]. constructor; [exact Hle|].
      eapply Forall_impl; [|exact Hy]. unfold lineLe. intros; lia.
    + constructor; [exact IH|].
      apply (Permutation_Forall (insertByLine_perm x l)).
      constructor; [unfold lineLe; lia | exact Hy].
Qed.

Lemma sortByLine_sorted (l : list PythonTestNode) :
  StronglySorted lineLe (Parser.sortByLine l).
Proof.
  induction l as [|x l IH]; simpl; [constructor | now apply insertByLine_sorted].
Qed.

End SortByLine.

(** ** processTestNodes *)

Lemma groupStep_classless (tests : list Raw.t)
  (processed : list PythonTestNode) (byClass : Parser.ClassMap) :
  Forall classless tests ->
  fold_left Parser.groupStep tests (processed, byClass)
  = (processed ++ map Parser.toNode tests, byClass).
Proof.
  intros H. revert processed.
  induction H as [|t tests Ht _ IH]; intros processed; simpl.
  - now rewrite app_nil_r.
  - unfold classless in Ht. change (class (Parser.toNode t)) with
      (Parser.classOrNull (Raw.class t)). rewrite Ht, IH, <- app_assoc. reflexivity.
Qed.

Lemma processTestNodes_classless (tests : list Raw.t) :
  Forall classless tests ->
  Parser.processTestNodes tests = Parser.sortByLine (map Parser.toNode tests).
Proof.
  intros H. pose proof (groupStep_classless tests [] [] H) as E.
  unfold Parser.processTestNodes, Parser.ClassMap in *. rewrite E. reflexivity.
Qed.

Lemma processTestNodes_sorted (tests : list Raw.t) :
  StronglySorted lineLe (Parser.processTestNodes tests).
Proof.
  unfold Parser.processTestNodes.
  destruct (fold_left Parser.groupStep tests _) as [processed byClass].
  apply sortByLine_sorted.
Qed.

(** *** The children of a class node *)

Section Grouping.

Lemma mapHas_false (m : Parser.ClassMap) (k : string) :
  Parser.mapHas m k = false <-> ~ In k (map fst m).
Proof.
  induction m as [|[k' v] m IH]; simpl; [tauto|].
  rewrite orb_false_iff, IH, String.eqb_neq. tauto.
Qed.

Lemma mapPush_keys (m : Parser.ClassMap) (c : string) (node : PythonTestNode) :
  map fst (Parser.mapPush m c node) = map fst m.
Proof.
  induction m as [|[k v] m IH]; simpl; [reflexivity|].
  destruct (String.eqb k c); simpl; [reflexivity | now rewrite IH].
Qed.

Lemma mapPush_absent (m : Parser.ClassMap) (c : string) (node : PythonTestNode) :
  ~ In c (map fst m) -> Parser.mapPush m c node = m.
Proof.
  induction m as [|[k v] m IH]; simpl; intros H; [reflexivity|].
  destruct (String.eqb_spec k c) as [->|_]; [tauto|].
  rewrite IH; tauto.
Qed.

Lemma mapPush_app_absent (m m' : Parser.ClassMap) (c : string) (node : PythonTestNode) :
  ~ In c (map fst m) ->
  Parser.mapPush (m ++ m') c node = m ++ Parser.mapPush m' c node.
Proof.
  induction m as [|[k v] m IH]; simpl; intros H; [reflexivity|].
  destruct (String.eqb_spec k c) as [->|_]; [tauto|].
  rewrite IH; tauto.
Qed.

Lemma mapPush_In (m : Parser.ClassMap) (c : string) (node : PythonTestNode)
  (k : string) (v' : list PythonTestNode) :
  NoDup (map fst m) ->
  In (k, v') (Parser.mapPush m c node) ->
  exists v, In (k, v) m /\ v' = if String.eqb k c then v ++ [node] else v.
Proof.
  induction m as [|[k0 v0] m IH]; simpl; intros Hnd Hin; [contradiction|].
  inversion Hnd as [|? ? Hk0 Hnd']; subst.
  destruct (String.eqb_spec k0 c) as [->|Hne].
  - destruct Hin as [E|Hin].
    + inversion E; subst. exists v0. rewrite String.eqb_refl. split; [now left | reflexivity].
    + exists v'. split; [now right|].
      destruct (String.eqb_spec k c) as [->|_]; [|reflexivity].
      elim Hk0. change c with (fst (c, v')). now apply in_map.
  - destruct Hin as [E|Hin].
    + inversion E; subst. exists v'. split; [now left|].
      destruct (String.eqb_spec k c); [contradiction | reflexivity].
    + destruct (IH Hnd' Hin) as (v & Hv & ->). exists v. split; [now right | reflexivity].
Qed.

Lemma methodsOf_snoc (k : string) (seen : list Raw.t) (t : Raw.t) :
  methodsOf k (seen ++ [t])
  = methodsOf k seen ++ (if memberOf k t then [Parser.toNode t] else []).
Proof.
  unfold methodsOf. rewrite filter_app, map_app. simpl.
  destruct (memberOf k t); reflexivity.
Qed.

Lemma grouped_step (m : Parser.ClassMap) (seen : list Raw.t) (t : Raw.t)
  (processed : list PythonTestNode) :
  grouped m seen ->
  grouped (snd (Parser.groupStep (processed, m) t)) (seen ++ [t]).
Proof.
  intros (Hnd & Hin & Hout). unfold Parser.groupStep.
  change (class (Parser.toNode t)) with (Parser.classOrNull (Raw.class t)).
  destruct (Parser.classOrNull (Raw.class t)) as [c|] eqn:Hc; simpl snd.
  - assert (Hmem : forall k, memberOf k t = String.eqb c k).
    { intros k. unfold memberOf. now rewrite Hc. }
    destruct (Parser.mapHas m c) eqn:Hhas; simpl negb; cbv iota.
    + (* the class has an entry already *)
      split; [now rewrite mapPush_keys|]. split.
      * intros k v' Hv'. destruct (mapPush_In _ _ _ _ _ Hnd Hv') as (v & Hv & ->).
        rewrite methodsOf_snoc, Hmem, (Hin k v Hv), String.eqb_sym.
        destruct (String.eqb c k); [reflexivity | now rewrite app_nil_r].
      * intros k Hk. rewrite mapHas_false, mapPush_keys, <- mapHas_false in Hk.
        rewrite methodsOf_snoc, Hmem, (Hout k Hk).
        destruct (String.eqb_spec c k) as [->|_]; [congruence | reflexivity].
    + (* a new entry is made for the class *)
      pose proof (proj1 (mapHas_false m c) Hhas) as Hnew.
      unfold Parser.mapSetEmpty. rewrite (mapPush_app_absent _ _ _ _ Hnew).
      simpl. rewrite String.eqb_refl. split; [|split].
      * rewrite map_app. simpl. apply NoDup_app; [exact Hnd | repeat constructor; tauto |].
        intros k Hk [<-|[]]. contradiction.
      * intros k v Hv. apply in_app_or in Hv as [Hv|[E|[]]].
        -- rewrite methodsOf_snoc, Hmem, (Hin k v Hv).
           destruct (String.eqb_spec c k) as [->|_]; [|now rewrite app_nil_r].
           elim Hnew. change k with (fst (k, v)). now apply in_map.
        -- inversion E; subst.
           now rewrite methodsOf_snoc, Hmem, (Hout k Hhas), String.eqb_refl.
      * intros k Hk. rewrite mapHas_false, map_app, in_app_iff in Hk. simpl in Hk.
        rewrite methodsOf_snoc, Hmem.
        destruct (String.eqb_spec c k) as [->|_]; [tauto|].
        rewrite app_nil_r. apply Hout, mapHas_false. tauto.
  - split; [exact Hnd|]. split.
    + intros k v Hv. rewrite methodsOf_snoc. unfold memberOf. rewrite Hc, app_nil_r.
      now apply Hin.
    + intros k Hk. rewrite methodsOf_snoc. unfold memberOf. rewrite Hc, app_nil_r.
      now apply Hout.
Qed.

End Grouping.

(** ** The pattern parser *)

Section PatternFacts.

Lemma space_not_word (c : ascii) : JS.isSpace c = true -> JS.isWord c = false.
Proof.
  destruct c as [[] [] [] [] [] [] [] []]; vm_compute; intros H;
    first [reflexivity | discriminate H].
Qed.

Lemma stripPrefix_append (p s : string) : Parser.stripPrefix p (p ^^ s) = Some s.
Proof.
  induction p as [|a p IH]; simpl; [reflexivity|].
  now rewrite Ascii.eqb_refl.
Qed.

(** A run of code units of one class is taken whole when what follows
    does not start with a code unit of the class. *)
Lemma span_append (p : ascii -> bool) (w r : string) :
  allOf p w = true ->
  match r with String c _ => p c = false | EmptyString => True end ->
  JS.span p (w ^^ r) = (w, r).
Proof.
  intros Hw Hr. induction w as [|c w IH]; simpl in *.
  - destruct r as [|c r]; [reflexivity|]. simpl. now rewrite Hr.
  - apply andb_true_iff in Hw as [Hc Hw]. now rewrite Hc, IH.
Qed.

Lemma trimStart_append (indent s : string) :
  allOf JS.isSpace indent = true ->
  JS.trimStart (indent ^^ s) = JS.trimStart s.
Proof.
  induction indent as [|c indent IH]; simpl; intros H; [reflexivity|].
  apply andb_true_iff in H as [Hc H]. rewrite Hc. now apply IH.
Qed.

(** Trimming the end stops at a code unit that is not white space. *)
Lemma trimEnd_append (a r : string) (c : ascii) :
  JS.isSpace c = false ->
  JS.trimEnd (a ^^ String c r) = a ^^ String c (JS.trimEnd r).
Proof.
  intros Hc. induction a as [|x a IH].
  - simpl. rewrite Hc. now destruct (JS.trimEnd r).
  - change (String x a ^^ String c r) with (String x (a ^^ String c r)).
    cbn [JS.trimEnd]. rewrite IH.
    destruct (a ^^ String c (JS.trimEnd r)) eqn:E.
    + destruct a; discriminate E.
    + simpl. now rewrite E.
Qed.

Lemma truthy_nonempty (s : string) : s <> EmptyString -> JS.truthy s = true.
Proof. destruct s; [congruence | reflexivity]. Qed.

(** The matcher finds every text of the shape of its pattern. *)
Lemma matchDeclaration_finds (keyword prefix : string) (closing : ascii -> bool)
  (p0 : ascii) (prefix' ws w ws2 rest : string) (c : ascii) :
  prefix = String p0 prefix' -> JS.isSpace p0 = false ->
  closing c = true -> JS.isWord c = false -> JS.isSpace c = false ->
  allOf JS.isSpace ws = true -> ws <> EmptyString ->
  allOf JS.isWord w = true ->
  allOf JS.isSpace ws2 = true ->
  Parser.matchDeclaration keyword prefix closing
    (keyword ^^ ws ^^ prefix ^^ w ^^ ws2 ^^ String c rest)
  = Some (prefix ^^ w).
Proof.
  intros Hp Hp0 Hclose Hcw Hcs Hws Hne Hw Hws2.
  unfold Parser.matchDeclaration. rewrite stripPrefix_append.
  rewrite (span_append JS.isSpace ws) by (subst prefix; assumption).
  rewrite (truthy_nonempty ws Hne). cbn [negb]. rewrite stripPrefix_append.
  rewrite (span_append JS.isWord w); [|assumption|].
  - rewrite (span_append JS.isSpace ws2) by assumption. now rewrite Hclose.
  - destruct ws2 as [|d ws2]; [exact Hcw|]. simpl in Hws2.
    apply andb_true_iff in Hws2 as [Hd _]. now apply space_not_word.
Qed.

End PatternFacts.

Section PatternParser.

(** Bring concatenations to right-nested form, literals unfolded. *)
Ltac normalize_append :=
  repeat (progress (cbn [String.append]; rewrite ?append_assoc)).

Lemma trim_keeps_declaration (indent head tail : string) (k0 c : ascii) :
  allOf JS.isSpace indent = true ->
  JS.isSpace k0 = false -> JS.isSpace c = false ->
  JS.trim (indent ^^ String k0 (head ^^ String c tail))
  = String k0 (head ^^ String c (JS.trimEnd tail)).
Proof.
  intros Hi Hk Hc. unfold JS.trim. rewrite (trimStart_append _ _ Hi).
  cbn [JS.trimStart]. rewrite Hk.
  change (String k0 (head ^^ String c tail)) with (String k0 head ^^ String c tail).
  now rewrite (trimEnd_append _ _ _ Hc).
Qed.

Lemma functionMatch_finds (ws w ws2 rest : string) :
  allOf JS.isSpace ws = true -> ws <> EmptyString ->
  allOf JS.isWord w = true -> allOf JS.isSpace ws2 = true ->
  Parser.functionMatch ("def" ^^ ws ^^ "test_" ^^ w ^^ ws2 ^^ "(" ^^ rest)
  = Some ("test_" ^^ w).
Proof.
  intros. unfold Parser.functionMatch.
  apply (matchDeclaration_finds "def" "test_" Parser.isParen "t" "est_");
    auto; reflexivity.
Qed.

Lemma classMatch_finds (ws w ws2 rest : string) (closer : ascii) :
  allOf JS.isSpace ws = true -> ws <> EmptyString ->
  allOf JS.isWord w = true -> allOf JS.isSpace ws2 = true ->
  closer = "("%char \/ closer = ":"%char ->
  Parser.classMatch ("class" ^^ ws ^^ "Test" ^^ w ^^ ws2 ^^ String closer rest)
  = Some ("Test" ^^ w).
Proof.
  intros Hws Hne Hw Hws2 Hc. unfold Parser.classMatch.
  apply (matchDeclaration_finds "class" "Test" Parser.isParenOrColon "T" "est");
    auto; destruct Hc as [-> | ->]; reflexivity.
Qed.

Lemma asyncFunctionMatch_finds (ws0 ws w ws2 rest : string) :
  allOf JS.isSpace ws0 = true -> ws0 <> EmptyString ->
  allOf JS.isSpace ws = true -> ws <> EmptyString ->
  allOf JS.isWord w = true -> allOf JS.isSpace ws2 = true ->
  Parser.asyncFunctionMatch
    ("async" ^^ ws0 ^^ "def" ^^ ws ^^ "test_" ^^ w ^^ ws2 ^^ "(" ^^ rest)
  = Some ("test_" ^^ w).
Proof.
  intros Hws0 Hne0 Hws Hne Hw Hws2. unfold Parser.asyncFunctionMatch.
  rewrite stripPrefix_append.
  rewrite (span_append JS.isSpace ws0) by (assumption || reflexivity).
  rewrite (truthy_nonempty ws0 Hne0). cbn [negb].
  now apply functionMatch_finds.
Qed.

Lemma lineEntity_unfold (i : Z) (text : string) :
  lineEntity i text
  = match Parser.functionMatch (JS.trim text) with
    | Some m => Some (Parser.regexNode m (i + 1) "function" false)
    | None =>
      match Parser.classMatch (JS.trim text) with
      | Some m => Some (Parser.regexNode m (i + 1) "class" false)
      | None =>
        match Parser.asyncFunctionMatch (JS.trim text) with
        | Some m => Some (Parser.regexNode m (i + 1) "function" true)
        | None => None
        end
      end
    end.
Proof.
  unfold lineEntity. cbn [Parser.scanLines].
  destruct (Parser.functionMatch (JS.trim text)); [reflexivity|].
  destruct (Parser.classMatch (JS.trim text)); [reflexivity|].
  destruct (Parser.asyncFunctionMatch (JS.trim text)); reflexivity.
Qed.

(** Every declaration gives its entity, with the number of its line. *)
Lemma lineEntity_declared (i : Z) (text nm ty : string) (isAsync : bool) :
  DeclaresTest text nm ty isAsync ->
  lineEntity i text = Some (Parser.regexNode nm (i + 1) ty isAsync).
Proof.
  intros H. rewrite lineEntity_unfold.
  destruct H as [indent ws w ws2 rest Hi Hws Hne Hw Hws2
                | indent ws w ws2 rest closer Hi Hws Hne Hw Hws2 Hc
                | indent ws0 ws w ws2 rest Hi Hws0 Hne0 Hws Hne Hw Hws2].
  - replace (indent ^^ "def" ^^ ws ^^ "test_" ^^ w ^^ ws2 ^^ "(" ^^ rest)
      with (indent ^^ String "d" (("ef" ^^ ws ^^ "test_" ^^ w ^^ ws2) ^^ String "(" rest))
      by (normalize_append; reflexivity).
    rewrite (trim_keeps_declaration _ _ _ _ _ Hi) by reflexivity.
    replace (String "d" (("ef" ^^ ws ^^ "test_" ^^ w ^^ ws2) ^^ String "(" (JS.trimEnd rest)))
      with ("def" ^^ ws ^^ "test_" ^^ w ^^ ws2 ^^ "(" ^^ JS.trimEnd rest)
      by (normalize_append; reflexivity).
    now rewrite functionMatch_finds.
  - replace (indent ^^ "class" ^^ ws ^^ "Test" ^^ w ^^ ws2 ^^ String closer rest)
      with (indent ^^ String "c" (("lass" ^^ ws ^^ "Test" ^^ w ^^ ws2) ^^ String closer rest))
      by (normalize_append; reflexivity).
    rewrite (trim_keeps_declaration _ _ _ _ _ Hi)
      by (reflexivity || (destruct Hc as [-> | ->]; reflexivity)).
    replace (String "c" (("lass" ^^ ws ^^ "Test" ^^ w ^^ ws2) ^^ String closer (JS.trimEnd rest)))
      with ("class" ^^ ws ^^ "Test" ^^ w ^^ ws2 ^^ String closer (JS.trimEnd rest))
      by (normalize_append; reflexivity).
    rewrite classMatch_finds by assumption. reflexivity.
  - replace (indent ^^ "async" ^^ ws0 ^^ "def" ^^ ws ^^ "test_" ^^ w ^^ ws2 ^^ "(" ^^ rest)
      with (indent ^^ String "a" (("sync" ^^ ws0 ^^ "def" ^^ ws ^^ "test_" ^^ w ^^ ws2)
                                   ^^ String "(" rest))
      by (normalize_append; reflexivity).
    rewrite (trim_keeps_declaration _ _ _ _ _ Hi) by reflexivity.
    replace (String "a" (("sync" ^^ ws0 ^^ "def" ^^ ws ^^ "test_" ^^ w ^^ ws2)
                          ^^ String "(" (JS.trimEnd rest)))
      with ("async" ^^ ws0 ^^ "def" ^^ ws ^^ "test_" ^^ w ^^ ws2 ^^ "(" ^^ JS.trimEnd rest)
      by (normalize_append; reflexivity).
    rewrite asyncFunctionMatch_finds by assumption. reflexivity.
Qed.

End PatternParser.

Section ScanLines.

Lemma scanLines_step (i : Z) (text : string) (rest : list string)
  (acc : list PythonTestNode) :
  Parser.scanLines i (text :: rest) acc
  = Parser.scanLines (i + 1) rest
      (acc ++ match lineEntity i text with Some e => [e] | None => [] end).
Proof.
  rewrite lineEntity_unfold. cbn [Parser.scanLines].
  destruct (Parser.functionMatch (JS.trim text)); [reflexivity|].
  destruct (Parser.classMatch (JS.trim text)); [reflexivity|].
  destruct (Parser.asyncFunctionMatch (JS.trim text));
    [reflexivity | now rewrite app_nil_r].
Qed.

(** What was pushed before stays in front. *)
Lemma scanLines_acc (lines : list string) (i : Z) (acc : list PythonTestNode) :
  Parser.scanLines i lines acc = acc ++ Parser.scanLines i lines [].
Proof.
  revert i acc. induction lines as [|text rest IH]; intros i acc.
  - simpl. now rewrite app_nil_r.
  - rewrite !scanLines_step, (IH _ (acc ++ _)), (IH _ ([] ++ _)), app_assoc.
    reflexivity.
Qed.

Lemma scanLines_cons (i : Z) (text : string) (rest : list string) :
  Parser.scanLines i (text :: rest) []
  = match lineEntity i text with Some e => [e] | None => [] end
    ++ Parser.scanLines (i + 1) rest [].
Proof. now rewrite scanLines_step, scanLines_acc. Qed.

Lemma lineEntity_line (i : Z) (text : string) (e : PythonTestNode) :
  lineEntity i text = Some e -> line e = i + 1.
Proof.
  rewrite lineEntity_unfold.
  destruct (Parser.functionMatch _); [intros [= <-]; reflexivity|].
  destruct (Parser.classMatch _); [intros [= <-]; reflexivity|].
  destruct (Parser.asyncFunctionMatch _); [intros [= <-]; reflexivity | discriminate].
Qed.

Lemma scanLines_nth (lines : list string) (i : Z) (k : nat) (text : string)
  (e : PythonTestNode) :
  nth_error lines k = Some text ->
  lineEntity (i + Z.of_nat k) text = Some e ->
  In e (Parser.scanLines i lines []).
Proof.
  revert i k. induction lines as [|t rest IH]; intros i k Hk He.
  - destruct k; discriminate.
  - rewrite scanLines_cons. apply in_or_app. destruct k as [|k]; simpl in Hk.
    + injection Hk as ->. rewrite Z.add_0_r in He. rewrite He. left. now left.
    + right. apply (IH (i + 1) k Hk).
      replace (i + 1 + Z.of_nat k) with (i + Z.of_nat (S k)) by lia. exact He.
Qed.

(** The entities come in strictly increasing line order, so that no line
    gives two of them. *)
Lemma scanLines_increasing (lines : list string) (i : Z) :
  StronglySorted lineLt (Parser.scanLines i lines [])
  /\ Forall (fun e => i < line e) (Parser.scanLines i lines []).
Proof.
  revert i. induction lines as [|t rest IH]; intros i.
  - split; constructor.
  - rewrite scanLines_cons. destruct (IH (i + 1)) as [Hs Hf].
    assert (Hf' : Forall (fun e => i < line e) (Parser.scanLines (i + 1) rest [])).
    { eapply Forall_impl; [|exact Hf]. simpl. intros; lia. }
    destruct (lineEntity i t) as [e|] eqn:He; simpl; [|now split].
    apply lineEntity_line in He. split.
    + constructor; [exact Hs|]. eapply Forall_impl; [|exact Hf].
      unfold lineLt. simpl. intros; lia.
    + constructor; [lia | exact Hf'].
Qed.

Lemma patternTree_eq (h : Host) (filePath : string) :
  patternTree h filePath
  = match readFileSync h filePath with
    | Some content => Parser.scanLines 0 (JS.splitLines content) []
    | None => []
    end.
Proof.
  unfold patternTree, Parser.parseWithRegex, Eff.bind, Eff.tryCatch,
    Eff.countPattern, Eff.orThrow, Eff.ret, Eff.throw.
  simpl. destruct (readFileSync h filePath); reflexivity.
Qed.

Lemma structuralTree_eq (h : Host) (filePath : string) :
  structuralTree h filePath
  = if existsSync h (pythonParserPath h) then
      match execSync h (parserCommand h filePath) with
      | Some output =>
          match JSON_parse h output with
          | Some (mkResult (Some ts) true) => Parser.processTestNodes ts
          | _ => []
          end
      | None => []
      end
    else [].
Proof.
  unfold structuralTree, Parser.parsePythonFile, Eff.bind, Eff.tryCatch,
    Eff.countStructural, Eff.orThrow, Eff.ret, Eff.throw, parserCommand.
  simpl.
  destruct (existsSync h (pythonParserPath h)); simpl; [|reflexivity].
  destruct (execSync h _) as [output|]; simpl; [|reflexivity].
  destruct (JSON_parse h output) as [[[ts|] [|]]|]; reflexivity.
Qed.

(** The failures of the structural parser all end in the empty list. *)
Lemma structural_failure_gives_nothing (h : Host) (filePath : string) :
  StructuralFailure h filePath -> structuralTree h filePath = [].
Proof.
  intros H. rewrite structuralTree_eq.
  destruct (existsSync h (pythonParserPath h)) eqn:Hs; [|reflexivity].
  destruct H as [H | H | output H1 H2 | output result H1 H2 H3].
  - congruence.
  - now rewrite H.
  - now rewrite H1, H2.
  - rewrite H1, H2. destruct result as [[ts|] [|]]; try reflexivity.
    destruct H3; discriminate.
Qed.

End ScanLines.

(** C6. Whenever the structural parser fails (script missing, process
    failure, malformed output, no success) or yields no entity, the
    coordinator, on a file that exists and has a test-file name, returns
    what the pattern parser returns and does not throw. The pattern parser
    returns the empty list when the file cannot be read; when it can be
    read, every line that holds a [def test_...(], [async def test_...(] or
    [class Test...] declaration gives an entity with the declared name and,
    as line number, the index of the line counted from 1; and the line
    numbers of the entities returned are strictly increasing, so that a
    declaration is reported once. *)
Theorem coordinator_falls_back_to_pattern_parser
  (h : Host) (filePath : string) (c : Calls) :
  existsSync h filePath = true ->
  Parser.isTestFile filePath = true ->
  StructuralFailure h filePath \/ structuralTree h filePath = [] ->
  Parser.parseTestFile h filePath c
  = (Returned (patternTree h filePath), oneMorePattern (oneMoreStructural c))
  /\ (readFileSync h filePath = None -> patternTree h filePath = [])
  /\ (forall content k text nm ty isAsync,
        readFileSync h filePath = Some content ->
        nth_error (JS.splitLines content) k = Some text ->
        DeclaresTest text nm ty isAsync ->
        In (Parser.regexNode nm (Z.of_nat k + 1) ty isAsync) (patternTree h filePath))
  /\ StronglySorted lineLt (patternTree h filePath).
Proof.
  intros He Ht Hs.
  assert (Hs' : structuralTree h filePath = []).
  { destruct Hs as [Hs | Hs]; [now apply structural_failure_gives_nothing | exact Hs]. }
  split; [|split; [|split]].
  - rewrite parseTestFile_run, He, Ht, Hs'. reflexivity.
  - intros Hr. now rewrite patternTree_eq, Hr.
  - intros content k text nm ty isAsync Hr Hk Hd.
    rewrite patternTree_eq, Hr.
    apply (scanLines_nth _ 0 k text); [exact Hk|].
    now apply lineEntity_declared.
  - rewrite patternTree_eq. destruct (readFileSync h filePath).
    + apply scanLines_increasing.
    + constructor.
Qed.

Lemma coordinator_falls_back_to_pattern_parser_witness :
  existsSync plainHost "/ws/calc_test.py" = true
  /\ Parser.isTestFile "/ws/calc_test.py" = true
  /\ StructuralFailure plainHost "/ws/calc_test.py"
  /\ In (Parser.regexNode "test_add" 2 "function" false)
        (patternTree plainHost "/ws/calc_test.py")
  /\ In (Parser.regexNode "test_divide" 5 "function" true)
        (patternTree plainHost "/ws/calc_test.py").
Proof.
  assert (Hfail : StructuralFailure plainHost "/ws/calc_test.py")
    by (apply script_missing; reflexivity).
  pose proof (coordinator_falls_back_to_pattern_parser
                plainHost "/ws/calc_test.py" noCalls eq_refl eq_refl (or_introl Hfail))
    as (_ & _ & Hdecl & _).
  split; [reflexivity|]. split; [reflexivity|]. split; [exact Hfail|]. split.
  - apply (Hdecl _ 1%nat "def test_add():" "test_add" "function" false eq_refl eq_refl).
    apply (declares_function EmptyString " " "add" EmptyString "):");
      first [reflexivity | discriminate].
  - apply (Hdecl _ 4%nat "    async def test_divide(self):" "test_divide" "function" true
             eq_refl eq_refl).
    apply (declares_async "    " " " " " "divide" EmptyString "self):");
      first [reflexivity | discriminate].
Defined.

(** ** The tree of the structural parser *)

Section Attach.

Lemma grouped_empty : grouped [] [].
Proof. split; [constructor | split; [intros k v [] | reflexivity]]. Qed.

Lemma groupStep_childless (processed : list PythonTestNode) (m : Parser.ClassMap)
  (t : Raw.t) :
  Forall (fun e => children e = None) processed ->
  Forall (fun e => children e = None) (fst (Parser.groupStep (processed, m) t)).
Proof.
  intros H. unfold Parser.groupStep.
  destruct (class (Parser.toNode t)); simpl; [exact H|].
  apply Forall_app. split; [exact H | now constructor].
Qed.

Lemma grouped_fold (tests seen : list Raw.t) (processed : list PythonTestNode)
  (m : Parser.ClassMap) :
  grouped m seen ->
  Forall (fun e => children e = None) processed ->
  grouped (snd (fold_left Parser.groupStep tests (processed, m))) (seen ++ tests)
  /\ Forall (fun e => children e = None)
       (fst (fold_left Parser.groupStep tests (processed, m))).
Proof.
  revert seen processed m.
  induction tests as [|t tests IH]; intros seen processed m Hg Hc.
  - simpl. now rewrite app_nil_r.
  - cbn [fold_left].
    pose proof (grouped_step m seen t processed Hg) as Hg'.
    pose proof (groupStep_childless processed m t Hc) as Hc'.
    destruct (Parser.groupStep (processed, m) t) as [processed' m'].
    replace (seen ++ t :: tests) with ((seen ++ [t]) ++ tests)
      by now rewrite <- app_assoc.
    now apply IH.
Qed.

(** Where the entities of the second pass come from. *)
Lemma attach_fold_In (tests : list Raw.t) (m : Parser.ClassMap)
  (acc : list PythonTestNode) (e : PythonTestNode) :
  In e (fold_left (Parser.attachStep tests) m acc) ->
  In e acc
  \/ exists k v, In (k, v) m /\ (In e v \/ (name e = k /\ children e = Some v)).
Proof.
  revert acc. induction m as [|[k v] m IH]; intros acc H; [now left|].
  cbn [fold_left] in H. apply IH in H as [H | (k' & v' & Hin & H)].
  - unfold Parser.attachStep in H.
    destruct (find (Parser.isClassNamed k) tests).
    + apply in_app_or in H as [H | [<- | []]]; [now left|].
      right. exists k, v. split; [now left | right; now split].
    + apply in_app_or in H as [H | H]; [now left|].
      right. exists k, v. split; [now left | now left].
  - right. exists k', v'. split; [now right | exact H].
Qed.

Lemma children_in_parser_order (tests : list Raw.t) (e : PythonTestNode)
  (ms : list PythonTestNode) :
  In e (Parser.processTestNodes tests) ->
  children e = Some ms ->
  ms = methodsOf (name e) tests.
Proof.
  unfold Parser.processTestNodes. intros Hin Hms.
  destruct (grouped_fold tests [] [] [] grouped_empty (Forall_nil _)) as [Hg Hc].
  destruct (fold_left Parser.groupStep tests _) as [processed byClass].
  simpl in Hg, Hc. destruct Hg as (_ & Hg & _).
  apply (Permutation_in _ (Permutation_sym (sortByLine_perm _))) in Hin.
  apply attach_fold_In in Hin as [Hin | (k & v & Hkv & [Hin | [Hk Hv]])].
  - rewrite Forall_forall in Hc. rewrite (Hc e Hin) in Hms. discriminate.
  - rewrite (Hg k v Hkv) in Hin. unfold methodsOf in Hin.
    apply in_map_iff in Hin as (t & <- & _). discriminate.
  - rewrite Hv in Hms. injection Hms as <-. rewrite Hk. now apply Hg.
Qed.

Lemma lineLt_lineLe (l : list PythonTestNode) :
  StronglySorted lineLt l -> StronglySorted lineLe l.
Proof.
  induction 1 as [|x l _ IH Hx]; constructor; [exact IH|].
  eapply Forall_impl; [|exact Hx]. unfold lineLt, lineLe. simpl. intros; lia.
Qed.

Lemma structuralTree_sorted (h : Host) (filePath : string) :
  StronglySorted lineLe (structuralTree h filePath).
Proof.
  rewrite structuralTree_eq.
  destruct (existsSync h (pythonParserPath h)); [|constructor].
  destruct (execSync h _) as [output|]; [|constructor].
  destruct (JSON_parse h output) as [[[ts|] [|]]|]; try constructor.
  apply processTestNodes_sorted.
Qed.

Lemma patternTree_sorted (h : Host) (filePath : string) :
  StronglySorted lineLt (patternTree h filePath).
Proof.
  rewrite patternTree_eq. destruct (readFileSync h filePath).
  - apply scanLines_increasing.
  - constructor.
Qed.

End Attach.

(** C4 (amended). In every tree the parse coordinator returns the
    top-level list is sorted by line, ascending, and so is every list
    [processTestNodes] builds. The children of a class node are not
    sorted: they are the methods of the class in the order in which the
    output of the structural parser lists them. When no declaration of
    that output names an enclosing class, the [N] declarations give exactly
    [N] top-level entities, the same ones, ordered by line. *)
Theorem top_level_sorted_children_in_parser_order
  (h : Host) (filePath : string) (c : Calls) (tests : list Raw.t) :
  (forall result c', Parser.parse h filePath c = (Returned result, c') ->
     StronglySorted lineLe result)
  /\ StronglySorted lineLe (Parser.processTestNodes tests)
  /\ (forall e ms, In e (Parser.processTestNodes tests) ->
        children e = Some ms -> ms = methodsOf (name e) tests)
  /\ (Forall classless tests ->
        List.length (Parser.processTestNodes tests) = List.length tests
        /\ Permutation (map Parser.toNode tests) (Parser.processTestNodes tests)).
Proof.
  split; [|split; [|split]].
  - intros result c'. unfold Parser.parse. rewrite parseTestFile_run.
    destruct (negb (existsSync h filePath)); [intros [= <- _]; constructor|].
    destruct (negb (Parser.isTestFile filePath)); [intros [= <- _]; constructor|].
    destruct (0 <? Z.of_nat (List.length (structuralTree h filePath)));
      intros [= <- _].
    + apply structuralTree_sorted.
    + apply lineLt_lineLe, patternTree_sorted.
  - apply processTestNodes_sorted.
  - apply children_in_parser_order.
  - intros Hc. rewrite (processTestNodes_classless tests Hc). split.
    + rewrite <- (Permutation_length (sortByLine_perm _)). apply length_map.
    + apply sortByLine_perm.
Qed.

Lemma top_level_sorted_children_in_parser_order_witness :
  Forall classless flatInventory
  /\ List.length (Parser.processTestNodes flatInventory) = 2%nat
  /\ map line (Parser.processTestNodes flatInventory) = [2; 7]
  /\ StronglySorted lineLe (Parser.processTestNodes flatInventory).
Proof.
  pose proof (top_level_sorted_children_in_parser_order
                scriptHost "/ws/calc_test.py" noCalls flatInventory)
    as (_ & Hsorted & _ & Hflat).
  assert (Hc : Forall classless flatInventory) by (repeat constructor).
  split; [exact Hc|]. split; [exact (proj1 (Hflat Hc))|].
  split; [reflexivity | exact Hsorted].
Defined.

(** C4 as stated fails for the children of a class: the coordinator
    returns the class [TestA] with its methods in the order of the parser
    output, lines 5 and 3, which is not ascending. *)
Lemma class_children_are_not_sorted :
  fst (Parser.parse (hostReporting unorderedInventory) "/ws/calc_test.py" noCalls)
  = Returned (Parser.processTestNodes unorderedInventory)
  /\ map (fun e => (name e, line e, option_map (map line) (children e)))
       (Parser.processTestNodes unorderedInventory)
     = [("TestA", 1, None); ("TestA", 1, Some [5; 3])]
  /\ ~ StronglySorted Z.le [5; 3].
Proof.
  split; [reflexivity|]. split; [reflexivity|].
  intros H. inversion H as [|? ? _ Hall]; subst.
  inversion Hall as [|? ? Hle _]; subst. lia.
Qed.

(** ** The directory walk and the Poetry project root *)

Section DirectoryWalk.

Context {T : Type} (callback : Util.fspath -> option T).

Lemma searchLoop_unfold (endPath currentFolderPath : Util.fspath) :
  Util.searchLoop callback endPath currentFolderPath
  = match callback currentFolderPath with
    | Some result => Some result
    | None =>
        if Util.walkContinues endPath currentFolderPath
        then Util.searchLoop callback endPath (Util.dirname currentFolderPath)
        else None
    end.
Proof.
  funelim (Util.searchLoop callback endPath currentFolderPath).
  all: repeat match goal with
             | E : callback _ = _ |- _ => rewrite E
             | E : Util.walkContinues _ _ = _ |- _ => rewrite E
             end; reflexivity.
Qed.


Lemma dirname_snoc (p : Util.fspath) (seg : string) : Util.dirname (p ++ [seg]) = p.
Proof. apply removelast_last. Qed.

Lemma pathEqb_false (a b : Util.fspath) :
  List.length a <> List.length b -> Util.pathEqb a b = false.
Proof.
  intros H. unfold Util.pathEqb.
  destruct (list_eq_dec string_dec a b) as [->|_]; [now elim H | reflexivity].
Qed.

Lemma pathEqb_refl (a : Util.fspath) : Util.pathEqb a a = true.
Proof.
  unfold Util.pathEqb. destruct (list_eq_dec string_dec a a); [reflexivity | congruence].
Qed.

Lemma length_dirname (p : Util.fspath) :
  List.length (Util.dirname p) = Nat.pred (List.length p).
Proof.
  unfold Util.dirname. destruct p as [|seg p] using rev_ind; [reflexivity|].
  rewrite removelast_last, length_app. simpl. lia.
Qed.

(** From a directory below a workspace that is not the root, the walk
    visits every directory up to the workspace, and stops there. *)
Lemma searchLoop_upwards (ws : Util.fspath) (revRest : list string) :
  ws <> [] ->
  Util.searchLoop callback (Util.dirname ws) (ws ++ rev revRest)
  = firstSome callback (upwardsRev ws revRest).
Proof.
  intros Hws. induction revRest as [|seg r IH].
  - simpl. rewrite app_nil_r, searchLoop_unfold.
    destruct (callback ws); [reflexivity|].
    unfold Util.walkContinues. now rewrite pathEqb_refl.
  - cbn [upwardsRev firstSome]. rewrite searchLoop_unfold.
    destruct (callback (ws ++ rev (seg :: r))); [reflexivity|].
    simpl rev. rewrite app_assoc. unfold Util.walkContinues.
    rewrite dirname_snoc, !pathEqb_false, IH; [reflexivity | |].
    + rewrite !length_app. simpl. lia.
    + rewrite length_dirname, length_app.
      destruct ws; [congruence | simpl; lia].
Qed.

(** When the workspace is the root directory, the walk stops below it;
    the root has been tried before and gave nothing. *)
Lemma searchLoop_upwards_root (revRest : list string) :
  callback [] = None ->
  Util.searchLoop callback (Util.dirname []) ([] ++ rev revRest)
  = firstSome callback (upwardsRev [] revRest).
Proof.
  intros Hroot. induction revRest as [|seg r IH].
  - simpl. rewrite searchLoop_unfold, Hroot. reflexivity.
  - cbn [upwardsRev firstSome]. rewrite searchLoop_unfold.
    destruct (callback ([] ++ rev (seg :: r))); [reflexivity|].
    cbn [app] in *. simpl rev. unfold Util.walkContinues. rewrite dirname_snoc.
    destruct r as [|seg' r].
    + simpl. now rewrite Hroot.
    + rewrite !pathEqb_false, IH; [reflexivity | |].
      * rewrite !length_app. simpl. lia.
      * simpl. rewrite length_app. simpl. lia.
Qed.

End DirectoryWalk.

Lemma startsWith_append (p t : string) : JS.startsWith (p ^^ t) p = true.
Proof.
  induction p as [|a p IH]; [now destruct t|].
  simpl. now rewrite Ascii.eqb_refl, IH.
Qed.

Lemma renderSegments_app (a b : Util.fspath) :
  Util.renderSegments (a ++ b) = Util.renderSegments a ^^ Util.renderSegments b.
Proof.
  induction a as [|seg a IH]; [reflexivity|].
  simpl. now rewrite IH, !append_assoc.
Qed.

(** The guard of [searchPathToParent] passes for a directory of the
    workspace. *)
Lemma render_starts_with_parent (ws rest : Util.fspath) :
  JS.startsWith (Util.render (ws ++ rest)) (Util.render (Util.dirname ws)) = true.
Proof.
  unfold Util.dirname. destruct ws as [|l init _] using rev_ind.
  - simpl. destruct rest; reflexivity.
  - rewrite removelast_last, <- app_assoc.
    destruct init as [|seg init]; [reflexivity|].
    replace (Util.render ((seg :: init) ++ [l] ++ rest))
      with (Util.renderSegments (seg :: init) ^^ Util.renderSegments ([l] ++ rest))
      by (rewrite <- renderSegments_app; reflexivity).
    apply startsWith_append.
Qed.

(** C5 (amended). The workspace root is checked first: when its
    pyproject.toml holds the [tool.poetry] marker the root is returned,
    whatever lies closer to the file. Otherwise the directories are tried
    from the directory of the active file upward to the workspace root,
    and the first (nearest to the file) that matches is returned, or none.
    Both cases together: the result is the first match along the workspace
    root followed by the directories from the file's directory up to the
    root. *)
Theorem poetry_root_checks_workspace_first
  (cfg : Config.PytestRunnerConfig) (rest : list string) (fileName : string)
  (c : Calls) :
  let ws := Config.currentWorkspaceFolderPath cfg in
  let check := Config.checkPoetryProject (Config.host cfg) in
  Config.activeFile cfg = Some (ws ++ rest ++ [fileName]) ->
  statIsDirectory (Config.host cfg) (Util.render (ws ++ rest)) = Some true ->
  Config.getPoetryProjectRoot cfg c
  = (Returned (firstSome check (ws :: upwards ws rest)), c)
  /\ (forall root, check ws = Some root ->
        Config.getPoetryProjectRoot cfg c = (Returned (Some ws), c))
  /\ (check ws = None ->
        Config.getPoetryProjectRoot cfg c
        = (Returned (firstSome check (upwards ws rest)), c)).
Proof.
  cbv zeta. intros Hfile Hdir.
  assert (Hwalk :
    Config.checkPoetryProject (Config.host cfg) (Config.currentWorkspaceFolderPath cfg)
    = None ->
    Config.getPoetryProjectRoot cfg c
    = (Returned (firstSome (Config.checkPoetryProject (Config.host cfg))
                   (upwards (Config.currentWorkspaceFolderPath cfg) rest)), c)).
  { intros Hnone. unfold Config.getPoetryProjectRoot. rewrite Hnone, Hfile.
    rewrite app_assoc. unfold Util.dirname at 1. rewrite removelast_last.
    unfold Util.searchPathToParent, Eff.bind, Eff.orThrow, Eff.ret.
    rewrite Hdir, render_starts_with_parent. cbn [negb].
    unfold upwards. rewrite <- (rev_involutive rest) at 1.
    destruct (Config.currentWorkspaceFolderPath cfg) as [|seg ws] eqn:Hws.
    - now rewrite (searchLoop_upwards_root _ (rev rest) Hnone).
    - rewrite (searchLoop_upwards _ (seg :: ws) (rev rest)); [reflexivity | discriminate]. }
  assert (Hroot : forall root,
    Config.checkPoetryProject (Config.host cfg) (Config.currentWorkspaceFolderPath cfg)
    = Some root -> root = Config.currentWorkspaceFolderPath cfg).
  { unfold Config.checkPoetryProject. intros root.
    destruct (existsSync _ _); [|discriminate].
    destruct (readFileSync _ _); [|discriminate].
    destruct (JS.includes _ _); [now intros [= <-] | discriminate]. }
  split; [|split].
  - cbn [firstSome].
    destruct (Config.checkPoetryProject _ (Config.currentWorkspaceFolderPath cfg))
      as [root|] eqn:Hc.
    + unfold Config.getPoetryProjectRoot. now rewrite Hc.
    + now apply Hwalk.
  - intros root Hc. unfold Config.getPoetryProjectRoot. rewrite Hc.
    now rewrite (Hroot root Hc).
  - exact Hwalk.
Qed.


Lemma poetry_root_checks_workspace_first_witness :
  Config.activeFile innerOnlyConfig = Some (["ws"] ++ ["pkg"] ++ ["test_calc.py"])
  /\ statIsDirectory innerOnlyHost (Util.render (["ws"] ++ ["pkg"])) = Some true
  /\ Config.getPoetryProjectRoot innerOnlyConfig noCalls
     = (Returned (Some ["ws"; "pkg"]), noCalls).
Proof.
  split; [reflexivity | split; [reflexivity|]].
  destruct (poetry_root_checks_workspace_first
              innerOnlyConfig ["pkg"] "test_calc.py" noCalls eq_refl eq_refl)
    as (Hall & _ & _).
  rewrite Hall. reflexivity.
Defined.

(** C5 as stated fails: [/ws/pkg], the directory of the active file, is a
    Poetry project and the nearest one on the way up, yet the workspace
    root [/ws], a Poetry project too, is what is returned. *)
Lemma workspace_root_wins_over_nearer_project :
  Config.activeFile nestedConfig = Some ["ws"; "pkg"; "test_calc.py"]
  /\ Config.checkPoetryProject nestedHost ["ws"; "pkg"] = Some ["ws"; "pkg"]
  /\ firstSome (Config.checkPoetryProject nestedHost) (upwards ["ws"] ["pkg"])
     = Some ["ws"; "pkg"]
  /\ Config.getPoetryProjectRoot nestedConfig noCalls = (Returned (Some ["ws"]), noCalls).
Proof. repeat split; reflexivity. Qed.

(* ===================================================================== *)
(** * Further properties of the code *)
(* ===================================================================== *)

(** ** Quoting *)

Lemma quote_shape (win32 : bool) (s : string) :
  Util.quote win32 s
  = String (if win32 then Util.dquote else Util.squote)
      (s ^^ String (if win32 then Util.dquote else Util.squote) EmptyString).
Proof. unfold Util.quote, Util.isWindows. destruct win32; reflexivity. Qed.

(** X1. [unquote] undoes [quote] on both platforms, whatever the string
    holds, quote characters included. *)
Theorem unquote_quote (win32 : bool) (s : string) :
  Util.unquote (Util.quote win32 s) = s.
Proof.
  rewrite quote_shape, unquote_cons.
  destruct win32; cbn [Util.QUOTES]; rewrite stripTrailingQuote_last; reflexivity.
Qed.

(** ** Normalised paths *)

Lemma includes_backslash_cons (c : ascii) (s : string) :
  JS.includes (String c s) "\" = Ascii.eqb "\"%char c || JS.includes s "\".
Proof.
  cbn [JS.includes JS.startsWith]. now rewrite andb_true_r.
Qed.

Lemma replaceAllBackslash_length (path : string) :
  String.length (JS.replaceAllBackslash path) = String.length path.
Proof. induction path as [|c p IH]; simpl; [reflexivity | now rewrite IH]. Qed.

Lemma replaceAllBackslash_clean (path : string) :
  JS.includes (JS.replaceAllBackslash path) "\" = false.
Proof.
  induction path as [|c p IH]; [reflexivity|].
  cbn [JS.replaceAllBackslash]. rewrite includes_backslash_cons, IH, orb_false_r.
  destruct (Ascii.eqb_spec c "\"%char) as [->|Hc]; [reflexivity|].
  apply Ascii.eqb_neq. congruence.
Qed.

Lemma replaceAllBackslash_idempotent (path : string) :
  JS.replaceAllBackslash (JS.replaceAllBackslash path) = JS.replaceAllBackslash path.
Proof.
  induction path as [|c p IH]; [reflexivity|].
  cbn [JS.replaceAllBackslash]. rewrite IH. f_equal.
  destruct (Ascii.eqb_spec c "\"%char) as [->|Hc]; [reflexivity|].
  now destruct (Ascii.eqb_spec c "\"%char).
Qed.

(** X2. [normalizePath] is the identity off Windows; on Windows its result
    keeps the length, holds no backslash, and normalising twice is
    normalising once. *)
Theorem normalizePath_normalises (path : string) :
  Util.normalizePath false path = path
  /\ String.length (Util.normalizePath true path) = String.length path
  /\ JS.includes (Util.normalizePath true path) "\" = false
  /\ forall win32, Util.normalizePath win32 (Util.normalizePath win32 path)
                   = Util.normalizePath win32 path.
Proof.
  unfold Util.normalizePath, Util.isWindows.
  split; [reflexivity|]. split; [apply replaceAllBackslash_length|].
  split; [apply replaceAllBackslash_clean|].
  intros [|]; [apply replaceAllBackslash_idempotent | reflexivity].
Qed.

(** ** Sets of options *)

Section SetOf.

Lemma existsb_eqb_In (x : string) (l : list string) :
  existsb (String.eqb x) l = true <-> In x l.
Proof.
  rewrite existsb_exists. split.
  - intros (y & Hy & E). apply String.eqb_eq in E. now subst.
  - intros H. exists x. split; [exact H | apply String.eqb_refl].
Qed.

Lemma setOf_In (xs seen : list string) (x : string) :
  In x (JS.setOf seen xs) <-> In x xs /\ ~ In x seen.
Proof.
  revert seen. induction xs as [|y r IH]; intros seen; simpl; [tauto|].
  destruct (existsb (String.eqb y) seen) eqn:E.
  - apply existsb_eqb_In in E. rewrite IH. split.
    + tauto.
    + intros [[<- | H] Hn]; tauto.
  - assert (Hy : ~ In y seen).
    { intros H. apply existsb_eqb_In in H. congruence. }
    simpl. rewrite IH. simpl. split.
    + intros [<- | [H Hn]]; tauto.
    + intros [[<- | H] Hn]; [now left|].
      destruct (string_dec y x) as [->|Hne]; [now left | right; tauto].
Qed.

Lemma setOf_NoDup (xs seen : list string) : NoDup (JS.setOf seen xs).
Proof.
  revert seen. induction xs as [|y r IH]; intros seen; simpl; [constructor|].
  destruct (existsb (String.eqb y) seen); [apply IH|].
  constructor; [|apply IH]. rewrite setOf_In. simpl. tauto.
Qed.

(** A list without repetition, none of it seen before, is kept as it is. *)
Lemma setOf_fixed (xs seen : list string) :
  NoDup xs -> (forall x, In x xs -> ~ In x seen) -> JS.setOf seen xs = xs.
Proof.
  intros Hnd. revert seen. induction Hnd as [|y r Hy _ IH]; intros seen Hs; [reflexivity|].
  simpl. destruct (existsb (String.eqb y) seen) eqn:E.
  - apply existsb_eqb_In in E. elim (Hs y (or_introl eq_refl) E).
  - f_equal. apply IH. intros x Hx [<- | Hin]; [contradiction|].
    exact (Hs x (or_intror Hx) Hin).
Qed.

End SetOf.

(** X3. One-off options are appended last, after everything built
    without them, each once: the appended list has no repetition, holds
    exactly the options given, and is the given list itself when that has
    no repetition. *)
Theorem options_appended_once (cfg : Config.PytestRunnerConfig) (filePath : string)
  (testName : option string) (withQuotes : bool) (options : list string) :
  Runner.buildPytestArgs cfg filePath testName withQuotes (Some options)
  = Runner.buildPytestArgs cfg filePath testName withQuotes None ++ JS.setOf [] options
  /\ NoDup (JS.setOf [] options)
  /\ (forall o, In o (JS.setOf [] options) <-> In o options)
  /\ (NoDup options -> JS.setOf [] options = options)
  /\ JS.setOf [] ["--cov"; "--cov"] = ["--cov"].
Proof.
  split; [|split; [|split; [|split]]].
  - unfold Runner.buildPytestArgs. destruct options as [|o r]; simpl List.length.
    + change (0 <? Z.of_nat 0) with false. cbv iota. now rewrite app_nil_r.
    + replace (0 <? Z.of_nat (S (List.length r))) with true
        by (symmetry; apply Z.ltb_lt; lia).
      change (0 <? Z.of_nat 0) with false. cbv iota. reflexivity.
  - apply setOf_NoDup.
  - intros o. rewrite setOf_In. simpl. tauto.
  - intros H. apply setOf_fixed; [exact H | intros x _ []].
  - reflexivity.
Qed.

(** ** CodeLens options *)

(** X4. [validateCodeLensOptions] keeps exactly the recognised options of
    its argument, each once, and validating a validated list changes
    nothing. *)
Theorem validateCodeLensOptions_valid (maybeCodeLensOptions : list string) :
  let valid := UtilRest.validateCodeLensOptions maybeCodeLensOptions in
  NoDup valid
  /\ (forall o, In o valid <->
        In o maybeCodeLensOptions /\ In o ["run"; "debug"; "watch"; "coverage"])
  /\ UtilRest.validateCodeLensOptions valid = valid
  /\ (List.length valid <= 4)%nat.
Proof.
  cbv zeta. unfold UtilRest.validateCodeLensOptions.
  assert (Hnd : NoDup (filter UtilRest.isCodeLensOption (JS.setOf [] maybeCodeLensOptions))).
  { apply NoDup_filter, setOf_NoDup. }
  assert (Hin : forall o,
    In o (filter UtilRest.isCodeLensOption (JS.setOf [] maybeCodeLensOptions)) <->
    In o maybeCodeLensOptions /\ In o ["run"; "debug"; "watch"; "coverage"]).
  { intros o. rewrite filter_In, setOf_In. unfold UtilRest.isCodeLensOption.
    rewrite existsb_eqb_In. simpl. tauto. }
  split; [exact Hnd|]. split; [exact Hin|]. split.
  - rewrite setOf_fixed; [|exact Hnd | intros x _ []].
    rewrite filter_filter || idtac.
    apply forallb_filter_id. apply forallb_forall. intros o Ho.
    apply filter_In in Ho. tauto.
  - apply (NoDup_incl_length Hnd (l' := ["run"; "debug"; "watch"; "coverage"])).
    intros o Ho. apply Hin in Ho. tauto.
Qed.

(** ** Test-file names *)

Section FileNames.

Lemma startsWith_includes (s p : string) :
  JS.startsWith s p = true -> JS.includes s p = true.
Proof. intros H. destruct s; simpl; now rewrite H. Qed.

Lemma startsWith_shorter (s p q : string) :
  JS.startsWith s (p ^^ q) = true -> JS.startsWith s p = true.
Proof.
  revert s. induction p as [|a p IH]; intros s H; [reflexivity|].
  destruct s as [|b s]; [discriminate|]. simpl in *.
  apply andb_true_iff in H as [Hab H]. now rewrite Hab, (IH s H).
Qed.

Lemma drop_suffix (n : nat) (s : string) : exists pre, s = pre ^^ JS.drop n s.
Proof.
  revert s. induction n as [|n IH]; intros s.
  - now exists EmptyString.
  - destruct s as [|c s]; [now exists EmptyString|].
    destruct (IH s) as (pre & Hpre). exists (String c pre). simpl. now rewrite <- Hpre.
Qed.

Lemma endsWith_includes (s p q : string) :
  JS.endsWith s p = true -> JS.includes p q = true -> JS.includes s q = true.
Proof.
  unfold JS.endsWith. intros H Hq. apply andb_true_iff in H as [_ H].
  apply String.eqb_eq in H.
  destruct (drop_suffix (String.length s - String.length p) s) as (pre & Hs).
  rewrite Hs, H. now apply includes_append_r.
Qed.

(** A name without a slash is read to its end. *)
Lemma basenameScan_segment (file last cur : string) :
  slashFree file = true ->
  Parser.basenameScan last cur file
  = if JS.truthy (cur ^^ file) then cur ^^ file else last.
Proof.
  revert cur. induction file as [|c file IH]; intros cur H.
  - simpl. now rewrite append_EmptyString_r.
  - simpl in H. apply andb_true_iff in H as [Hc H]. cbn [Parser.basenameScan].
    apply negb_true_iff in Hc. rewrite Hc, (IH _ H), append_assoc. reflexivity.
Qed.

(** What precedes the last slash does not count. *)
Lemma basenameScan_after_slash (dir file last cur : string) :
  slashFree file = true -> file <> EmptyString ->
  Parser.basenameScan last cur (dir ^^ String "/" file) = file.
Proof.
  intros Hf Hne. revert last cur. induction dir as [|c dir IH]; intros last cur.
  - cbn [String.append Parser.basenameScan]. rewrite Ascii.eqb_refl.
    rewrite (basenameScan_segment _ _ _ Hf). cbn [String.append].
    now rewrite (truthy_nonempty _ Hne).
  - cbn [String.append Parser.basenameScan].
    destruct (Ascii.eqb c "/"); apply IH.
Qed.

End FileNames.

(** X5. Whether a path is a test file is decided by its last segment
    alone, and there by two tests only: for a file name [file] in any
    directory [dir], the path is a test file exactly when [file] ends with
    [.py] and contains [test]; the tests for the prefix [test_] and for the
    suffix [_test.py] never change the answer. The copy of the test in
    util.ts gives the same answer as the one of the parser. *)
Theorem test_file_decided_by_file_name (dir file : string) :
  slashFree file = true -> file <> EmptyString ->
  Parser.isTestFile (dir ^^ "/" ^^ file)
  = JS.endsWith file ".py" && JS.includes file "test"
  /\ UtilRest.isPythonTestFile (dir ^^ "/" ^^ file)
     = Parser.isTestFile (dir ^^ "/" ^^ file).
Proof.
  intros Hf Hne. split; [|reflexivity].
  unfold Parser.isTestFile, Parser.basename.
  change (dir ^^ "/" ^^ file) with (dir ^^ String "/" file).
  rewrite (basenameScan_after_slash _ _ _ _ Hf Hne).
  destruct (JS.endsWith file ".py"); [|reflexivity]. cbn [andb].
  destruct (JS.includes file "test") eqn:Hi; [apply orb_true_r|].
  rewrite orb_false_r. apply orb_false_iff. split.
  - destruct (JS.startsWith file "test_") eqn:Hs; [|reflexivity].
    apply (startsWith_shorter file "test" "_") in Hs.
    apply startsWith_includes in Hs. congruence.
  - destruct (JS.endsWith file "_test.py") eqn:He; [|reflexivity].
    apply (endsWith_includes _ _ "test") in He; [congruence | reflexivity].
Qed.

Lemma test_file_decided_by_file_name_witness :
  slashFree "contest.py" = true
  /\ "contest.py" <> EmptyString
  /\ Parser.isTestFile ("/ws/tests" ^^ "/" ^^ "contest.py") = true
  /\ Parser.isTestFile ("/ws/tests" ^^ "/" ^^ "helpers.py") = false.
Proof.
  split; [reflexivity|]. split; [discriminate|]. split.
  - rewrite (proj1 (test_file_decided_by_file_name "/ws/tests" "contest.py"
                      eq_refl ltac:(discriminate))).
    reflexivity.
  - rewrite (proj1 (test_file_decided_by_file_name "/ws/tests" "helpers.py"
                      eq_refl ltac:(discriminate))).
    reflexivity.
Defined.

(** ** Which parser is called *)

(** X6. A path that does not exist, or whose name is not a test-file
    name, gives the empty list without any parser being called; and when
    the structural parser gives at least one entity its result is
    returned and the pattern parser is not called. *)
Theorem parse_calls_no_parser_in_vain (h : Host) (filePath : string) (c : Calls) :
  (existsSync h filePath = false \/ Parser.isTestFile filePath = false ->
     Parser.parse h filePath c = (Returned [], c))
  /\ (existsSync h filePath = true -> Parser.isTestFile filePath = true ->
      structuralTree h filePath <> [] ->
      Parser.parse h filePath c
      = (Returned (structuralTree h filePath), oneMoreStructural c)
      /\ patternCalls (snd (Parser.parse h filePath c)) = patternCalls c).
Proof.
  unfold Parser.parse. rewrite parseTestFile_run. split.
  - intros [H | H].
    + now rewrite H.
    + rewrite H. now destruct (negb (existsSync h filePath)).
  - intros He Ht Hs. rewrite He, Ht. cbn [negb].
    destruct (structuralTree h filePath) as [|e l]; [congruence|].
    split; reflexivity.
Qed.

Lemma parse_calls_no_parser_in_vain_witness :
  existsSync scriptHost "/ws/calc_test.py" = true
  /\ Parser.isTestFile "/ws/calc_test.py" = true
  /\ structuralTree scriptHost "/ws/calc_test.py" <> []
  /\ snd (Parser.parse scriptHost "/ws/calc_test.py" noCalls) = mkCalls 1 0
  /\ Parser.parse scriptHost "/ws/notes.txt" noCalls = (Returned [], noCalls).
Proof.
  destruct (parse_calls_no_parser_in_vain scriptHost "/ws/calc_test.py" noCalls)
    as [_ Hrun].
  destruct (parse_calls_no_parser_in_vain scriptHost "/ws/notes.txt" noCalls)
    as [Hskip _].
  assert (Hne : structuralTree scriptHost "/ws/calc_test.py" <> []) by discriminate.
  split; [reflexivity|]. split; [reflexivity|]. split; [exact Hne|]. split.
  - rewrite (proj1 (Hrun eq_refl eq_refl Hne)). reflexivity.
  - apply Hskip. left. reflexivity.
Defined.

(** ** The sort is stable *)

Lemma insertByLine_filter (n : Z) (x : PythonTestNode) (l : list PythonTestNode) :
  filter (fun e => line e =? n) (Parser.insertByLine x l)
  = filter (fun e => line e =? n) (x :: l).
Proof.
  induction l as [|y l IH]; [reflexivity|].
  cbn [Parser.insertByLine]. destruct (Z.leb_spec (line x) (line y)) as [Hle|Hgt];
    [reflexivity|].
  cbn [filter] in *. rewrite IH.
  destruct (Z.eqb_spec (line x) n) as [Hx|Hx]; [|reflexivity].
  destruct (Z.eqb_spec (line y) n) as [Hy|Hy]; [lia | reflexivity].
Qed.

(** Sorting by line is stable: the entities of any one line come out in
    the order in which they went in. *)
Lemma sortByLine_stable (n : Z) (l : list PythonTestNode) :
  filter (fun e => line e =? n) (Parser.sortByLine l)
  = filter (fun e => line e =? n) l.
Proof.
  induction l as [|x l IH]; [reflexivity|].
  cbn [Parser.sortByLine]. rewrite insertByLine_filter. cbn [filter]. now rewrite IH.
Qed.

(** ** Where the entries of the structural parser end up *)

Section Placement.

Lemma groupStep_fold_fst (tests : list Raw.t) (processed : list PythonTestNode)
  (m : Parser.ClassMap) :
  fst (fold_left Parser.groupStep tests (processed, m))
  = processed ++ map Parser.toNode (filter classlessb tests).
Proof.
  revert processed m. induction tests as [|t tests IH]; intros processed m.
  - simpl. now rewrite app_nil_r.
  - cbn [fold_left filter].
    assert (Hstep : Parser.groupStep (processed, m) t
                    = if classlessb t
                      then (processed ++ [Parser.toNode t], m)
                      else (processed, snd (Parser.groupStep (processed, m) t))).
    { unfold Parser.groupStep, classlessb.
      change (class (Parser.toNode t)) with (Parser.classOrNull (Raw.class t)).
      now destruct (Parser.classOrNull (Raw.class t)). }
    rewrite Hstep. destruct (classlessb t); rewrite IH.
    + cbn [map]. now rewrite <- app_assoc.
    + reflexivity.
Qed.

Lemma attach_fold_eq (tests : list Raw.t) (m : Parser.ClassMap)
  (acc : list PythonTestNode) :
  fold_left (Parser.attachStep tests) m acc = acc ++ flat_map (attached tests) m.
Proof.
  revert acc. induction m as [|[k v] m IH]; intros acc.
  - simpl. now rewrite app_nil_r.
  - cbn [fold_left flat_map]. rewrite IH. unfold Parser.attachStep, attached.
    cbn [fst snd]. destruct (find (Parser.isClassNamed k) tests);
      now rewrite <- app_assoc.
Qed.

(** The list that [processTestNodes] sorts. *)
Lemma processTestNodes_eq (tests : list Raw.t) :
  exists m, grouped m tests
    /\ Parser.processTestNodes tests
       = Parser.sortByLine (map Parser.toNode (filter classlessb tests)
                            ++ flat_map (attached tests) m).
Proof.
  unfold Parser.processTestNodes.
  pose proof (groupStep_fold_fst tests [] []) as Hfst.
  destruct (grouped_fold tests [] [] [] grouped_empty (Forall_nil _)) as [Hg _].
  destruct (fold_left Parser.groupStep tests _) as [processed m].
  cbn [fst snd app] in *. exists m. split; [exact Hg|].
  now rewrite attach_fold_eq, Hfst.
Qed.

Lemma processTestNodes_In (tests : list Raw.t) (e : PythonTestNode) :
  exists m, grouped m tests
    /\ (In e (Parser.processTestNodes tests) <->
        In e (map Parser.toNode (filter classlessb tests))
        \/ In e (flat_map (attached tests) m)).
Proof.
  destruct (processTestNodes_eq tests) as (m & Hg & ->).
  exists m. split; [exact Hg|]. rewrite <- in_app_iff. split.
  - apply Permutation_in, Permutation_sym, sortByLine_perm.
  - apply Permutation_in, sortByLine_perm.
Qed.

(** A class that has a member has its entry in the map. *)
Lemma grouped_member (m : Parser.ClassMap) (tests : list Raw.t) (t : Raw.t)
  (c : string) :
  grouped m tests -> In t tests -> Parser.classOrNull (Raw.class t) = Some c ->
  In (c, methodsOf c tests) m /\ In (Parser.toNode t) (methodsOf c tests).
Proof.
  intros (_ & Hin & Hout) Ht Hc.
  assert (Hmem : In (Parser.toNode t) (methodsOf c tests)).
  { unfold methodsOf. apply in_map, filter_In. split; [exact Ht|].
    unfold memberOf. rewrite Hc. apply String.eqb_refl. }
  split; [|exact Hmem].
  destruct (Parser.mapHas m c) eqn:Hhas.
  - assert (Hk : In c (map fst m)).
    { destruct (in_dec string_dec c (map fst m)) as [H|H]; [exact H|].
      apply mapHas_false in H. congruence. }
    apply in_map_iff in Hk as ([k v] & Hk & Hkv). simpl in Hk. subst k.
    now rewrite <- (Hin c v Hkv).
  - rewrite (Hout c Hhas) in Hmem. contradiction.
Qed.

End Placement.

(** Where an entry of the output goes. *)
Lemma parsed_entry_placement (tests : list Raw.t) (t : Raw.t) :
  In t tests ->
  (classless t -> In (Parser.toNode t) (Parser.processTestNodes tests))
  /\ (forall c, Parser.classOrNull (Raw.class t) = Some c ->
        (forall classEntry, find (Parser.isClassNamed c) tests = Some classEntry ->
           In (classNodeFor c (Parser.lineOr1 (Raw.line classEntry)) (methodsOf c tests))
              (Parser.processTestNodes tests)
           /\ In (Parser.toNode t) (methodsOf c tests))
        /\ (find (Parser.isClassNamed c) tests = None ->
              In (Parser.toNode t) (Parser.processTestNodes tests))).
Proof.
  intros Ht.
  destruct (processTestNodes_In tests (Parser.toNode t)) as (m & Hg & Hplain).
  split.
  - intros Hc. apply Hplain. left. apply in_map, filter_In. split; [exact Ht|].
    unfold classlessb. unfold classless in Hc. now rewrite Hc.
  - intros c Hc. destruct (grouped_member m tests t c Hg Ht Hc) as [Hentry Hmem].
    split.
    + intros classEntry Hfind. split; [|exact Hmem].
      destruct (processTestNodes_In tests
                  (classNodeFor c (Parser.lineOr1 (Raw.line classEntry))
                     (methodsOf c tests))) as (m' & Hg' & Hnode).
      apply Hnode. right. apply in_flat_map.
      destruct (grouped_member m' tests t c Hg' Ht Hc) as [Hentry' _].
      exists (c, methodsOf c tests). split; [exact Hentry'|].
      unfold attached. cbn [fst snd]. rewrite Hfind. now left.
    + intros Hfind. apply Hplain. right. apply in_flat_map.
      exists (c, methodsOf c tests). split; [exact Hentry|].
      unfold attached. cbn [fst snd]. now rewrite Hfind.
Qed.

(** X7. No entry of the structural parser's output is lost. An entry
    without enclosing class is a top-level entity. An entry of class [c]
    is a child of the class node of [c] when the output holds a class
    entry named [c] (the node takes its line from the first such entry and
    holds all members of [c], in their order); otherwise it is a top-level
    entity itself. *)
Theorem every_parsed_entry_is_placed (tests : list Raw.t) (t : Raw.t) :
  In t tests ->
  (classless t -> In (Parser.toNode t) (Parser.processTestNodes tests))
  /\ (forall c, Parser.classOrNull (Raw.class t) = Some c ->
        (forall classEntry, find (Parser.isClassNamed c) tests = Some classEntry ->
           In (classNodeFor c (Parser.lineOr1 (Raw.line classEntry)) (methodsOf c tests))
              (Parser.processTestNodes tests)
           /\ In (Parser.toNode t) (methodsOf c tests))
        /\ (find (Parser.isClassNamed c) tests = None ->
              In (Parser.toNode t) (Parser.processTestNodes tests))).
Proof. apply parsed_entry_placement. Qed.

Lemma every_parsed_entry_is_placed_witness :
  In (Raw.mk "test_divide" (Some 5) (Some "method") (Some "TestCalc")
        (Some "TestCalc::test_divide") (Some false) (Some true) (Some []))
     scriptInventory
  /\ In (classNodeFor "TestCalc" 4 (methodsOf "TestCalc" scriptInventory))
        (Parser.processTestNodes scriptInventory).
Proof.
  assert (Hin : In (Raw.mk "test_divide" (Some 5) (Some "method") (Some "TestCalc")
                      (Some "TestCalc::test_divide") (Some false) (Some true) (Some []))
                   scriptInventory) by (right; right; left; reflexivity).
  split; [exact Hin|].
  destruct (every_parsed_entry_is_placed scriptInventory _ Hin) as [_ Hclass].
  destruct (Hclass "TestCalc" eq_refl) as [Hnode _].
  exact (proj1 (Hnode _ eq_refl)).
Defined.

(** X8. A class with at least one member is listed twice at top level,
    under the same name and line: once as its own entry, without children,
    and once as the class node holding its members. *)
Theorem class_with_members_listed_twice
  (tests : list Raw.t) (classEntry member : Raw.t) (c : string) :
  find (Parser.isClassNamed c) tests = Some classEntry ->
  classless classEntry ->
  In member tests ->
  Parser.classOrNull (Raw.class member) = Some c ->
  let own := Parser.toNode classEntry in
  let node := classNodeFor c (Parser.lineOr1 (Raw.line classEntry)) (methodsOf c tests) in
  In own (Parser.processTestNodes tests)
  /\ In node (Parser.processTestNodes tests)
  /\ name own = name node
  /\ line own = line node
  /\ children own = None
  /\ children node = Some (methodsOf c tests)
  /\ methodsOf c tests <> [].
Proof.
  intros Hfind Hcl Hm Hc. cbv zeta.
  pose proof (find_some _ _ Hfind) as [Hin Hnamed].
  destruct (parsed_entry_placement tests classEntry Hin) as [Hown _].
  destruct (parsed_entry_placement tests member Hm) as [_ Hmem].
  destruct (Hmem c Hc) as [Hnode _]. destruct (Hnode classEntry Hfind) as [Hn Hchild].
  split; [exact (Hown Hcl)|]. split; [exact Hn|].
  unfold Parser.isClassNamed in Hnamed. apply andb_true_iff in Hnamed as [Hname _].
  apply String.eqb_eq in Hname.
  split; [exact Hname|]. split; [reflexivity|]. split; [reflexivity|].
  split; [reflexivity|]. intros E. rewrite E in Hchild. contradiction.
Qed.

Lemma class_with_members_listed_twice_witness :
  find (Parser.isClassNamed "TestCalc") scriptInventory
  = Some (Raw.mk "TestCalc" (Some 4) (Some "class") None (Some "TestCalc")
            (Some false) (Some false) (Some []))
  /\ map (fun e => (name e, line e)) (Parser.processTestNodes scriptInventory)
     = [("test_add", 2); ("TestCalc", 4); ("TestCalc", 4)]
  /\ In (classNodeFor "TestCalc" 4 (methodsOf "TestCalc" scriptInventory))
        (Parser.processTestNodes scriptInventory).
Proof.
  split; [reflexivity|]. split; [reflexivity|].
  refine (proj1 (proj2 (class_with_members_listed_twice scriptInventory _
                          (Raw.mk "test_divide" (Some 5) (Some "method") (Some "TestCalc")
                             (Some "TestCalc::test_divide") (Some false) (Some true)
                             (Some []))
                          "TestCalc" eq_refl eq_refl _ eq_refl))).
  right; right; left; reflexivity.
Defined.

(** ** The pattern parser reports declarations only *)

Section PatternSound.

Ltac normalize_append :=
  repeat (progress (cbn [String.append]; rewrite ?append_assoc)).

Lemma stripPrefix_inv (p s r : string) :
  Parser.stripPrefix p s = Some r -> s = p ^^ r.
Proof.
  revert s. induction p as [|a p IH]; intros s H.
  - simpl in H. now injection H as ->.
  - destruct s as [|b s]; [discriminate|]. simpl in H.
    destruct (Ascii.eqb_spec a b) as [->|]; [|discriminate].
    simpl. now rewrite (IH s H).
Qed.

Lemma span_inv (p : ascii -> bool) (s a b : string) :
  JS.span p s = (a, b) ->
  s = a ^^ b /\ allOf p a = true
  /\ match b with String c _ => p c = false | EmptyString => True end.
Proof.
  revert a b. induction s as [|c s IH]; intros a b H; simpl in H.
  - injection H as <- <-. repeat split.
  - destruct (p c) eqn:Hc.
    + destruct (JS.span p s) as [a' b'] eqn:Hs. injection H as <- <-.
      destruct (IH a' b' eq_refl) as (-> & Ha & Hb).
      repeat split; [simpl; now rewrite Hc, Ha | exact Hb].
    + injection H as <- <-. repeat split. exact Hc.
Qed.

Lemma trimStart_inv (s : string) :
  exists indent, s = indent ^^ JS.trimStart s /\ allOf JS.isSpace indent = true.
Proof.
  induction s as [|c s (indent & Hs & Hi)]; [now exists EmptyString|].
  simpl. destruct (JS.isSpace c) eqn:Hc.
  - exists (String c indent). simpl. rewrite Hc, Hi, <- Hs. now split.
  - now exists EmptyString.
Qed.

Lemma trimEnd_inv (s : string) :
  exists trailing, s = JS.trimEnd s ^^ trailing /\ allOf JS.isSpace trailing = true.
Proof.
  induction s as [|c s (trailing & Hs & Ht)]; [now exists EmptyString|].
  cbn [JS.trimEnd]. destruct (JS.trimEnd s) as [|d t] eqn:E.
  - simpl in Hs. subst trailing. destruct (JS.isSpace c) eqn:Hc.
    + exists (String c s). simpl. now rewrite Hc, Ht.
    + exists s. now split.
  - exists trailing. split; [|exact Ht]. simpl. now rewrite Hs at 1.
Qed.

Lemma trim_inv (s : string) :
  exists indent trailing,
    s = indent ^^ JS.trim s ^^ trailing
    /\ allOf JS.isSpace indent = true /\ allOf JS.isSpace trailing = true.
Proof.
  destruct (trimStart_inv s) as (indent & Hs & Hi).
  destruct (trimEnd_inv (JS.trimStart s)) as (trailing & Ht & Htr).
  exists indent, trailing. unfold JS.trim. now rewrite <- Ht, <- Hs.
Qed.

Lemma nonempty_of_truthy (s : string) : JS.truthy s = true -> s <> EmptyString.
Proof. destruct s; [discriminate | discriminate]. Qed.

(** What the matcher accepts has the shape of its pattern. *)
Lemma matchDeclaration_inv (keyword prefix : string) (closing : ascii -> bool)
  (s nm : string) :
  Parser.matchDeclaration keyword prefix closing s = Some nm ->
  exists ws w ws2 c rest,
    s = keyword ^^ ws ^^ prefix ^^ w ^^ ws2 ^^ String c rest
    /\ allOf JS.isSpace ws = true /\ ws <> EmptyString
    /\ allOf JS.isWord w = true /\ allOf JS.isSpace ws2 = true
    /\ closing c = true /\ nm = prefix ^^ w.
Proof.
  unfold Parser.matchDeclaration. intros H.
  destruct (Parser.stripPrefix keyword s) as [r1|] eqn:H1; [|discriminate].
  destruct (JS.span JS.isSpace r1) as [ws r2] eqn:H2.
  destruct (JS.truthy ws) eqn:Hws; [|discriminate]. cbn [negb] in H.
  destruct (Parser.stripPrefix prefix r2) as [r3|] eqn:H3; [|discriminate].
  destruct (JS.span JS.isWord r3) as [w r4] eqn:H4.
  destruct (JS.span JS.isSpace r4) as [ws2 r5] eqn:H5.
  destruct r5 as [|c rest]; [discriminate|].
  destruct (closing c) eqn:Hc; [|discriminate]. injection H as <-.
  apply stripPrefix_inv in H1, H3.
  apply span_inv in H2 as (-> & Hs2 & _).
  apply span_inv in H4 as (-> & Hw & _).
  apply span_inv in H5 as (-> & Hs5 & _).
  exists ws, w, ws2, c, rest. subst.
  repeat split; try assumption. now apply nonempty_of_truthy.
Qed.

Lemma isParen_inv (c : ascii) : Parser.isParen c = true -> c = "("%char.
Proof. unfold Parser.isParen. now intros H%Ascii.eqb_eq. Qed.

Lemma isParenOrColon_inv (c : ascii) :
  Parser.isParenOrColon c = true -> c = "("%char \/ c = ":"%char.
Proof.
  unfold Parser.isParenOrColon. intros H%orb_true_iff.
  destruct H as [H|H]; apply Ascii.eqb_eq in H; auto.
Qed.

(** An entity pushed for a line shows that the line is a declaration. *)
Lemma lineEntity_inv (i : Z) (text : string) (e : PythonTestNode) :
  lineEntity i text = Some e ->
  exists nm ty isAsync,
    DeclaresTest text nm ty isAsync /\ e = Parser.regexNode nm (i + 1) ty isAsync.
Proof.
  rewrite lineEntity_unfold.
  destruct (trim_inv text) as (indent & trailing & Htext & Hi & Ht).
  destruct (Parser.functionMatch (JS.trim text)) as [nm|] eqn:Hf.
  { intros [= <-]. exists nm, "function", false. split; [|reflexivity].
    apply matchDeclaration_inv in Hf
      as (ws & w & ws2 & c & rest & Hs & Hws & Hne & Hw & Hws2 & Hc & ->).
    apply isParen_inv in Hc. subst c.
    rewrite Htext, Hs.
    replace (indent ^^ ("def" ^^ ws ^^ "test_" ^^ w ^^ ws2 ^^ String "(" rest) ^^ trailing)
      with (indent ^^ "def" ^^ ws ^^ "test_" ^^ w ^^ ws2 ^^ "(" ^^ (rest ^^ trailing))
      by (normalize_append; reflexivity).
    now constructor. }
  destruct (Parser.classMatch (JS.trim text)) as [nm|] eqn:Hc.
  { intros [= <-]. exists nm, "class", false. split; [|reflexivity].
    apply matchDeclaration_inv in Hc
      as (ws & w & ws2 & c & rest & Hs & Hws & Hne & Hw & Hws2 & Hcl & ->).
    apply isParenOrColon_inv in Hcl.
    rewrite Htext, Hs.
    replace (indent ^^ ("class" ^^ ws ^^ "Test" ^^ w ^^ ws2 ^^ String c rest) ^^ trailing)
      with (indent ^^ "class" ^^ ws ^^ "Test" ^^ w ^^ ws2 ^^ String c (rest ^^ trailing))
      by (normalize_append; reflexivity).
    now constructor. }
  destruct (Parser.asyncFunctionMatch (JS.trim text)) as [nm|] eqn:Ha; [|discriminate].
  intros [= <-]. exists nm, "function", true. split; [|reflexivity].
  unfold Parser.asyncFunctionMatch in Ha.
  destruct (Parser.stripPrefix "async" (JS.trim text)) as [r1|] eqn:H1; [|discriminate].
  destruct (JS.span JS.isSpace r1) as [ws0 r2] eqn:H2.
  destruct (JS.truthy ws0) eqn:Hws0; [|discriminate]. cbn [negb] in Ha.
  apply matchDeclaration_inv in Ha
    as (ws & w & ws2 & c & rest & Hs & Hws & Hne & Hw & Hws2 & Hcl & ->).
  apply isParen_inv in Hcl. subst c.
  apply stripPrefix_inv in H1. apply span_inv in H2 as (-> & Hs0 & _).
  rewrite Htext, H1, Hs.
  replace (indent ^^ ("async" ^^ ws0 ^^ "def" ^^ ws ^^ "test_" ^^ w ^^ ws2
                      ^^ String "(" rest) ^^ trailing)
    with (indent ^^ "async" ^^ ws0 ^^ "def" ^^ ws ^^ "test_" ^^ w ^^ ws2 ^^ "("
          ^^ (rest ^^ trailing))
    by (normalize_append; reflexivity).
  constructor; try assumption. now apply nonempty_of_truthy.
Qed.

Lemma scanLines_In_inv (lines : list string) (i : Z) (e : PythonTestNode) :
  In e (Parser.scanLines i lines []) ->
  exists k text, nth_error lines k = Some text
                 /\ lineEntity (i + Z.of_nat k) text = Some e.
Proof.
  revert i. induction lines as [|t rest IH]; intros i H; [contradiction|].
  rewrite scanLines_cons in H. apply in_app_or in H as [H|H].
  - exists 0%nat, t. split; [reflexivity|]. rewrite Z.add_0_r.
    destruct (lineEntity i t) as [e'|]; [|contradiction].
    destruct H as [<- | []]. reflexivity.
  - destruct (IH (i + 1) H) as (k & text & Hk & He).
    exists (S k), text. split; [exact Hk|].
    replace (i + Z.of_nat (S k)) with (i + 1 + Z.of_nat k) by lia. exact He.
Qed.

Lemma patternTree_In_inv (h : Host) (filePath : string) (e : PythonTestNode) :
  In e (patternTree h filePath) ->
  exists content k text nm ty isAsync,
    readFileSync h filePath = Some content
    /\ nth_error (JS.splitLines content) k = Some text
    /\ DeclaresTest text nm ty isAsync
    /\ e = Parser.regexNode nm (Z.of_nat k + 1) ty isAsync.
Proof.
  rewrite patternTree_eq.
  destruct (readFileSync h filePath) as [content|]; [|contradiction].
  intros H. apply scanLines_In_inv in H as (k & text & Hk & He).
  apply lineEntity_inv in He as (nm & ty & isAsync & Hd & ->).
  now exists content, k, text, nm, ty, isAsync.
Qed.

End PatternSound.

(** X9. The pattern parser reports nothing but declarations: every
    entity it returns comes from a line of the file that holds a
    [def test_...(], [class Test...] or [async def test_...(] declaration,
    carries the declared name and the number of that line counted from 1,
    which lies between 1 and the number of lines, and has neither class,
    children nor parametrisation. *)
Theorem pattern_parser_reports_declarations_only
  (h : Host) (filePath : string) (e : PythonTestNode) :
  In e (patternTree h filePath) ->
  exists content k text nm ty isAsync,
    readFileSync h filePath = Some content
    /\ nth_error (JS.splitLines content) k = Some text
    /\ DeclaresTest text nm ty isAsync
    /\ e = Parser.regexNode nm (Z.of_nat k + 1) ty isAsync
    /\ 1 <= line e <= Z.of_nat (List.length (JS.splitLines content))
    /\ class e = None /\ children e = None /\ parametrized e = false.
Proof.
  intros H.
  apply patternTree_In_inv in H as (content & k & text & nm & ty & isAsync & Hr & Hk & Hd & ->).
  exists content, k, text, nm, ty, isAsync.
  repeat split; try assumption; try reflexivity.
  - simpl. lia.
  - simpl. assert (k < List.length (JS.splitLines content))%nat; [|lia].
    apply nth_error_Some. congruence.
Qed.

Lemma pattern_parser_reports_declarations_only_witness :
  In (Parser.regexNode "TestCalc" 4 "class" false) (patternTree plainHost "/ws/calc_test.py")
  /\ exists text nm ty isAsync,
       nth_error (JS.splitLines
                    ("import calc" ^^ newline ^^ "def test_add():" ^^ newline ^^
                     "    assert calc.add(1, 2) == 3" ^^ newline ^^
                     "class TestCalc:" ^^ newline ^^
                     "    async def test_divide(self):" ^^ newline ^^ "        pass"))
         3 = Some text
       /\ DeclaresTest text nm ty isAsync.
Proof.
  assert (Hin : In (Parser.regexNode "TestCalc" 4 "class" false)
                   (patternTree plainHost "/ws/calc_test.py"))
    by (right; left; reflexivity).
  split; [exact Hin|].
  destruct (pattern_parser_reports_declarations_only _ _ _ Hin)
    as (content & k & text & nm & ty & isAsync & Hr & Hk & Hd & He & _).
  injection Hr as <-. injection He as _ Hline _ _.
  assert (k = 3%nat) by lia. subst k.
  now exists text, nm, ty, isAsync.
Defined.

(** ** What position resolution can answer *)

Section ResolutionSound.

(** Induction on trees: a property holds of a node when it holds of its
    children. *)
Lemma tree_ind (P : PythonTestNode -> Prop) :
  (forall n, (forall l, children n = Some l -> Forall P l) -> P n) ->
  forall n, P n.
Proof.
  intros H. fix IH 1. intros [nm ln ty cl fn pa asy fx ch el].
  apply H. cbn [children]. intros l E. destruct ch as [l0|]; [|discriminate].
  injection E as <-. induction l0 as [|x r IHr]; constructor; [apply IH | exact IHr].
Qed.

Lemma flatten_self (n : PythonTestNode) : In n (flatten n).
Proof. destruct n. now left. Qed.

Lemma flatten_child (n x : PythonTestNode) (l : list PythonTestNode) :
  children n = Some l -> In x (flat_map flatten l) -> In x (flatten n).
Proof.
  destruct n as [nm ln ty cl fn pa asy fx ch el]. cbn [children]. intros -> H.
  now right.
Qed.

Lemma firstNested_inv (rec : PythonTestNode -> option string)
  (l : list PythonTestNode) (s : string) :
  Util.firstNested rec l = Some s -> exists e, In e l /\ rec e = Some s.
Proof.
  induction l as [|e l IH]; [discriminate|]. simpl.
  destruct (rec e) as [r|] eqn:Hr.
  - destruct (JS.truthy r).
    + intros [= <-]. exists e. split; [now left | exact Hr].
    + intros H. destruct (IH H) as (x & Hx & Hs). exists x. split; [now right | exact Hs].
  - intros H. destruct (IH H) as (x & Hx & Hs). exists x. split; [now right | exact Hs].
Qed.

Lemma findLevel_sound (selectedLine : Z) (l : list PythonTestNode) (s : string) :
  Forall (fun n => forall r, Util.findInChildren selectedLine n = Some r ->
            exists x, In x (flatten n)
                      /\ Util.lineMatches selectedLine x = true
                      /\ r = Util.returnedName x) l ->
  Util.findLevel selectedLine (Util.findInChildren selectedLine) l = Some s ->
  exists x, In x (flat_map flatten l)
            /\ Util.lineMatches selectedLine x = true
            /\ s = Util.returnedName x.
Proof.
  intros Hall. unfold Util.findLevel.
  destruct (find (Util.lineMatches selectedLine) l) as [e|] eqn:Hf.
  - intros [= <-]. apply find_some in Hf as [Hin Hm]. exists e.
    split; [|now split]. apply in_flat_map. exists e. split; [exact Hin | apply flatten_self].
  - intros H. apply firstNested_inv in H as (e & Hin & Hr).
    rewrite Forall_forall in Hall. destruct (Hall e Hin s Hr) as (x & Hx & Hm & Hs).
    exists x. split; [|now split]. apply in_flat_map. now exists e.
Qed.

Lemma findInChildren_sound (selectedLine : Z) (n : PythonTestNode) (r : string) :
  Util.findInChildren selectedLine n = Some r ->
  exists x, In x (flatten n)
            /\ Util.lineMatches selectedLine x = true
            /\ r = Util.returnedName x.
Proof.
  revert r. induction n as [n IH] using tree_ind. intros r H.
  rewrite findInChildren_children in H.
  destruct (children n) as [l|] eqn:Hc; [|discriminate].
  unfold Util.findFullTestName in H.
  destruct (findLevel_sound selectedLine l r (IH l eq_refl) H) as (x & Hx & Hm & Hr).
  exists x. split; [|now split]. now apply (flatten_child n x l).
Qed.

Lemma findFullTestName_sound (selectedLine : Z) (top : list PythonTestNode)
  (s : string) :
  Util.findFullTestName selectedLine (Some top) = Some s ->
  exists x, In x (flat_map flatten top)
            /\ Util.lineMatches selectedLine x = true
            /\ s = Util.returnedName x.
Proof.
  unfold Util.findFullTestName. apply findLevel_sound.
  apply Forall_forall. intros n _ r. apply findInChildren_sound.
Qed.

(** In a list in strictly increasing line order and without [endLine],
    the search on an entity's line finds that entity. *)
Lemma find_by_line (l : list PythonTestNode) (e : PythonTestNode) :
  StronglySorted lineLt l ->
  Forall (fun x => endLine x = None) l ->
  In e l ->
  find (Util.lineMatches (line e)) l = Some e.
Proof.
  induction 1 as [|x l Hs IH Hx]; intros Hend Hin; [contradiction|].
  inversion Hend as [|? ? Hxe Hle]; subst. cbn [find].
  destruct Hin as [-> | Hin].
  - unfold Util.lineMatches. now rewrite Z.eqb_refl.
  - rewrite Forall_forall in Hx. pose proof (Hx e Hin) as Hlt. unfold lineLt in Hlt.
    unfold Util.lineMatches. rewrite Hxe, orb_false_r.
    destruct (Z.eqb_spec (line e) (line x)); [lia | now apply IH].
Qed.

Lemma patternTree_no_endLine (h : Host) (filePath : string) :
  Forall (fun x => endLine x = None) (patternTree h filePath).
Proof.
  apply Forall_forall. intros e He.
  apply patternTree_In_inv in He as (? & ? & ? & ? & ? & ? & _ & _ & _ & ->).
  reflexivity.
Qed.

End ResolutionSound.

(** X10. Position resolution never invents a name: whatever tree and
    cursor line it is given, an answer is the name ([fullName], or [name]
    when that is empty) of an entity of the tree, at some depth, that
    matches the cursor line. *)
Theorem resolution_answers_with_a_matching_entity
  (selectedLine : Z) (top : list PythonTestNode) (s : string) :
  Util.findFullTestName selectedLine (Some top) = Some s ->
  exists x, In x (flat_map flatten top)
            /\ Util.lineMatches selectedLine x = true
            /\ s = Util.returnedName x.
Proof. apply findFullTestName_sound. Qed.

Lemma resolution_answers_with_a_matching_entity_witness :
  Util.findFullTestName 3 (Some [parsedClass]) = Some "TestCalc::test_divide"
  /\ exists x, In x (flat_map flatten [parsedClass])
               /\ Util.lineMatches 3 x = true
               /\ "TestCalc::test_divide" = Util.returnedName x.
Proof.
  split; [reflexivity|].
  apply (resolution_answers_with_a_matching_entity 3 [parsedClass]). reflexivity.
Defined.

(** X11. From the cursor to the name, when the structural parser is of no
    help: with no selection and the cursor on a line that holds a test
    declaration, resolution answers with the declared name. *)
Theorem cursor_on_declaration_resolves_to_its_name
  (h : Host) (editor : Runner.TextEditor) (c : Calls)
  (content text nm ty : string) (isAsync : bool) (k : nat) :
  Runner.selection_isEmpty editor = true ->
  existsSync h (Runner.document_fileName editor) = true ->
  Parser.isTestFile (Runner.document_fileName editor) = true ->
  StructuralFailure h (Runner.document_fileName editor) ->
  readFileSync h (Runner.document_fileName editor) = Some content ->
  nth_error (JS.splitLines content) k = Some text ->
  DeclaresTest text nm ty isAsync ->
  Runner.selection_active_line editor = Z.of_nat k ->
  fst (Runner.findCurrentTestName h editor c) = Returned (Some nm).
Proof.
  intros Hsel He Ht Hfail Hr Hk Hd Hline.
  unfold Runner.findCurrentTestName, Parser.parse, Eff.bind. rewrite Hsel. cbn [negb].
  rewrite parseTestFile_run, He, Ht. cbn [negb].
  rewrite (structural_failure_gives_nothing _ _ Hfail). cbn [List.length Z.of_nat Z.ltb].
  change (0 <? 0) with false. cbn [fst Eff.ret].
  set (e := Parser.regexNode nm (Z.of_nat k + 1) ty isAsync).
  assert (Hin : In e (patternTree h (Runner.document_fileName editor))).
  { rewrite patternTree_eq, Hr. apply (scanLines_nth _ 0 k text); [exact Hk|].
    now apply lineEntity_declared. }
  unfold Util.findFullTestName, Util.findLevel. rewrite Hline.
  change (Z.of_nat k + 1) with (line e).
  rewrite (find_by_line _ e (patternTree_sorted h _) (patternTree_no_endLine h _) Hin).
  unfold Util.returnedName, JS.or_else. cbn [fullName name e Parser.regexNode].
  now destruct (JS.truthy nm).
Qed.

Lemma cursor_on_declaration_resolves_to_its_name_witness :
  Runner.selection_isEmpty (editorSelecting EmptyString 4) = true
  /\ nth_error (JS.splitLines
                  ("import calc" ^^ newline ^^ "def test_add():" ^^ newline ^^
                   "    assert calc.add(1, 2) == 3" ^^ newline ^^
                   "class TestCalc:" ^^ newline ^^
                   "    async def test_divide(self):" ^^ newline ^^ "        pass"))
       4 = Some "    async def test_divide(self):"
  /\ fst (Runner.findCurrentTestName plainHost (editorSelecting EmptyString 4) noCalls)
     = Returned (Some "test_divide").
Proof.
  split; [reflexivity|]. split; [reflexivity|].
  apply (cursor_on_declaration_resolves_to_its_name plainHost
           (editorSelecting EmptyString 4) noCalls _
           "    async def test_divide(self):" "test_divide" "function" true 4
           eq_refl eq_refl eq_refl (script_missing plainHost "/ws/calc_test.py" eq_refl) eq_refl eq_refl).
  - apply (declares_async "    " " " " " "divide" EmptyString "self):");
      first [reflexivity | discriminate].
  - reflexivity.
Defined.

(** ** The directory walk in general *)

Section WalkInGeneral.

Context {T : Type} (callback : Util.fspath -> option T).

(** Below the root as workspace, the walk stops before the root. *)
Lemma searchLoop_below_root (revRest : list string) :
  revRest <> [] ->
  Util.searchLoop callback [] (rev revRest)
  = firstSome callback (removelast (upwardsRev [] revRest)).
Proof.
  induction revRest as [|seg r IH]; [congruence|]. intros _.
  rewrite searchLoop_unfold.
  destruct r as [|seg' r].
  - change (rev [seg]) with [seg].
    change (removelast (upwardsRev [] [seg])) with [[seg]].
    cbn [firstSome]. destruct (callback [seg]); [reflexivity|].
    unfold Util.walkContinues. change (Util.dirname [seg]) with (@nil string).
    now rewrite pathEqb_refl.
  - change (removelast (upwardsRev [] (seg :: seg' :: r)))
      with (rev (seg :: seg' :: r) :: removelast (upwardsRev [] (seg' :: r))).
    cbn [firstSome]. destruct (callback (rev (seg :: seg' :: r))); [reflexivity|].
    change (rev (seg :: seg' :: r)) with (rev (seg' :: r) ++ [seg]).
    unfold Util.walkContinues. rewrite dirname_snoc, !pathEqb_false, IH;
      [reflexivity | discriminate | |].
    + rewrite length_app. simpl. lia.
    + simpl. rewrite length_app. simpl. lia.
Qed.

Lemma searchLoop_sound (endPath currentFolderPath : Util.fspath) (r : T) :
  Util.searchLoop callback endPath currentFolderPath = Some r ->
  exists d, callback d = Some r.
Proof.
  funelim (Util.searchLoop callback endPath currentFolderPath); intros Hfound.
  - injection Hfound as <-. now exists currentFolderPath.
  - auto.
  - discriminate.
Qed.

Lemma searchPathToParent_inside (h : Host) (ws : Util.fspath) (rest : list string)
  (c : Calls) :
  ws <> [] ->
  statIsDirectory h (Util.render (ws ++ rest)) = Some true ->
  Util.searchPathToParent h (ws ++ rest) ws callback c
  = (Returned (firstSome callback (upwards ws rest)), c).
Proof.
  intros Hws Hdir. unfold Util.searchPathToParent, Eff.bind, Eff.orThrow, Eff.ret.
  rewrite Hdir, render_starts_with_parent. cbn [negb].
  unfold upwards. rewrite <- (rev_involutive rest) at 1.
  now rewrite (searchLoop_upwards callback ws (rev rest) Hws).
Qed.

Lemma searchPathToParent_from_file (h : Host) (ws : Util.fspath) (rest : list string)
  (fileName : string) (c : Calls) :
  ws <> [] ->
  statIsDirectory h (Util.render (ws ++ rest ++ [fileName])) = Some false ->
  Util.searchPathToParent h (ws ++ rest ++ [fileName]) ws callback c
  = (Returned (firstSome callback (upwards ws rest)), c).
Proof.
  intros Hws Hdir. unfold Util.searchPathToParent, Eff.bind, Eff.orThrow, Eff.ret.
  assert (Hparent : Util.dirname (ws ++ rest ++ [fileName]) = ws ++ rest)
    by (rewrite app_assoc; apply dirname_snoc).
  rewrite Hdir, Hparent, render_starts_with_parent. cbn [negb].
  unfold upwards. rewrite <- (rev_involutive rest) at 1.
  now rewrite (searchLoop_upwards callback ws (rev rest) Hws).
Qed.

End WalkInGeneral.

(** X12. [searchPathToParent] from a directory inside a workspace folder
    that is not the file-system root tries the directory, then each
    parent up to and including the workspace folder, and answers with the
    first result; started on a file it begins with the file's directory;
    it throws when the starting path cannot be examined. When the
    workspace folder is the file-system root, the root itself is never
    tried from a directory below it. *)
Theorem searchPathToParent_walks_up_to_the_workspace
  {T : Type} (h : Host) (callback : Util.fspath -> option T)
  (ws : Util.fspath) (rest : list string) (fileName : string) (c : Calls) :
  (ws <> [] -> statIsDirectory h (Util.render (ws ++ rest)) = Some true ->
     Util.searchPathToParent h (ws ++ rest) ws callback c
     = (Returned (firstSome callback (upwards ws rest)), c))
  /\ (ws <> [] ->
      statIsDirectory h (Util.render (ws ++ rest ++ [fileName])) = Some false ->
      Util.searchPathToParent h (ws ++ rest ++ [fileName]) ws callback c
      = (Returned (firstSome callback (upwards ws rest)), c))
  /\ (statIsDirectory h (Util.render (ws ++ rest)) = None ->
      Util.searchPathToParent h (ws ++ rest) ws callback c = (Thrown, c))
  /\ (rest <> [] -> statIsDirectory h (Util.render rest) = Some true ->
      Util.searchPathToParent h rest [] callback c
      = (Returned (firstSome callback (removelast (upwards [] rest))), c)).
Proof.
  split; [|split; [|split]].
  - apply searchPathToParent_inside.
  - apply searchPathToParent_from_file.
  - intros Hdir. unfold Util.searchPathToParent, Eff.bind, Eff.orThrow, Eff.throw.
    now rewrite Hdir.
  - intros Hrest Hdir. unfold Util.searchPathToParent, Eff.bind, Eff.orThrow, Eff.ret.
    pose proof (render_starts_with_parent [] rest) as Hguard. cbn [app] in Hguard.
    rewrite Hdir, Hguard. cbn [negb].
    change (Util.dirname []) with (@nil string).
    assert (Hrev : rev rest <> []).
    { intros E. apply Hrest. now rewrite <- (rev_involutive rest), E. }
    unfold upwards. rewrite <- (searchLoop_below_root callback (rev rest) Hrev).
    now rewrite rev_involutive.
Qed.

Lemma searchPathToParent_walks_up_to_the_workspace_witness :
  statIsDirectory nestedHost (Util.render (["ws"] ++ ["pkg"])) = Some true
  /\ Util.searchPathToParent nestedHost (["ws"] ++ ["pkg"]) ["ws"]
       (Config.checkPoetryProject nestedHost) noCalls
     = (Returned (Some ["ws"; "pkg"]), noCalls)
  /\ upwards [] ["ws"; "pkg"] = [["ws"; "pkg"]; ["ws"]; []].
Proof.
  split; [reflexivity|]. split; [|reflexivity].
  rewrite (proj1 (searchPathToParent_walks_up_to_the_workspace nestedHost
                    (Config.checkPoetryProject nestedHost) ["ws"] ["pkg"]
                    "test_calc.py" noCalls) ltac:(discriminate) eq_refl).
  reflexivity.
Defined.

(** ** Poetry detection *)

Section Poetry.

Lemma checkPoetryProject_inv (h : Host) (dirPath root : Util.fspath) :
  Config.checkPoetryProject h dirPath = Some root ->
  root = dirPath
  /\ existsSync h (Util.render (Util.joinPath dirPath "pyproject.toml")) = true
  /\ exists content,
       readFileSync h (Util.render (Util.joinPath dirPath "pyproject.toml")) = Some content
       /\ JS.includes content "[tool.poetry]" = true.
Proof.
  unfold Config.checkPoetryProject.
  destruct (existsSync h _); [|discriminate].
  destruct (readFileSync h _) as [content|]; [|discriminate].
  destruct (JS.includes content "[tool.poetry]") eqn:Hi; [|discriminate].
  intros [= <-]. split; [reflexivity|]. split; [reflexivity|]. now exists content.
Qed.

(** A root that is found is a directory that passes the check. *)
Lemma getPoetryProjectRoot_sound (cfg : Config.PytestRunnerConfig) (c c' : Calls)
  (root : Util.fspath) :
  Config.getPoetryProjectRoot cfg c = (Returned (Some root), c') ->
  Config.checkPoetryProject (Config.host cfg) root = Some root.
Proof.
  unfold Config.getPoetryProjectRoot.
  destruct (Config.checkPoetryProject (Config.host cfg)
              (Config.currentWorkspaceFolderPath cfg)) as [w|] eqn:Hw.
  - intros [= <- _]. destruct (checkPoetryProject_inv _ _ _ Hw) as (-> & _). exact Hw.
  - unfold Util.searchPathToParent, Eff.bind, Eff.orThrow, Eff.ret, Eff.throw.
    destruct (statIsDirectory _ _) as [b|]; [|discriminate].
    destruct (negb (JS.startsWith _ _)); [discriminate|].
    intros [= H _]. apply searchLoop_sound in H as (d & Hd).
    destruct (checkPoetryProject_inv _ _ _ Hd) as (-> & _). exact Hd.
Qed.

Lemma detectPoetryProject_run (cfg : Config.PytestRunnerConfig) (c : Calls) :
  Config.detectPoetryProject cfg c
  = match Config.getPoetryProjectRoot cfg c with
    | (Returned (Some _), c') => (Returned true, c')
    | (Returned None, c') => (Returned false, c')
    | (Thrown, c') => (Thrown, c')
    end.
Proof.
  unfold Config.detectPoetryProject, Eff.bind.
  destruct (Config.getPoetryProjectRoot cfg c) as [[[root|]|] c'] eqn:E; try reflexivity.
  apply getPoetryProjectRoot_sound in E.
  destruct (checkPoetryProject_inv _ _ _ E) as (_ & Hex & content & Hr & Hi).
  rewrite Hex. cbn [negb]. unfold Eff.tryCatch, Eff.bind, Eff.orThrow, Eff.ret.
  now rewrite Hr, Hi.
Qed.

End Poetry.

(** X13. [detectPoetryProject] says yes exactly when [getPoetryProjectRoot]
    finds a root, and throws only when that throws: the second look at the
    pyproject.toml of the root never changes the answer. Hence the command
    starts with [poetry run pytest] exactly when Poetry use is enabled and
    a root is found, and with the configured pytest path otherwise; with
    Poetry use disabled the file system is not consulted at all. *)
Theorem poetry_detected_iff_root_found (cfg : Config.PytestRunnerConfig) (c : Calls) :
  let suffix :=
    if JS.truthy (JS.join " " (Config.pytestArgs cfg))
    then " " ^^ JS.join " " (Config.pytestArgs cfg) else EmptyString in
  Config.detectPoetryProject cfg c
  = match Config.getPoetryProjectRoot cfg c with
    | (Returned (Some _), c') => (Returned true, c')
    | (Returned None, c') => (Returned false, c')
    | (Thrown, c') => (Thrown, c')
    end
  /\ (Config.usePoetry cfg = true ->
      Config.pytestCommand cfg c
      = match Config.getPoetryProjectRoot cfg c with
        | (Returned (Some _), c') => (Returned ("poetry run pytest" ^^ suffix), c')
        | (Returned None, c') => (Returned (Config.pytestPath cfg ^^ suffix), c')
        | (Thrown, c') => (Thrown, c')
        end)
  /\ (Config.usePoetry cfg = false ->
      Config.pytestCommand cfg c = (Returned (Config.pytestPath cfg ^^ suffix), c)).
Proof.
  cbv zeta. split; [apply detectPoetryProject_run|]. split.
  - intros Hu. unfold Config.pytestCommand, Eff.bind. rewrite Hu, detectPoetryProject_run.
    destruct (Config.getPoetryProjectRoot cfg c) as [[[root|]|] c']; reflexivity.
  - intros Hu. unfold Config.pytestCommand, Eff.bind. rewrite Hu. reflexivity.
Qed.

Lemma poetry_detected_iff_root_found_witness :
  Config.usePoetry nestedConfig = true
  /\ Config.pytestCommand nestedConfig noCalls = (Returned "poetry run pytest -v", noCalls)
  /\ Config.pytestCommand defaultConfig noCalls = (Returned "pytest -v", noCalls).
Proof.
  split; [reflexivity|]. split.
  - rewrite (proj1 (proj2 (poetry_detected_iff_root_found nestedConfig noCalls)) eq_refl).
    reflexivity.
  - rewrite (proj1 (proj2 (poetry_detected_iff_root_found defaultConfig noCalls)) eq_refl).
    reflexivity.
Defined.

(** ** The pytest configuration file *)

(** X14. For a test file inside a workspace folder that is not the
    file-system root, [findPytestConfigPath] answers with the
    configuration file of the nearest directory, from the file's directory
    up to the workspace folder, that holds one, and with the empty string
    when none does; within a directory pytest.ini comes before
    pyproject.toml, and that before setup.cfg. In particular, next to the
    test file: pytest.ini is chosen when it exists; pyproject.toml when it
    exists and pytest.ini does not; setup.cfg when it exists and the two
    others do not; each of them whatever the directories above hold. *)
Theorem config_file_of_the_nearest_directory
  (cfg : Config.PytestRunnerConfig) (rest : list string) (fileName : string)
  (c : Calls) :
  let ws := Config.currentWorkspaceFolderPath cfg in
  let h := Config.host cfg in
  let here (configFilename : string) := ws ++ rest ++ [configFilename] in
  let answer := ConfigRest.findPytestConfigPath cfg (Some (ws ++ rest ++ [fileName])) c in
  ws <> [] ->
  statIsDirectory h (Util.render (ws ++ rest ++ [fileName])) = Some false ->
  answer
  = (Returned match firstSome (configFileOf h) (upwards ws rest) with
              | Some p => Util.render p
              | None => EmptyString
              end, c)
  /\ (existsSync h (Util.render (here "pytest.ini")) = true ->
      answer = (Returned (Util.render (here "pytest.ini")), c))
  /\ (existsSync h (Util.render (here "pytest.ini")) = false ->
      existsSync h (Util.render (here "pyproject.toml")) = true ->
      answer = (Returned (Util.render (here "pyproject.toml")), c))
  /\ (existsSync h (Util.render (here "pytest.ini")) = false ->
      existsSync h (Util.render (here "pyproject.toml")) = false ->
      existsSync h (Util.render (here "setup.cfg")) = true ->
      answer = (Returned (Util.render (here "setup.cfg")), c)).
Proof.
  cbv zeta. intros Hws Hfile.
  assert (Hrun :
    ConfigRest.findPytestConfigPath cfg
      (Some (Config.currentWorkspaceFolderPath cfg ++ rest ++ [fileName])) c
    = (Returned match firstSome (configFileOf (Config.host cfg))
                        (upwards (Config.currentWorkspaceFolderPath cfg) rest) with
                | Some p => Util.render p
                | None => EmptyString
                end, c)).
  { unfold ConfigRest.findPytestConfigPath, Eff.bind.
    rewrite (searchPathToParent_from_file _ _ _ _ _ _ Hws Hfile).
    unfold Eff.ret, Util.normalizePath, Util.isWindows.
    change (configFileOf (Config.host cfg)) with (ConfigRest.configIn (Config.host cfg)).
    now destruct (firstSome _ _). }
  assert (Hnear : forall found,
             configFileOf (Config.host cfg) (Config.currentWorkspaceFolderPath cfg ++ rest)
             = Some found ->
             ConfigRest.findPytestConfigPath cfg
               (Some (Config.currentWorkspaceFolderPath cfg ++ rest ++ [fileName])) c
             = (Returned (Util.render found), c)).
  { intros found Hfound. rewrite Hrun. unfold upwards.
    destruct (rev rest) as [|seg r] eqn:Hrev.
    + assert (rest = []) by (now rewrite <- (rev_involutive rest), Hrev). subst rest.
      rewrite app_nil_r in Hfound. cbn [upwardsRev firstSome]. now rewrite Hfound.
    + cbn [upwardsRev firstSome]. rewrite <- Hrev, rev_involutive, Hfound. reflexivity. }
  assert (Hhere : forall configFilename,
             (Config.currentWorkspaceFolderPath cfg ++ rest) ++ [configFilename]
             = Config.currentWorkspaceFolderPath cfg ++ rest ++ [configFilename])
    by (intros; now rewrite <- app_assoc).
  split; [exact Hrun|]. split; [|split].
  - intros Hini. rewrite <- (Hhere "pytest.ini") in Hini |- *. apply Hnear.
    unfold configFileOf. now rewrite Hini.
  - intros Hini Htoml. rewrite <- (Hhere "pytest.ini") in Hini.
    rewrite <- (Hhere "pyproject.toml") in Htoml |- *. apply Hnear.
    unfold configFileOf. now rewrite Hini, Htoml.
  - intros Hini Htoml Hcfg. rewrite <- (Hhere "pytest.ini") in Hini.
    rewrite <- (Hhere "pyproject.toml") in Htoml.
    rewrite <- (Hhere "setup.cfg") in Hcfg |- *. apply Hnear.
    unfold configFileOf. now rewrite Hini, Htoml, Hcfg.
Qed.

(** Next to the test file pyproject.toml and setup.cfg, above it a
    pytest.ini: pyproject.toml is chosen. With a pytest.ini next to the
    test file that one is. *)
Lemma config_file_of_the_nearest_directory_witness :
  Config.currentWorkspaceFolderPath tomlConfig <> []
  /\ statIsDirectory tomlHost (Util.render (["ws"] ++ ["pkg"] ++ ["test_calc.py"]))
     = Some false
  /\ existsSync tomlHost "/ws/pytest.ini" = true
  /\ existsSync tomlHost "/ws/pkg/setup.cfg" = true
  /\ ConfigRest.findPytestConfigPath tomlConfig
       (Some (["ws"] ++ ["pkg"] ++ ["test_calc.py"])) noCalls
     = (Returned "/ws/pkg/pyproject.toml", noCalls)
  /\ ConfigRest.findPytestConfigPath configuredConfig
       (Some (["ws"] ++ ["pkg"] ++ ["test_calc.py"])) noCalls
     = (Returned "/ws/pkg/pytest.ini", noCalls).
Proof.
  destruct (config_file_of_the_nearest_directory tomlConfig ["pkg"] "test_calc.py"
              noCalls ltac:(discriminate) eq_refl) as (_ & _ & Htoml & _).
  destruct (config_file_of_the_nearest_directory configuredConfig ["pkg"] "test_calc.py"
              noCalls ltac:(discriminate) eq_refl) as (_ & Hini & _).
  split; [discriminate|]. split; [reflexivity|]. split; [reflexivity|].
  split; [reflexivity|]. split; [exact (Htoml eq_refl eq_refl)|exact (Hini eq_refl)].
Defined.

(** ** The lenses of a tree *)

Section Lenses.

Variable codeLensOptions : list string.

Lemma flat_map_nonempty_guard {A B : Type} (f : A -> list B) (l : list A) :
  (if 0 <? Z.of_nat (List.length l) then flat_map f l else []) = flat_map f l.
Proof. destruct l; reflexivity. Qed.

Lemma flat_map_twice {A B C : Type} (f : B -> list C) (g : A -> list B) (l : list A) :
  flat_map f (flat_map g l) = flat_map (fun x => flat_map f (g x)) l.
Proof.
  induction l as [|x l IH]; [reflexivity|].
  cbn [flat_map]. now rewrite flat_map_app, IH.
Qed.

Lemma flat_map_Forall {A B : Type} (f g : A -> list B) (l : list A) :
  Forall (fun x => f x = g x) l -> flat_map f l = flat_map g l.
Proof. induction 1 as [|x l Hx _ IH]; [reflexivity|]. cbn [flat_map]. now rewrite Hx, IH. Qed.

Lemma lensesOfNode_flatten (n : PythonTestNode) :
  CodeLensProvider.lensesOfNode codeLensOptions n
  = flat_map (lensesFor codeLensOptions) (flatten n).
Proof.
  induction n as [n IH] using tree_ind.
  destruct n as [nm ln ty cl fn pa asy fx ch el]. cbn [children] in IH.
  cbn [CodeLensProvider.lensesOfNode flatten flat_map]. f_equal.
  destruct ch as [l|]; [|reflexivity].
  rewrite flat_map_nonempty_guard, flat_map_twice.
  apply flat_map_Forall, (IH l eq_refl).
Qed.

Lemma getTestsBlocks_flatten (testNodes : list PythonTestNode) :
  CodeLensProvider.getTestsBlocks testNodes codeLensOptions
  = flat_map (lensesFor codeLensOptions) (flat_map flatten testNodes).
Proof.
  unfold CodeLensProvider.getTestsBlocks. rewrite flat_map_twice.
  apply flat_map_Forall, Forall_forall. intros n _. apply lensesOfNode_flatten.
Qed.

Lemma lensesFor_count (l : list PythonTestNode) :
  List.length (flat_map (lensesFor codeLensOptions) l)
  = (List.length codeLensOptions * List.length l)%nat.
Proof.
  induction l as [|n l IH]; [simpl; lia|].
  cbn [flat_map]. rewrite length_app, IH. unfold lensesFor. rewrite length_map.
  simpl. lia.
Qed.

End Lenses.

(** X15. The lenses of a tree are those of its entities taken in
    pre-order, a node before its children, each entity with one lens per
    option in the order of the options; so there are as many lenses as
    options times entities, at any depth. Each lens sits on the entity's
    line counted from 0 and carries the entity's [fullName]. *)
Theorem lenses_follow_the_tree_in_preorder
  (testNodes : list PythonTestNode) (codeLensOptions : list string) :
  CodeLensProvider.getTestsBlocks testNodes codeLensOptions
  = flat_map (lensesFor codeLensOptions) (flat_map flatten testNodes)
  /\ List.length (CodeLensProvider.getTestsBlocks testNodes codeLensOptions)
     = (List.length codeLensOptions * List.length (flat_map flatten testNodes))%nat
  /\ forall lens, In lens (CodeLensProvider.getTestsBlocks testNodes codeLensOptions) ->
       exists n option,
         In n (flat_map flatten testNodes) /\ In option codeLensOptions
         /\ CodeLensProvider.range_startLine (CodeLensProvider.lens_range lens) = line n - 1
         /\ CodeLensProvider.lens_arguments lens = [fullName n]
         /\ CodeLensProvider.lens_title lens = CodeLensProvider.titleMap option.
Proof.
  split; [apply getTestsBlocks_flatten|]. split.
  - rewrite getTestsBlocks_flatten. apply lensesFor_count.
  - intros lens. rewrite getTestsBlocks_flatten. intros H.
    apply in_flat_map in H as (n & Hn & H). unfold lensesFor in H.
    apply in_map_iff in H as (option & <- & Ho).
    exists n, option. repeat split; assumption.
Qed.

(** ** What the CodeLens provider answers *)

Lemma provideCodeLenses_test_file (h : Host) (wb : CodeLensProvider.Workbench)
  (codeLensOptions : list string) (fileName : string)
  (last : list CodeLensProvider.CodeLens) (c c' : Calls)
  (testNodes : list PythonTestNode) :
  UtilRest.isPythonTestFile fileName = true ->
  CodeLensProvider.include wb = [] -> CodeLensProvider.exclude wb = [] ->
  Parser.parse h fileName c = (Returned testNodes, c') ->
  CodeLensProvider.provideCodeLenses h wb codeLensOptions fileName last c
  = (Returned (CodeLensProvider.getTestsBlocks testNodes codeLensOptions,
               CodeLensProvider.getTestsBlocks testNodes codeLensOptions), c').
Proof.
  intros Ht Hi He Hp.
  unfold CodeLensProvider.provideCodeLenses. rewrite Ht, Hi, He.
  cbn [negb List.length Z.of_nat]. change (0 <? 0) with false.
  cbv [Eff.tryCatch Eff.bind Eff.ret]. cbn [negb]. rewrite Hp.
  now destruct testNodes.
Qed.

(** X16. The CodeLens provider never throws. For a file whose name is
    not a test-file name it answers with no lens and keeps the lenses it
    remembers; when the glob library throws on the include patterns it
    answers with the remembered lenses and keeps them; and for a test file
    without include or exclude patterns it answers with the lenses of the
    parsed tree and remembers exactly those, none when the tree is
    empty. *)
Theorem provider_answers_and_remembers
  (h : Host) (wb : CodeLensProvider.Workbench) (codeLensOptions : list string)
  (fileName : string) (last : list CodeLensProvider.CodeLens) (c : Calls) :
  (exists answer c',
     CodeLensProvider.provideCodeLenses h wb codeLensOptions fileName last c
     = (Returned answer, c'))
  /\ (UtilRest.isPythonTestFile fileName = false ->
      CodeLensProvider.provideCodeLenses h wb codeLensOptions fileName last c
      = (Returned ([], last), c))
  /\ (UtilRest.isPythonTestFile fileName = true ->
      CodeLensProvider.include wb <> [] ->
      CodeLensProvider.globSync wb (CodeLensProvider.include wb)
        (Util.normalizePath (platformWin32 h) (CodeLensProvider.currentWorkspaceFolderPath wb))
      = None ->
      CodeLensProvider.provideCodeLenses h wb codeLensOptions fileName last c
      = (Returned (last, last), c))
  /\ (UtilRest.isPythonTestFile fileName = true ->
      CodeLensProvider.include wb = [] -> CodeLensProvider.exclude wb = [] ->
      forall testNodes c',
        Parser.parse h fileName c = (Returned testNodes, c') ->
        CodeLensProvider.provideCodeLenses h wb codeLensOptions fileName last c
        = (Returned (CodeLensProvider.getTestsBlocks testNodes codeLensOptions,
                     CodeLensProvider.getTestsBlocks testNodes codeLensOptions), c')).
Proof.
  split; [|split; [|split]].
  - unfold CodeLensProvider.provideCodeLenses, Eff.tryCatch.
    match goal with |- context [match ?m c with _ => _ end] =>
      destruct (m c) as [[a|] c'] end.
    + now exists a, c'.
    + now exists (last, last), c'.
  - intros Ht. unfold CodeLensProvider.provideCodeLenses, Eff.tryCatch.
    now rewrite Ht.
  - intros Ht Hi Hg. unfold CodeLensProvider.provideCodeLenses, Eff.tryCatch, Eff.bind.
    rewrite Ht. cbn [negb].
    destruct (CodeLensProvider.include wb) as [|p ps]; [congruence|].
    replace (0 <? Z.of_nat (List.length (p :: ps))) with true
      by (symmetry; apply Z.ltb_lt; simpl; lia).
    rewrite Hg. reflexivity.
  - intros Ht Hi He testNodes c' Hp.
    apply provideCodeLenses_test_file; assumption.
Qed.

Lemma provider_answers_and_remembers_witness :
  UtilRest.isPythonTestFile "/ws/calc_test.py" = true
  /\ CodeLensProvider.include brokenWorkbench <> []
  /\ CodeLensProvider.provideCodeLenses plainHost brokenWorkbench ["run"; "debug"]
       "/ws/calc_test.py" (lensesFor ["run"] parsedMethod) noCalls
     = (Returned (lensesFor ["run"] parsedMethod, lensesFor ["run"] parsedMethod), noCalls)
  /\ List.length
       (fst (match fst (CodeLensProvider.provideCodeLenses plainHost openWorkbench
                          ["run"; "debug"] "/ws/calc_test.py" [] noCalls) with
             | Returned answer => answer
             | Thrown => ([], [])
             end)) = 6%nat.
Proof.
  destruct (provider_answers_and_remembers plainHost brokenWorkbench ["run"; "debug"]
              "/ws/calc_test.py" (lensesFor ["run"] parsedMethod) noCalls)
    as (_ & _ & Hbroken & _).
  destruct (provider_answers_and_remembers plainHost openWorkbench ["run"; "debug"]
              "/ws/calc_test.py" [] noCalls)
    as (_ & _ & _ & Hopen).
  split; [reflexivity|]. split; [discriminate|]. split.
  - apply Hbroken; [reflexivity | discriminate | reflexivity].
  - rewrite (Hopen eq_refl eq_refl eq_refl _ _ eq_refl). reflexivity.
Defined.

(** ** What the run command is made of *)

Section RunArguments.

Lemma quote_starts_with_quote (win32 : bool) (s a : string) :
  Util.quote win32 s = a -> Util.QUOTES (JS.charAt a 0) = true.
Proof. intros <-. rewrite quote_shape. now destruct win32. Qed.

(** Every argument is one of the fixed ones, a quoted string, a
    configured argument or an option. *)
Lemma buildPytestArgs_members (cfg : Config.PytestRunnerConfig) (filePath : string)
  (testName : option string) (options : option (list string)) (a : string) :
  In a (Runner.buildPytestArgs cfg filePath testName true options) ->
  a = "-k" \/ a = "-c"
  \/ Util.QUOTES (JS.charAt a 0) = true
  \/ In a (Config.pytestArgs cfg)
  \/ In a (match options with Some o => o | None => [] end).
Proof.
  unfold Runner.buildPytestArgs. intros H.
  repeat match goal with
         | H : In _ (if ?b then _ else _) |- _ => destruct b
         | H : In _ (match ?t with Some _ => _ | None => _ end) |- _ => destruct t
         | H : In _ (_ ++ _) |- _ => apply in_app_or in H as [H|H]
         end;
    try (apply setOf_In in H as [H _]);
    try (cbn [In] in H; decompose [or] H; subst; try contradiction);
    try (now left); try (now right; left);
    try (right; right; left; eapply quote_starts_with_quote; reflexivity);
    try (right; right; right; left; assumption);
    try (right; right; right; right; assumption).
Qed.

End RunArguments.

(** X17. The run command holds nothing of its own besides the quoted
    file path, [-k] with the quoted expression and [-c] with the quoted
    configuration path: any other argument is a configured default
    argument or a one-off option. In particular the flags [-s] and
    [--tb=short] of the debug launch are in the run command only when the
    user put them there. *)
Theorem run_command_has_no_debug_flags (cfg : Config.PytestRunnerConfig)
  (filePath : string) (testName : option string) (options : option (list string))
  (a : string) :
  In a (Runner.buildPytestArgs cfg filePath testName true options) ->
  (a = "-k" \/ a = "-c"
   \/ Util.QUOTES (JS.charAt a 0) = true
   \/ In a (Config.pytestArgs cfg)
   \/ In a (match options with Some o => o | None => [] end))
  /\ (a = "-s" \/ a = "--tb=short" ->
      In a (Config.pytestArgs cfg)
      \/ In a (match options with Some o => o | None => [] end)).
Proof.
  intros H. pose proof (buildPytestArgs_members _ _ _ _ _ H) as Hm.
  split; [exact Hm|].
  intros [-> | ->]; destruct Hm as [Hm | [Hm | [Hm | Hm]]];
    try discriminate; exact Hm.
Qed.

Lemma run_command_has_no_debug_flags_witness :
  In "-v" (Runner.buildPytestArgs defaultConfig "calc_test.py" (Some "test_add") true None)
  /\ In "-v" (Config.pytestArgs defaultConfig).
Proof.
  assert (Hin : In "-v" (Runner.buildPytestArgs defaultConfig "calc_test.py"
                           (Some "test_add") true None))
    by (right; right; right; left; reflexivity).
  split; [exact Hin|].
  destruct (run_command_has_no_debug_flags _ _ _ _ _ Hin)
    as [[Hm | [Hm | [Hm | [Hm | Hm]]]] _];
    try discriminate; [exact Hm | contradiction].
Defined.

(** ** Class and method of a full name *)

Section FullNames.

Lemma splitFrom_cons (sep : string) (c : ascii) (s : string) :
  UtilRest.splitFrom sep 0 (String c s)
  = if JS.startsWith (String c s) sep
    then EmptyString :: UtilRest.splitFrom sep (String.length sep - 1) s
    else match UtilRest.splitFrom sep 0 s with
         | [] => [String c EmptyString]
         | piece :: pieces => String c piece :: pieces
         end.
Proof. reflexivity. Qed.

Lemma split_without_separator (s : string) :
  JS.includes s "::" = false -> UtilRest.split s "::" = [s].
Proof.
  unfold UtilRest.split. induction s as [|c s IH]; intros H; [reflexivity|].
  rewrite includes_cons in H. apply orb_false_iff in H as [Hs Hi].
  now rewrite splitFrom_cons, Hs, (IH Hi).
Qed.

Lemma split_at_first_separator (a b : string) :
  beforeFirstSeparator a ->
  UtilRest.split (a ^^ "::" ^^ b) "::" = a :: UtilRest.split b "::".
Proof.
  unfold beforeFirstSeparator, UtilRest.split.
  induction a as [|c a IH]; intros H.
  - reflexivity.
  - change (String c a ^^ ":") with (String c (a ^^ ":")) in H.
    rewrite includes_cons in H. apply orb_false_iff in H as [Hs Hi].
    change (String c a ^^ "::" ^^ b) with (String c (a ^^ "::" ^^ b)).
    assert (Hs' : JS.startsWith (String c (a ^^ "::" ^^ b)) "::" = false).
    { rewrite startsWith_sep_cons in *. destruct (Ascii.eqb ":" c); [|reflexivity].
      rewrite andb_true_l in *. now apply startsWith_colon_after. }
    now rewrite splitFrom_cons, Hs', (IH Hi).
Qed.

Lemma split_nonempty (s : string) : UtilRest.split s "::" <> [].
Proof.
  unfold UtilRest.split. generalize 0%nat.
  induction s as [|c s IH]; intros skip; [discriminate|].
  cbn [UtilRest.splitFrom]. destruct skip; [|apply IH].
  destruct (JS.startsWith (String c s) "::"); [discriminate|].
  destruct (UtilRest.splitFrom "::" 0 s); discriminate.
Qed.

End FullNames.

(** X18. [parseTestFullName] takes a qualified name apart where its first
    separator stands: [class::method] gives back the class and the method,
    a name without separator is a method without class, and of a name with
    further separators only the first two parts are kept, what follows
    the second separator is dropped. *)
Theorem parseTestFullName_splits_at_the_first_separator (a b rest s : string) :
  beforeFirstSeparator a ->
  JS.includes b "::" = false ->
  JS.includes s "::" = false ->
  UtilRest.parseTestFullName (a ^^ "::" ^^ b) = UtilRest.mkFullName (Some a) b
  /\ UtilRest.parseTestFullName s = UtilRest.mkFullName None s
  /\ (beforeFirstSeparator b ->
      UtilRest.parseTestFullName (a ^^ "::" ^^ b ^^ "::" ^^ rest)
      = UtilRest.mkFullName (Some a) b).
Proof.
  intros Ha Hb Hs. unfold UtilRest.parseTestFullName. split; [|split].
  - rewrite (includes_append_r a ("::" ^^ b) "::" eq_refl).
    rewrite (split_at_first_separator a b Ha), (split_without_separator b Hb).
    reflexivity.
  - now rewrite Hs.
  - intros Hb'. rewrite (includes_append_r a ("::" ^^ b ^^ "::" ^^ rest) "::" eq_refl).
    rewrite (split_at_first_separator a _ Ha), (split_at_first_separator b rest Hb').
    reflexivity.
Qed.

Lemma parseTestFullName_splits_at_the_first_separator_witness :
  beforeFirstSeparator "TestCalc"
  /\ JS.includes "test_divide" "::" = false
  /\ UtilRest.parseTestFullName (fullName parsedMethod)
     = UtilRest.mkFullName (Some "TestCalc") "test_divide"
  /\ UtilRest.parseTestFullName "A::B::C" = UtilRest.mkFullName (Some "A") "B".
Proof.
  split; [reflexivity|]. split; [reflexivity|]. split.
  - apply (parseTestFullName_splits_at_the_first_separator
             "TestCalc" "test_divide" EmptyString "test_divide"); reflexivity.
  - apply (parseTestFullName_splits_at_the_first_separator "A" "B" "C" "B");
      reflexivity.
Defined.

(* ===================================================================== *)
(** ** The working directory and the virtual environment *)

Section WorkingDirectory.

Variable env : Env.t.

(** The search for the Poetry project root reads the file system only: it
    neither depends on the parser calls made so far nor adds to them. *)
Lemma getPoetryProjectRoot_pure :
  exists o, forall c, Config.getPoetryProjectRoot (Env.config env) c = (o, c).
Proof.
  unfold Config.getPoetryProjectRoot.
  destruct (Config.checkPoetryProject _ (Config.currentWorkspaceFolderPath _)) as [w|].
  - now exists (Returned (Some w)).
  - unfold Util.searchPathToParent, Eff.bind, Eff.orThrow, Eff.ret, Eff.throw.
    destruct (statIsDirectory _ _) as [b|].
    + destruct (negb (JS.startsWith _ _)); eexists; intros c; reflexivity.
    + now exists Thrown.
Qed.

Lemma usesPoetryProject_run (o : Outcome (option Util.fspath)) :
  (forall c, Config.getPoetryProjectRoot (Env.config env) c = (o, c)) ->
  forall c,
    Env.usesPoetryProject env c
    = if Config.usePoetry (Env.config env)
      then match o with
           | Returned (Some _) => (Returned true, c)
           | Returned None => (Returned false, c)
           | Thrown => (Thrown, c)
           end
      else (Returned false, c).
Proof.
  intros Ho c. unfold Env.usesPoetryProject.
  destruct (Config.usePoetry _); [|reflexivity].
  rewrite detectPoetryProject_run, Ho. now destruct o as [[?|]|].
Qed.

Lemma virtualEnvPath_run (o : Outcome (option Util.fspath)) :
  (forall c, Config.getPoetryProjectRoot (Env.config env) c = (o, c)) ->
  forall c,
    Env.virtualEnvPath env c
    = if JS.truthy (customVirtualEnvPath env) then (Returned (customVirtualEnvPath env), c)
      else if Config.usePoetry (Env.config env)
      then match o with
           | Returned (Some root) =>
               (Returned match Env.execSyncIn env (Env.poetryPath env ^^ " env info --path")
                                 (Util.render root) with
                         | Some result => JS.trim result
                         | None => EmptyString
                         end, c)
           | Returned None => (Returned EmptyString, c)
           | Thrown => (Thrown, c)
           end
      else (Returned EmptyString, c).
Proof.
  intros Ho c. unfold Env.virtualEnvPath. fold (customVirtualEnvPath env).
  destruct (JS.truthy (customVirtualEnvPath env)); [reflexivity|].
  unfold Eff.bind. rewrite (usesPoetryProject_run o Ho).
  destruct (Config.usePoetry _); [|reflexivity].
  destruct o as [[root|]|]; try reflexivity.
  unfold Env.getPoetryVirtualEnvPath, Eff.bind. rewrite Ho.
  destruct (Env.execSyncIn env _ _) as [result|]; [|reflexivity].
  unfold Eff.ret. now destruct (JS.trim result).
Qed.

Lemma cwd_run (o : Outcome (option Util.fspath)) :
  (forall c, Config.getPoetryProjectRoot (Env.config env) c = (o, c)) ->
  forall c,
    Env.cwd env c
    = if Config.usePoetry (Env.config env)
      then match o with
           | Returned (Some root) => (Returned (Util.render root), c)
           | Returned None =>
               (Returned (if JS.truthy (customVirtualEnvPath env)
                          then customVirtualEnvPath env
                          else Util.render (Config.currentWorkspaceFolderPath (Env.config env))),
                c)
           | Thrown => (Thrown, c)
           end
      else (Returned (if JS.truthy (customVirtualEnvPath env)
                      then customVirtualEnvPath env
                      else Util.render (Config.currentWorkspaceFolderPath (Env.config env))),
            c).
Proof.
  intros Ho c. unfold Env.cwd, Env.cwdOutsidePoetry, Eff.bind.
  rewrite (usesPoetryProject_run o Ho).
  destruct (Config.usePoetry _) eqn:Hu.
  - destruct o as [[root|]|]; try reflexivity.
    + now rewrite Ho.
    + rewrite (virtualEnvPath_run _ Ho), Hu.
      now destruct (JS.truthy (customVirtualEnvPath env)) eqn:Hc; cbn; rewrite ?Hc.
  - rewrite (virtualEnvPath_run _ Ho), Hu.
    now destruct (JS.truthy (customVirtualEnvPath env)) eqn:Hc; cbn; rewrite ?Hc.
Qed.

End WorkingDirectory.

(** X19. The working directory is the Poetry project root when Poetry use
    is enabled and a root is found; otherwise the custom virtual
    environment path when that is set and not empty; otherwise the
    workspace folder. It throws only when the search for the root throws,
    and whatever the [poetry] subprocess answers is without effect on it:
    the path of the Poetry virtual environment is never the working
    directory. *)
Theorem cwd_is_root_then_custom_path_then_workspace (env : Env.t) (c : Calls) :
  let cfg := Env.config env in
  let fallback :=
    if JS.truthy (customVirtualEnvPath env) then customVirtualEnvPath env
    else Util.render (Config.currentWorkspaceFolderPath cfg) in
  (Config.usePoetry cfg = false -> Env.cwd env c = (Returned fallback, c))
  /\ (Config.usePoetry cfg = true ->
      Env.cwd env c
      = match Config.getPoetryProjectRoot cfg c with
        | (Returned (Some root), c') => (Returned (Util.render root), c')
        | (Returned None, c') => (Returned fallback, c')
        | (Thrown, c') => (Thrown, c')
        end)
  /\ (forall answer, Env.cwd (withPoetryAnswer env answer) c = Env.cwd env c).
Proof.
  cbv zeta. destruct (getPoetryProjectRoot_pure env) as (o & Ho).
  split; [|split].
  - intros Hu. rewrite (cwd_run env o Ho), Hu. reflexivity.
  - intros Hu. rewrite (cwd_run env o Ho), Hu, Ho. now destruct o as [[?|]|].
  - intros answer. rewrite (cwd_run env o Ho).
    rewrite (cwd_run (withPoetryAnswer env answer) o Ho). reflexivity.
Qed.

Lemma cwd_is_root_then_custom_path_then_workspace_witness :
  Config.usePoetry (Env.config poetryEnv) = true
  /\ Env.cwd poetryEnv noCalls = (Returned "/ws", noCalls)
  /\ Env.virtualEnvPath poetryEnv noCalls = (Returned "/venvs/calc", noCalls).
Proof.
  split; [reflexivity|]. split; [|reflexivity].
  rewrite (proj1 (proj2 (cwd_is_root_then_custom_path_then_workspace poetryEnv noCalls))
             eq_refl).
  reflexivity.
Defined.

(** X20. The virtual environment path is the custom path when that is set
    and not empty, without anything being consulted. Otherwise, with
    Poetry use enabled and a project root found, it is the trimmed answer
    of [poetry env info --path] run in the root, and the empty string when
    the subprocess fails; without a root, or with Poetry use disabled, it
    is the empty string. *)
Theorem virtualEnvPath_is_custom_path_or_poetry_answer (env : Env.t) (c : Calls) :
  let cfg := Env.config env in
  (JS.truthy (customVirtualEnvPath env) = true ->
   Env.virtualEnvPath env c = (Returned (customVirtualEnvPath env), c))
  /\ (JS.truthy (customVirtualEnvPath env) = false ->
      Config.usePoetry cfg = false ->
      Env.virtualEnvPath env c = (Returned EmptyString, c))
  /\ (JS.truthy (customVirtualEnvPath env) = false ->
      Config.usePoetry cfg = true ->
      Env.virtualEnvPath env c
      = match Config.getPoetryProjectRoot cfg c with
        | (Returned (Some root), c') =>
            (Returned match Env.execSyncIn env (Env.poetryPath env ^^ " env info --path")
                              (Util.render root) with
                      | Some result => JS.trim result
                      | None => EmptyString
                      end, c')
        | (Returned None, c') => (Returned EmptyString, c')
        | (Thrown, c') => (Thrown, c')
        end).
Proof.
  cbv zeta. destruct (getPoetryProjectRoot_pure env) as (o & Ho).
  split; [|split].
  - intros Hc. now rewrite (virtualEnvPath_run env o Ho), Hc.
  - intros Hc Hu. now rewrite (virtualEnvPath_run env o Ho), Hc, Hu.
  - intros Hc Hu. rewrite (virtualEnvPath_run env o Ho), Hc, Hu, Ho.
    now destruct o as [[?|]|].
Qed.

Lemma virtualEnvPath_is_custom_path_or_poetry_answer_witness :
  JS.truthy (customVirtualEnvPath poetryEnv) = false
  /\ Config.usePoetry (Env.config poetryEnv) = true
  /\ Env.virtualEnvPath poetryEnv noCalls = (Returned "/venvs/calc", noCalls).
Proof.
  split; [reflexivity|]. split; [reflexivity|].
  rewrite (proj2 (proj2 (virtualEnvPath_is_custom_path_or_poetry_answer poetryEnv noCalls))
             eq_refl eq_refl).
  reflexivity.
Defined.

(* ===================================================================== *)
(** ** The runner *)

Section PrivateMethods.

Variable env : Env.t.

Lemma world_eta (w : Session.World) :
  w = Session.mkWorld
        (Session.mkRunner (Session.previousCommand (Session.runner w))
                          (Session.terminal (Session.runner w))
                          (Session.openNativeTerminal (Session.runner w))
                          (Session.commands (Session.runner w)))
        (Session.mkWindow (Session.created (Session.window w))
                          (Session.events (Session.window w)))
        (Session.calls w).
Proof. now destruct w as [[] [] ?]. Qed.

Lemma runTerminalCommand_quiet (command : string) (w : Session.World) :
  Session.openNativeTerminal (Session.runner w) = false ->
  Session.runTerminalCommand env command w = (Returned tt, afterSending env command w).
Proof.
  destruct w as [[p [t|] o cmds] [n evs] c]; cbn; intros ->; reflexivity.
Qed.

Lemma runExternalNativeTerminalCommand_quiet (l : list string) (w : Session.World) :
  Quiet (Session.runner w) ->
  Session.runExternalNativeTerminalCommand env l w = (Returned tt, w).
Proof.
  destruct w as [[p t o cmds] [n evs] c]; unfold Quiet; cbn. intros [-> ->]. reflexivity.
Qed.

Lemma lift_run {A} (m : Eff.M A) (w : Session.World) :
  Session.lift m w
  = (fst (m (Session.calls w)), withCalls (snd (m (Session.calls w))) w).
Proof. unfold Session.lift. now destruct (m (Session.calls w)). Qed.

Lemma goToCwd_quiet (w : Session.World) :
  Session.openNativeTerminal (Session.runner w) = false ->
  Session.goToCwd env w
  = match Env.cwd env (Session.calls w) with
    | (Returned dir, c) => (Returned tt, afterCd env dir (withCalls c w))
    | (Thrown, c) => (Thrown, withCalls c w)
    end.
Proof.
  intros Ho. unfold Session.goToCwd, Session.bind. rewrite lift_run.
  destruct (Env.cwd env (Session.calls w)) as [[dir|] c]; cbn [fst snd]; [|reflexivity].
  unfold afterCd. fold (cdCommand env dir).
  destruct (Env.changeDirectoryToWorkspaceRoot env); [|reflexivity].
  now apply runTerminalCommand_quiet.
Qed.

Lemma executeDebugCommand_quiet (d : Session.DebugCommand) (w : Session.World) :
  Quiet (Session.runner w) ->
  Session.executeDebugCommand env d w
  = (Returned tt,
     remembering (Session.Debugging d)
       (logged (Session.DebuggingStarted (Session.debugConfig d)) w)).
Proof.
  destruct w as [[p t o cmds] [n evs] c]; unfold Quiet; cbn. intros [-> ->]. reflexivity.
Qed.

End PrivateMethods.

(** *** Computations that only read *)

Section Reading.

Variable env : Env.t.

Lemma pure_ret {A} (a : A) : Pure (Eff.ret a).
Proof. now exists (Returned a). Qed.

Lemma pure_orThrow {A} (o : option A) : Pure (Eff.orThrow o).
Proof. destruct o as [a|]; [now exists (Returned a) | now exists Thrown]. Qed.

Lemma pure_bind {A B} (m : Eff.M A) (k : A -> Eff.M B) :
  Pure m -> (forall a, Pure (k a)) -> Pure (Eff.bind m k).
Proof.
  intros [[a|] Hm] Hk.
  - destruct (Hk a) as [o Ho]. exists o. intros c. unfold Eff.bind. now rewrite Hm.
  - exists Thrown. intros c. unfold Eff.bind. now rewrite Hm.
Qed.

Lemma pure_cwd : Pure (Env.cwd env).
Proof.
  destruct (getPoetryProjectRoot_pure env) as (o & Ho).
  destruct (Config.usePoetry (Env.config env)) eqn:Hu; [destruct o as [[root|]|] eqn:Eo|];
    eexists; intros c; rewrite (cwd_run env _ Ho), Hu; reflexivity.
Qed.

Lemma pure_virtualEnvPath : Pure (Env.virtualEnvPath env).
Proof.
  destruct (getPoetryProjectRoot_pure env) as (o & Ho).
  destruct (JS.truthy (customVirtualEnvPath env)) eqn:Hc;
    [|destruct (Config.usePoetry (Env.config env)) eqn:Hu; [destruct o as [[root|]|] eqn:Eo|]];
    eexists; intros c; rewrite (virtualEnvPath_run env _ Ho), Hc, ?Hu; reflexivity.
Qed.

Lemma pure_venvPython : Pure (Env.venvPython env).
Proof.
  unfold Env.venvPython. apply pure_bind; [apply pure_virtualEnvPath|].
  intros venvPath. destruct (JS.truthy venvPath); [|apply pure_ret].
  cbv zeta. destruct (existsSync _ _); apply pure_ret.
Qed.

Lemma pure_debugOptions : Pure (Env.debugOptions env).
Proof.
  unfold Env.debugOptions. destruct (Env.setting_debugOptions env); [apply pure_ret|].
  apply pure_bind; [|intros; apply pure_ret].
  unfold Env.getPythonPath. apply pure_bind; [apply pure_venvPython|].
  intros [p|]; apply pure_ret.
Qed.

Lemma pure_pytestCommand : Pure (Config.pytestCommand (Env.config env)).
Proof.
  destruct (getPoetryProjectRoot_pure env) as (o & Ho).
  unfold Config.pytestCommand.
  destruct (Config.usePoetry (Env.config env)).
  - destruct o as [[root|]|]; eexists; intros c; unfold Eff.bind;
      rewrite detectPoetryProject_run, Ho; reflexivity.
  - eexists. intros c. reflexivity.
Qed.

Lemma pure_searchPathToParent {T} (start ancestor : Util.fspath)
  (callback : Util.fspath -> option T) :
  Pure (Util.searchPathToParent (Config.host (Env.config env)) start ancestor callback).
Proof.
  unfold Util.searchPathToParent.
  apply pure_bind; [apply pure_orThrow|]. intros isDirectory. cbv zeta.
  destruct (negb (JS.startsWith _ _)); apply pure_ret.
Qed.

Lemma pure_findPytestConfigPath (targetPath : option Util.fspath) :
  Pure (ConfigRest.findPytestConfigPath (Env.config env) targetPath).
Proof.
  unfold ConfigRest.findPytestConfigPath. cbv zeta.
  apply pure_bind; [apply pure_searchPathToParent|intros; apply pure_ret].
Qed.

Lemma pure_firstMatch (win32 : bool) (globMatches : string -> string -> option bool)
  (targetPath : string) (entries : list (string * string)) :
  Pure (Env.firstMatch win32 globMatches targetPath entries).
Proof.
  induction entries as [|[key value] rest IH]; cbn [Env.firstMatch]; [apply pure_ret|].
  apply pure_bind; [apply pure_orThrow|]. intros plain.
  apply pure_bind.
  - destruct plain; [apply pure_ret|apply pure_orThrow].
  - intros [|]; [apply pure_ret|exact IH].
Qed.

(** *** Computations that change the world by a warning at most *)

Lemma withCalls_same (w : Session.World) : withCalls (Session.calls w) w = w.
Proof. now destruct w. Qed.

Lemma steady_ret {A} (a : A) : Steady (Session.ret a).
Proof. now exists (Returned a). Qed.

Lemma steady_lift {A} (m : Eff.M A) : Pure m -> Steady (Session.lift m).
Proof.
  intros [o Ho]. exists o. intros w. rewrite lift_run, Ho. cbn [fst snd].
  now rewrite withCalls_same.
Qed.

Lemma steady_bind {A B} (m : Session.M A) (k : A -> Session.M B) :
  Steady m -> (forall a, Steady (k a)) -> Steady (Session.bind m k).
Proof.
  intros [[a|] Hm] Hk.
  - destruct (Hk a) as [o Ho]. exists o. intros w. unfold Session.bind. now rewrite Hm.
  - exists Thrown. intros w. unfold Session.bind. now rewrite Hm.
Qed.

Lemma advisory_steady {A} (m : Session.M A) : Steady m -> Advisory m.
Proof. intros [o Ho]. now exists o, false. Qed.

Lemma advisory_after_steady {A B} (m : Session.M A) (k : A -> Session.M B) :
  Steady m -> (forall a, Advisory (k a)) -> Advisory (Session.bind m k).
Proof.
  intros [[a|] Hm] Hk.
  - destruct (Hk a) as (o & warned & Ho). exists o, warned. intros w.
    unfold Session.bind. now rewrite Hm.
  - exists Thrown, false. intros w. unfold Session.bind. now rewrite Hm.
Qed.

Lemma advisory_then_steady {A B} (m : Session.M A) (k : A -> Session.M B) :
  Advisory m -> (forall a, Steady (k a)) -> Advisory (Session.bind m k).
Proof.
  intros ([a|] & warned & Hm) Hk.
  - destruct (Hk a) as (o & Ho). exists o, warned. intros w.
    unfold Session.bind. now rewrite Hm, Ho.
  - exists Thrown, warned. intros w. unfold Session.bind. now rewrite Hm.
Qed.

Lemma advisory_resolveConfigPathOrMapping (setting : Env.ConfigPathSetting)
  (targetPath : string) :
  Advisory (Session.resolveConfigPathOrMapping env setting targetPath).
Proof.
  destruct setting as [|configPath|entries]; cbn [Session.resolveConfigPathOrMapping];
    try (apply advisory_steady, steady_ret).
  apply advisory_after_steady; [apply steady_lift, pure_firstMatch|].
  intros [value|]; [apply advisory_steady, steady_ret|].
  exists (Returned None), (0 <? Z.of_nat (List.length entries)). intros w.
  unfold Session.bind, warns. now destruct (0 <? Z.of_nat (List.length entries)).
Qed.

Lemma advisory_getPytestConfigPath (targetPath : string) :
  Advisory (Session.getPytestConfigPath env targetPath).
Proof.
  unfold Session.getPytestConfigPath. cbv zeta.
  apply advisory_then_steady; [apply advisory_resolveConfigPathOrMapping|].
  intros [configPath|]; [destruct (JS.truthy configPath)|];
    first [apply steady_ret | apply steady_lift, pure_findPytestConfigPath].
Qed.

Lemma advisory_buildPytestArgs (filePath : string) (testName : option string)
  (withQuotes : bool) (options : option (list string)) :
  Advisory (Session.buildPytestArgs env filePath testName withQuotes options).
Proof.
  unfold Session.buildPytestArgs.
  apply advisory_then_steady; [apply advisory_getPytestConfigPath|].
  intros p. apply steady_ret.
Qed.

Lemma advisory_buildPytestCommand (filePath : string) (testName : option string)
  (options : option (list string)) :
  Advisory (Session.buildPytestCommand env filePath testName options).
Proof.
  unfold Session.buildPytestCommand.
  apply advisory_then_steady; [apply advisory_buildPytestArgs|].
  intros args. apply steady_bind; [apply steady_lift, pure_pytestCommand|].
  intros command. apply steady_ret.
Qed.

Lemma advisory_getDebugConfig (filePath : string) (name : option string) :
  Advisory (Session.getDebugConfig env filePath name).
Proof.
  unfold Session.getDebugConfig.
  apply advisory_after_steady; [apply steady_lift, pure_cwd|intros dir].
  apply advisory_after_steady; [apply steady_lift, pure_debugOptions|intros debugOptions].
  cbv zeta.
  apply advisory_then_steady; [apply advisory_buildPytestArgs|intros standardArgs].
  apply steady_bind; [apply steady_lift, pure_venvPython|intros python].
  apply steady_ret.
Qed.

Lemma warns_facts (warned : bool) (w : Session.World) :
  Session.runner (warns warned w) = Session.runner w
  /\ Session.calls (warns warned w) = Session.calls w
  /\ sentTexts (Session.events (Session.window (warns warned w)))
     = sentTexts (Session.events (Session.window w)).
Proof.
  destruct warned; cbn; [|repeat split; reflexivity].
  unfold sentTexts. rewrite flat_map_app. cbn. rewrite app_nil_r.
  repeat split; reflexivity.
Qed.

End Reading.

(** *** What every call preserves *)

Section Invariants.

(** A property of the world that holds only when nothing is queued, and
    that the steps of the runner preserve one by one. *)
Variable P : Session.World -> Prop.
Hypothesis P_quiet : forall w, P w -> Quiet (Session.runner w).
Hypothesis P_calls : forall w c, P w -> P (withCalls c w).
Hypothesis P_remembering : forall w p, P w -> P (remembering p w).
Hypothesis P_sending : forall env text w, P w -> P (afterSending env text w).
Hypothesis P_saved : forall fileName w, P w -> P (logged (Session.DocumentSaved fileName) w).
Hypothesis P_warned : forall message w, P w -> P (logged (Session.WarningShown message) w).
Hypothesis P_debugging :
  forall config w, P w -> P (logged (Session.DebuggingStarted config) w).

Lemma keeps_ret {A} (a : A) : Keeps P (Session.ret a).
Proof. intros w Hw. exact Hw. Qed.

Lemma keeps_bind {A B} (m : Session.M A) (k : A -> Session.M B) :
  Keeps P m -> (forall a, Keeps P (k a)) -> Keeps P (Session.bind m k).
Proof.
  intros Hm Hk w Hw. unfold Session.bind. specialize (Hm w Hw).
  destruct (m w) as [[a|] w']; [apply Hk|]; exact Hm.
Qed.

Lemma keeps_lift {A} (m : Eff.M A) : Keeps P (Session.lift m).
Proof. intros w Hw. rewrite lift_run. now apply P_calls. Qed.

Lemma keeps_advisory {A} (m : Session.M A) : Advisory m -> Keeps P m.
Proof.
  intros (o & warned & Hm) w Hw. rewrite Hm. cbn [snd]. unfold warns.
  destruct warned; [now apply P_warned|exact Hw].
Qed.

Lemma keeps_getRunner : Keeps P Session.getRunner.
Proof. intros w Hw. exact Hw. Qed.

Lemma keeps_emit_saved (fileName : string) :
  Keeps P (Session.emit (Session.DocumentSaved fileName)).
Proof. intros w Hw. now apply P_saved. Qed.

Lemma keeps_emit_warned (message : string) :
  Keeps P (Session.emit (Session.WarningShown message)).
Proof. intros w Hw. now apply P_warned. Qed.

Lemma keeps_setPreviousCommand (p : Session.PreviousCommand) :
  Keeps P (Session.setPreviousCommand p).
Proof. intros w Hw. now apply P_remembering. Qed.

Lemma keeps_runTerminalCommand (env : Env.t) (command : string) :
  Keeps P (Session.runTerminalCommand env command).
Proof.
  intros w Hw. rewrite runTerminalCommand_quiet by apply (P_quiet w Hw).
  now apply P_sending.
Qed.

Lemma keeps_goToCwd (env : Env.t) : Keeps P (Session.goToCwd env).
Proof.
  intros w Hw. rewrite goToCwd_quiet by apply (P_quiet w Hw).
  destruct (Env.cwd env (Session.calls w)) as [[dir|] c]; cbn [snd]; [|now apply P_calls].
  unfold afterCd. destruct (Env.changeDirectoryToWorkspaceRoot env).
  - now apply P_sending, P_calls.
  - now apply P_calls.
Qed.

Lemma keeps_runExternalNativeTerminalCommand (env : Env.t) (l : list string) :
  Keeps P (Session.runExternalNativeTerminalCommand env l).
Proof.
  intros w Hw. now rewrite runExternalNativeTerminalCommand_quiet by apply (P_quiet w Hw).
Qed.

Lemma keeps_executeDebugCommand (env : Env.t) (d : Session.DebugCommand) :
  Keeps P (Session.executeDebugCommand env d).
Proof.
  intros w Hw. rewrite executeDebugCommand_quiet by apply (P_quiet w Hw).
  now apply P_remembering, P_debugging.
Qed.

Ltac keep :=
  lazymatch goal with
  | |- Keeps _ (Session.bind _ _) => apply keeps_bind; [|intros ?]
  | |- Keeps _ (Session.lift _) => apply keeps_lift
  | |- Keeps _ (Session.buildPytestCommand _ _ _ _) =>
      apply keeps_advisory, advisory_buildPytestCommand
  | |- Keeps _ (Session.getDebugConfig _ _ _) =>
      apply keeps_advisory, advisory_getDebugConfig
  | |- Keeps _ (Session.ret _) => apply keeps_ret
  | |- Keeps _ Session.getRunner => apply keeps_getRunner
  | |- Keeps _ (Session.setPreviousCommand _) => apply keeps_setPreviousCommand
  | |- Keeps _ (Session.goToCwd _) => apply keeps_goToCwd
  | |- Keeps _ (Session.runTerminalCommand _ _) => apply keeps_runTerminalCommand
  | |- Keeps _ (Session.runExternalNativeTerminalCommand _ _) =>
      apply keeps_runExternalNativeTerminalCommand
  | |- Keeps _ (Session.executeDebugCommand _ _) => apply keeps_executeDebugCommand
  | |- Keeps _ (Session.emit (Session.DocumentSaved _)) => apply keeps_emit_saved
  | |- Keeps _ (Session.emit (Session.WarningShown _)) => apply keeps_emit_warned
  end.

(** The six public methods preserve the property, whether they settle or
    reject. *)
Lemma keeps_methods (env : Env.t) (call : Call) :
  (forall t, call <> TerminalCloses t) -> Keeps P (perform env call).
Proof.
  intros Hcall.
  destruct call as [path|argument options collect|options| |path|name|t]; cbn [perform].
  - unfold Session.runTestsOnPath.
    repeat keep.
  - unfold Session.runCurrentTest.
    destruct (Env.activeTextEditor env) as [editor|]; [|apply keeps_ret].
    apply keeps_bind; [apply keeps_emit_saved|intros _].
    destruct (negb _); [apply keeps_emit_warned|].
    repeat keep.
  - unfold Session.runCurrentFile.
    destruct (Env.activeTextEditor env) as [editor|]; [|apply keeps_ret].
    apply keeps_bind; [apply keeps_emit_saved|intros _].
    destruct (negb _); [apply keeps_emit_warned|].
    repeat keep.
  - unfold Session.runPreviousTest.
    destruct (Env.activeTextEditor env) as [editor|]; [|apply keeps_ret].
    apply keeps_bind; [apply keeps_emit_saved|intros _].
    apply keeps_bind; [apply keeps_getRunner|intros r].
    apply keeps_bind; [|intros _; repeat keep].
    destruct (Session.previousCommand r) as [|command|d]; repeat keep.
  - unfold Session.debugTestsOnPath.
    repeat keep.
  - unfold Session.debugCurrentTest.
    destruct (Env.activeTextEditor env) as [editor|]; [|apply keeps_ret].
    apply keeps_bind; [apply keeps_emit_saved|intros _].
    destruct (negb _); [apply keeps_emit_warned|].
    repeat keep.
  - now elim (Hcall t).
Qed.

End Invariants.

(** *** Nothing is queued for an external terminal *)

Lemma quiet_afterSending (env : Env.t) (text : string) (w : Session.World) :
  Quiet (Session.runner w) -> Quiet (Session.runner (afterSending env text w)).
Proof. destruct w as [[p [t|] o cmds] [n evs] c]; exact (fun H => H). Qed.

Lemma quiet_closing (t : Session.Terminal) (w : Session.World) :
  Quiet (Session.runner w) ->
  Quiet (Session.runner (snd (Session.onDidCloseTerminal t (logged (Session.TerminalClosed t) w)))).
Proof.
  destruct w as [[p [t0|] o cmds] [n evs] c]; cbn; [|exact (fun H => H)].
  destruct (Session.terminalEqb t0 t); exact (fun H => H).
Qed.

Lemma reachable_quiet (w : Session.World) : Reachable w -> Quiet (Session.runner w).
Proof.
  induction 1 as [|w env call Hw IH Hpossible]; [now split|].
  destruct call as [path|argument options collect|options| |path|name|t];
    try (apply (keeps_methods (fun w => Quiet (Session.runner w)));
         [ exact (fun _ H => H) | exact (fun _ _ H => H) | exact (fun _ _ H => H)
         | apply quiet_afterSending | exact (fun _ _ H => H) | exact (fun _ _ H => H)
         | exact (fun _ _ H => H) | discriminate | exact IH ]).
  now apply quiet_closing.
Qed.

(** X21. From a new runner, whatever is called in whatever environment,
    nothing is ever queued for an external terminal: the flag
    [openNativeTerminal] stays off and the queue stays empty, so
    [runExternalNativeTerminalCommand] changes nothing and builds no
    [ttab] command, and every command goes to the integrated terminal at
    once. *)
Theorem external_terminal_is_never_used (w : Session.World) :
  Reachable w ->
  Session.openNativeTerminal (Session.runner w) = false
  /\ Session.commands (Session.runner w) = []
  /\ (forall env queued,
        Session.runExternalNativeTerminalCommand env queued w = (Returned tt, w))
  /\ (forall env command,
        Session.runTerminalCommand env command w
        = (Returned tt, afterSending env command w)).
Proof.
  intros Hw. pose proof (reachable_quiet w Hw) as Hq. destruct (Hq) as [Ho Hc].
  repeat split; try assumption.
  - intros env queued. now apply runExternalNativeTerminalCommand_quiet.
  - intros env command. now apply runTerminalCommand_quiet.
Qed.

Lemma external_terminal_is_never_used_witness :
  Reachable rerunWorld
  /\ Session.openNativeTerminal (Session.runner rerunWorld) = false
  /\ Session.commands (Session.runner rerunWorld) = [].
Proof.
  assert (H : Reachable rerunWorld).
  { unfold rerunWorld.
    apply reachable_step; [|exact I].
    apply reachable_step; [|vm_compute; lia].
    apply reachable_step; [|exact I].
    apply reachable_initial. }
  split; [exact H|].
  destruct (external_terminal_is_never_used rerunWorld H) as (Ho & Hc & _).
  split; assumption.
Defined.

(** *** Terminals *)

Section Terminals.

Lemma terminalEqb_spec (a b : Session.Terminal) :
  reflect (a = b) (Session.terminalEqb a b).
Proof.
  destruct a as [n|n], b as [m|m]; cbn; try (constructor; discriminate);
    destruct (Nat.eqb_spec n m) as [->|Hne]; constructor; congruence.
Qed.

Lemma live_snoc (evs : list Session.Event) (e : Session.Event) (t : Session.Terminal) :
  Live evs t -> e <> Session.TerminalClosed t -> Live (evs ++ [e]) t.
Proof.
  intros [Hc Hn] He. split.
  - apply in_or_app. now left.
  - intros Hin. apply in_app_or in Hin as [Hin|[Hin|[]]]; [now apply Hn|].
    now apply He.
Qed.

Lemma orderly_nil : Orderly [].
Proof. intros [|e before] e' after H; discriminate. Qed.

Lemma orderly_snoc (evs : list Session.Event) (e : Session.Event) :
  Orderly evs -> allowed evs e -> Orderly (evs ++ [e]).
Proof.
  intros Hevs He before e' after Heq.
  destruct after as [|a after] using rev_ind.
  - apply app_inj_tail in Heq as [-> ->]. exact He.
  - clear IHafter. rewrite app_comm_cons, app_assoc in Heq.
    apply app_inj_tail in Heq as [-> _]. now apply (Hevs before e' after).
Qed.

(** An event that neither creates nor closes a terminal. *)
Lemma wellKept_logged (e : Session.Event) (w : Session.World) :
  WellKept w ->
  allowed (Session.events (Session.window w)) e ->
  (forall t, e <> Session.TerminalClosed t) ->
  (forall t name, e <> Session.TerminalCreated t name) ->
  WellKept (logged e w).
Proof.
  intros (Hq & Hlive & Hclosed & Hcreated & Hord) He Hnc Hncr.
  unfold WellKept. cbn [logged Session.runner Session.window Session.events Session.created].
  split; [exact Hq|]. split; [|split; [|split]].
  - intros t Ht. apply live_snoc; [now apply Hlive|apply Hnc].
  - intros n Hin. apply in_app_or in Hin as [Hin|[Hin|[]]]; [now apply Hclosed|].
    now elim (Hnc (Session.Own n)).
  - intros t name Hin. apply in_app_or in Hin as [Hin|[Hin|[]]].
    + destruct (Hcreated t name Hin) as [Ht|Ht]; [now left|right].
      apply in_or_app. now left.
    + now elim (Hncr t name).
  - now apply orderly_snoc.
Qed.

Lemma wellKept_withTerminal (w : Session.World) :
  WellKept w ->
  WellKept (withTerminal w)
  /\ Session.terminal (Session.runner (withTerminal w)) = Some (terminalOf w).
Proof.
  intros HW. unfold withTerminal, terminalOf.
  destruct (Session.terminal (Session.runner w)) as [t|] eqn:Ht; [now split|].
  split; [|reflexivity].
  destruct HW as (Hq & Hlive & Hclosed & Hcreated & Hord).
  unfold WellKept. cbn [Session.runner Session.window Session.events Session.created
                        Session.terminal].
  split; [exact Hq|]. split; [|split; [|split]].
  - intros t [= <-]. split.
    + apply in_or_app. right. now left.
    + intros Hin. apply in_app_or in Hin as [Hin|[Hin|[]]]; [|discriminate].
      apply Hclosed in Hin. lia.
  - intros n Hin. apply in_app_or in Hin as [Hin|[Hin|[]]]; [|discriminate].
    apply Hclosed in Hin. lia.
  - intros t name Hin. apply in_app_or in Hin as [Hin|[Hin|[]]].
    + destruct (Hcreated t name Hin) as [Hsome|Hin']; [congruence|].
      right. apply in_or_app. now left.
    + injection Hin as <- _. now left.
  - apply orderly_snoc; [exact Hord|].
    intros t' name Hin. destruct (Hcreated t' name Hin) as [Hsome|Hin']; [congruence|].
    exact Hin'.
Qed.

Lemma wellKept_afterSending (env : Env.t) (text : string) (w : Session.World) :
  WellKept w -> WellKept (afterSending env text w).
Proof.
  intros HW. destruct (wellKept_withTerminal w HW) as [HW1 Ht].
  unfold afterSending. cbv zeta.
  assert (HW2 : WellKept (logged (Session.TerminalShown (terminalOf w)
                                    (Env.preserveEditorFocus env)) (withTerminal w))).
  { apply wellKept_logged; [exact HW1| |discriminate|discriminate].
    now apply HW1. }
  assert (HW3 : WellKept (logged Session.TerminalCleared
                            (logged (Session.TerminalShown (terminalOf w)
                                       (Env.preserveEditorFocus env)) (withTerminal w)))).
  { apply wellKept_logged; [exact HW2|exact I|discriminate|discriminate]. }
  apply wellKept_logged; [exact HW3| |discriminate|discriminate].
  now apply HW3.
Qed.

Lemma wellKept_closing (t : Session.Terminal) (w : Session.World) :
  WellKept w ->
  possible w (TerminalCloses t) ->
  WellKept (snd (Session.onDidCloseTerminal t (logged (Session.TerminalClosed t) w))).
Proof.
  intros (Hq & Hlive & Hclosed & Hcreated & Hord) Hpossible.
  assert (Hclosed' : forall n,
             In (Session.TerminalClosed (Session.Own n))
                (Session.events (Session.window w) ++ [Session.TerminalClosed t]) ->
             (n < Session.created (Session.window w))%nat).
  { intros n Hin. apply in_app_or in Hin as [Hin|[Hin|[]]]; [now apply Hclosed|].
    injection Hin as ->. exact Hpossible. }
  assert (Hord' : Orderly (Session.events (Session.window w) ++ [Session.TerminalClosed t]))
    by (apply orderly_snoc; [exact Hord|exact I]).
  destruct w as [[p [t0|] o cmds] [n evs] c]; cbn in *.
  - destruct (terminalEqb_spec t0 t) as [->|Hne]; cbn.
    + split; [exact Hq|]. split; [discriminate|]. split; [exact Hclosed'|].
      split; [|exact Hord'].
      intros t' name Hin. right. apply in_app_or in Hin as [Hin|[Hin|[]]]; [|discriminate].
      destruct (Hcreated t' name Hin) as [[= ->]|Hin'].
      * apply in_or_app. right. now left.
      * apply in_or_app. now left.
    + split; [exact Hq|]. split; [|split; [exact Hclosed'|split; [|exact Hord']]].
      * intros t' [= <-]. apply live_snoc; [now apply Hlive|congruence].
      * intros t' name Hin. apply in_app_or in Hin as [Hin|[Hin|[]]]; [|discriminate].
        destruct (Hcreated t' name Hin) as [Hs|Hin']; [now left|right].
        apply in_or_app. now left.
  - split; [exact Hq|]. split; [discriminate|]. split; [exact Hclosed'|].
    split; [|exact Hord'].
    intros t' name Hin. apply in_app_or in Hin as [Hin|[Hin|[]]]; [|discriminate].
    destruct (Hcreated t' name Hin) as [Hs|Hin']; [discriminate|right].
    apply in_or_app. now left.
Qed.

Lemma reachable_wellKept (w : Session.World) : Reachable w -> WellKept w.
Proof.
  induction 1 as [|w env call Hw IH Hpossible].
  - split; [now split|]. split; [discriminate|]. split; [intros n []|].
    split; [intros t name []|apply orderly_nil].
  - destruct call as [path|argument options collect|options| |path|name|t];
      try (apply (keeps_methods WellKept);
           [ exact (fun w H => proj1 H) | exact (fun _ _ H => H) | exact (fun _ _ H => H)
           | apply wellKept_afterSending
           | intros; apply wellKept_logged; [assumption|exact I|discriminate|discriminate]
           | intros; apply wellKept_logged; [assumption|exact I|discriminate|discriminate]
           | intros; apply wellKept_logged; [assumption|exact I|discriminate|discriminate]
           | discriminate | exact IH ]).
    now apply wellKept_closing.
Qed.

End Terminals.

(** X22. The runner writes to open terminals only, and keeps one terminal:
    in the events of any reachable world, a text is sent to, and the
    terminal shown is, a terminal that the runner created under the name
    [pytest] and that had not been closed by then; and when the runner
    creates a terminal, every terminal it created before has been closed. *)
Theorem text_goes_to_the_open_terminal (w : Session.World) :
  Reachable w ->
  forall before e after,
    Session.events (Session.window w) = before ++ e :: after ->
    match e with
    | Session.TextSent t _ | Session.TerminalShown t _ =>
        In (Session.TerminalCreated t "pytest") before
        /\ ~ In (Session.TerminalClosed t) before
    | Session.TerminalCreated _ _ =>
        forall t' name, In (Session.TerminalCreated t' name) before ->
                        In (Session.TerminalClosed t') before
    | _ => True
    end.
Proof.
  intros Hw before e after Hevs.
  destruct (reachable_wellKept w Hw) as (_ & _ & _ & _ & Hord).
  specialize (Hord before e after Hevs). now destruct e.
Qed.

Lemma text_goes_to_the_open_terminal_witness :
  Reachable rerunWorld
  /\ Session.events (Session.window rerunWorld)
     = firstn 10 (Session.events (Session.window rerunWorld))
       ++ Session.TerminalCreated (Session.Own 1) "pytest"
       :: skipn 11 (Session.events (Session.window rerunWorld))
  /\ forall t' name,
       In (Session.TerminalCreated t' name)
          (firstn 10 (Session.events (Session.window rerunWorld))) ->
       In (Session.TerminalClosed t')
          (firstn 10 (Session.events (Session.window rerunWorld))).
Proof.
  assert (H : Reachable rerunWorld).
  { unfold rerunWorld.
    apply reachable_step; [|exact I].
    apply reachable_step; [|vm_compute; lia].
    apply reachable_step; [|exact I].
    apply reachable_initial. }
  assert (Hevents : Session.events (Session.window rerunWorld)
                    = firstn 10 (Session.events (Session.window rerunWorld))
                      ++ Session.TerminalCreated (Session.Own 1) "pytest"
                      :: skipn 11 (Session.events (Session.window rerunWorld)))
    by (vm_compute; reflexivity).
  split; [exact H|]. split; [exact Hevents|].
  exact (text_goes_to_the_open_terminal rerunWorld H
           (firstn 10 (Session.events (Session.window rerunWorld)))
           (Session.TerminalCreated (Session.Own 1) "pytest")
           (skipn 11 (Session.events (Session.window rerunWorld))) Hevents).
Defined.

(** *** Running *)

Section Running.

Variable env : Env.t.

Lemma sentTexts_app (a b : list Session.Event) :
  sentTexts (a ++ b) = sentTexts a ++ sentTexts b.
Proof. apply flat_map_app. Qed.

Lemma afterSending_facts (text : string) (w : Session.World) :
  sentTexts (Session.events (Session.window (afterSending env text w)))
  = sentTexts (Session.events (Session.window w)) ++ [text]
  /\ Session.previousCommand (Session.runner (afterSending env text w))
     = Session.previousCommand (Session.runner w)
  /\ Session.calls (afterSending env text w) = Session.calls w
  /\ Quiet (Session.runner (afterSending env text w)) = Quiet (Session.runner w).
Proof.
  destruct w as [[p [t|] o cmds] [n evs] c]; cbn;
    rewrite ?sentTexts_app; cbn; rewrite ?app_nil_r; repeat split; reflexivity.
Qed.

Lemma afterCd_facts (dir : string) (w : Session.World) :
  sentTexts (Session.events (Session.window (afterCd env dir w)))
  = sentTexts (Session.events (Session.window w))
    ++ (if Env.changeDirectoryToWorkspaceRoot env then [cdCommand env dir] else [])
  /\ Session.previousCommand (Session.runner (afterCd env dir w))
     = Session.previousCommand (Session.runner w)
  /\ Session.calls (afterCd env dir w) = Session.calls w
  /\ Quiet (Session.runner (afterCd env dir w)) = Quiet (Session.runner w).
Proof.
  unfold afterCd. destruct (Env.changeDirectoryToWorkspaceRoot env).
  - apply afterSending_facts.
  - rewrite app_nil_r. repeat split; reflexivity.
Qed.

(** The common end of the run methods. *)
Lemma launch_quiet (command : string) (w : Session.World) :
  Quiet (Session.runner w) ->
  Session.bind (Session.setPreviousCommand (Session.TerminalCommand command))
    (fun _ =>
       Session.bind (Session.goToCwd env)
         (fun _ =>
            Session.bind (Session.runTerminalCommand env command)
              (fun _ =>
                 Session.bind Session.getRunner
                   (fun r => Session.runExternalNativeTerminalCommand env
                               (Session.commands r))))) w
  = match Env.cwd env (Session.calls w) with
    | (Returned dir, c) =>
        (Returned tt,
         afterSending env command
           (afterCd env dir
              (withCalls c (remembering (Session.TerminalCommand command) w))))
    | (Thrown, c) =>
        (Thrown, withCalls c (remembering (Session.TerminalCommand command) w))
    end.
Proof.
  intros Hq. unfold Session.bind at 1.
  change (Session.setPreviousCommand (Session.TerminalCommand command) w)
    with (Returned tt, remembering (Session.TerminalCommand command) w).
  cbv iota beta. unfold Session.bind at 1.
  rewrite goToCwd_quiet by apply Hq.
  change (Session.calls (remembering (Session.TerminalCommand command) w))
    with (Session.calls w).
  destruct (Env.cwd env (Session.calls w)) as [[dir|] c]; [|reflexivity].
  set (w1 := afterCd env dir (withCalls c (remembering (Session.TerminalCommand command) w))).
  assert (Hq1 : Quiet (Session.runner w1)).
  { unfold w1. now rewrite (proj2 (proj2 (proj2 (afterCd_facts dir _)))). }
  unfold Session.bind at 1. rewrite runTerminalCommand_quiet by apply Hq1.
  unfold Session.bind, Session.getRunner.
  apply runExternalNativeTerminalCommand_quiet.
  now rewrite (proj2 (proj2 (proj2 (afterSending_facts command w1)))).
Qed.

(** Whenever the command of pytest can be determined, so can the working
    directory: both throw only when the search for the Poetry project
    root does. *)
Lemma cwd_returns_when_command_built (c c' : Calls) (command : string) :
  Config.pytestCommand (Env.config env) c = (Returned command, c') ->
  exists dir, forall c, Env.cwd env c = (Returned dir, c).
Proof.
  destruct (getPoetryProjectRoot_pure env) as (o & Ho).
  unfold Config.pytestCommand, Eff.bind.
  destruct (Config.usePoetry (Env.config env)) eqn:Hu.
  - rewrite detectPoetryProject_run, Ho. destruct o as [[root|]|]; [| |discriminate];
      intros _; eexists; intros c0; rewrite (cwd_run env _ Ho), Hu; reflexivity.
  - intros _. eexists. intros c0. rewrite (cwd_run env o Ho), Hu. reflexivity.
Qed.

Lemma buildPytestCommand_returns (filePath : string) (testName : option string)
  (options : option (list string)) (w w1 : Session.World) (command : string) :
  Session.buildPytestCommand env filePath testName options w = (Returned command, w1) ->
  exists dir, forall c, Env.cwd env c = (Returned dir, c).
Proof.
  unfold Session.buildPytestCommand, Session.bind.
  destruct (Session.buildPytestArgs env filePath testName true options w)
    as [[args|] w']; [|discriminate].
  rewrite lift_run.
  destruct (Config.pytestCommand (Env.config env) (Session.calls w'))
    as [[pytest|] c'] eqn:Hc; cbn [fst snd]; [|discriminate].
  intros _. exact (cwd_returns_when_command_built _ _ _ Hc).
Qed.

(** The common end of the run methods once the command is built. *)
Lemma ran_after_build (command : string) (w w0 : Session.World) :
  Quiet (Session.runner w0) ->
  sentTexts (Session.events (Session.window w0))
  = sentTexts (Session.events (Session.window w)) ->
  (exists dir, forall c, Env.cwd env c = (Returned dir, c)) ->
  Ran env command w
    (Session.bind (Session.setPreviousCommand (Session.TerminalCommand command))
       (fun _ =>
          Session.bind (Session.goToCwd env)
            (fun _ =>
               Session.bind (Session.runTerminalCommand env command)
                 (fun _ =>
                    Session.bind Session.getRunner
                      (fun r => Session.runExternalNativeTerminalCommand env
                                  (Session.commands r))))) w0).
Proof.
  intros Hq Hsent (dir & Hdir). rewrite launch_quiet by exact Hq. rewrite Hdir.
  unfold Ran. cbn [fst snd].
  set (w1 := withCalls (Session.calls w0)
               (remembering (Session.TerminalCommand command) w0)).
  destruct (afterSending_facts command (afterCd env dir w1)) as (Hs & Hp & _ & _).
  destruct (afterCd_facts dir w1) as (Hs' & Hp' & _ & _).
  split; [reflexivity|]. split; [now rewrite Hp, Hp'|].
  exists dir. split; [exact Hdir|].
  rewrite Hs, Hs'. cbn. rewrite Hsent, <- app_assoc. reflexivity.
Qed.

End Running.

(** X23. Without an active editor the methods that work on the current
    file do nothing at all, and [runPreviousTest] too. On a file that is
    not a test file they save the document and show the warning, and
    nothing else: no text is sent, no parser or subprocess is called and
    the previous command is kept. *)
Theorem nothing_runs_without_a_test_file (env : Env.t) (w : Session.World) :
  (Env.activeTextEditor env = None ->
   forall argument options collect,
     Session.runCurrentTest env argument options collect w = (Returned tt, w)
     /\ Session.runCurrentFile env options w = (Returned tt, w)
     /\ Session.debugCurrentTest env argument w = (Returned tt, w)
     /\ Session.runPreviousTest env w = (Returned tt, w))
  /\ (forall editor,
        Env.activeTextEditor env = Some editor ->
        UtilRest.isPythonTestFile (Runner.document_fileName editor) = false ->
        let warned :=
          logged (Session.WarningShown Session.notATestFile)
                 (logged (Session.DocumentSaved (Runner.document_fileName editor)) w) in
        forall argument options collect,
          Session.runCurrentTest env argument options collect w = (Returned tt, warned)
          /\ Session.runCurrentFile env options w = (Returned tt, warned)
          /\ Session.debugCurrentTest env argument w = (Returned tt, warned)).
Proof.
  split.
  - intros He argument options collect.
    unfold Session.runCurrentTest, Session.runCurrentFile, Session.debugCurrentTest,
      Session.runPreviousTest.
    rewrite He. repeat split; reflexivity.
  - intros editor He Hfile warned argument options collect.
    unfold Session.runCurrentTest, Session.runCurrentFile, Session.debugCurrentTest.
    rewrite He. unfold Session.bind at 1 3 5. cbn [Session.emit]. rewrite Hfile.
    repeat split; reflexivity.
Qed.

Lemma nothing_runs_without_a_test_file_witness :
  Env.activeTextEditor notesEnv = Some notesEditor
  /\ UtilRest.isPythonTestFile (Runner.document_fileName notesEditor) = false
  /\ Session.runCurrentFile notesEnv None initialWorld
     = (Returned tt,
        logged (Session.WarningShown Session.notATestFile)
               (logged (Session.DocumentSaved "/ws/notes.py") initialWorld)).
Proof.
  split; [reflexivity|]. split; [reflexivity|].
  exact (proj1 (proj2 (proj2 (nothing_runs_without_a_test_file notesEnv initialWorld)
                         notesEditor eq_refl eq_refl None None false))).
Defined.

(** X24. A run settles exactly when its command can be built, be it by
    [runTestsOnPath] for the path, by [runCurrentFile] for the file of the
    editor or by [runCurrentTest] for the test it resolved. It then
    determines the working directory, which cannot fail once the command
    is built, sends the change of directory and then the command, and
    remembers the command. When the command cannot be built, as when the
    path cannot be examined in the search for the configuration file, the
    run rejects before anything is sent: no change of directory, no
    command, and the previous command is kept. *)
Theorem run_sends_directory_change_then_command (env : Env.t) (w : Session.World) :
  Quiet (Session.runner w) ->
  (forall path,
     match Session.buildPytestCommand env path None None w with
     | (Returned command, _) => Ran env command w (Session.runTestsOnPath env path w)
     | (Thrown, w1) => Rejected w w1 (Session.runTestsOnPath env path w)
     end)
  /\ (forall editor,
        Env.activeTextEditor env = Some editor ->
        UtilRest.isPythonTestFile (Runner.document_fileName editor) = true ->
        let filePath := Runner.document_fileName editor in
        let saved := logged (Session.DocumentSaved filePath) w in
        (forall options,
           match Session.buildPytestCommand env filePath None options saved with
           | (Returned command, _) =>
               Ran env command w (Session.runCurrentFile env options w)
           | (Thrown, w1) => Rejected w w1 (Session.runCurrentFile env options w)
           end)
        /\ (forall argument options testName c,
              Session.resolveTestName env editor argument (Session.calls w)
              = (Returned testName, c) ->
              match Session.buildPytestCommand env filePath testName
                      (Some match options with Some o => o | None => [] end)
                      (withCalls c saved) with
              | (Returned command, _) =>
                  Ran env command w (Session.runCurrentTest env argument options false w)
              | (Thrown, w1) =>
                  Rejected w w1 (Session.runCurrentTest env argument options false w)
              end)).
Proof.
  intros Hq.
  assert (Hrun : forall filePath testName options w0,
             Quiet (Session.runner w0) ->
             Session.runner w0 = Session.runner w ->
             sentTexts (Session.events (Session.window w0))
             = sentTexts (Session.events (Session.window w)) ->
             match Session.buildPytestCommand env filePath testName options w0 with
             | (Returned command, _) =>
                 Ran env command w
                   (Session.bind (Session.buildPytestCommand env filePath testName options)
                      (fun command =>
                         Session.bind
                           (Session.setPreviousCommand (Session.TerminalCommand command))
                           (fun _ =>
                              Session.bind (Session.goToCwd env)
                                (fun _ =>
                                   Session.bind (Session.runTerminalCommand env command)
                                     (fun _ =>
                                        Session.bind Session.getRunner
                                          (fun r =>
                                             Session.runExternalNativeTerminalCommand env
                                               (Session.commands r)))))) w0)
             | (Thrown, w1) =>
                 Rejected w w1
                   (Session.bind (Session.buildPytestCommand env filePath testName options)
                      (fun command =>
                         Session.bind
                           (Session.setPreviousCommand (Session.TerminalCommand command))
                           (fun _ =>
                              Session.bind (Session.goToCwd env)
                                (fun _ =>
                                   Session.bind (Session.runTerminalCommand env command)
                                     (fun _ =>
                                        Session.bind Session.getRunner
                                          (fun r =>
                                             Session.runExternalNativeTerminalCommand env
                                               (Session.commands r)))))) w0)
             end).
  { intros filePath testName options w0 Hq0 Hr0 Hs0.
    destruct (advisory_buildPytestCommand env filePath testName options)
      as (o & warned & Hb).
    destruct (warns_facts warned w0) as (Hwr & _ & Hws).
    rewrite (Hb w0). destruct o as [command|].
    - unfold Session.bind at 1. rewrite (Hb w0).
      apply ran_after_build; [now rewrite Hwr|now rewrite Hws|].
      exact (buildPytestCommand_returns env filePath testName options w0 _ _ (Hb w0)).
    - unfold Rejected, Session.bind at 1. rewrite (Hb w0), Hwr, Hws.
      repeat split; assumption. }
  split; [|intros editor He Hfile filePath saved; subst saved filePath;
           set (filePath := Runner.document_fileName editor) in *;
           set (saved := logged (Session.DocumentSaved filePath) w); split].
  - intros path. exact (Hrun path None None w Hq eq_refl eq_refl).
  - intros options.
    assert (Hsaved : Session.runCurrentFile env options w
                     = Session.bind
                         (Session.buildPytestCommand env filePath None options)
                         (fun command =>
                            Session.bind
                              (Session.setPreviousCommand (Session.TerminalCommand command))
                              (fun _ =>
                                 Session.bind (Session.goToCwd env)
                                   (fun _ =>
                                      Session.bind (Session.runTerminalCommand env command)
                                        (fun _ =>
                                           Session.bind Session.getRunner
                                             (fun r =>
                                                Session.runExternalNativeTerminalCommand env
                                                  (Session.commands r)))))) saved).
    { unfold Session.runCurrentFile. rewrite He. unfold Session.bind at 1.
      cbn [Session.emit]. fold filePath. rewrite Hfile. reflexivity. }
    rewrite Hsaved. apply Hrun; [exact Hq|reflexivity|].
    cbn. rewrite sentTexts_app. cbn. now rewrite app_nil_r.
  - intros argument options testName c Hres.
    assert (Hsaved : Session.runCurrentTest env argument options false w
                     = Session.bind
                         (Session.buildPytestCommand env filePath testName
                            (Some match options with Some o => o | None => [] end))
                         (fun command =>
                            Session.bind
                              (Session.setPreviousCommand (Session.TerminalCommand command))
                              (fun _ =>
                                 Session.bind (Session.goToCwd env)
                                   (fun _ =>
                                      Session.bind (Session.runTerminalCommand env command)
                                        (fun _ =>
                                           Session.bind Session.getRunner
                                             (fun r =>
                                                Session.runExternalNativeTerminalCommand env
                                                  (Session.commands r))))))
                         (withCalls c saved)).
    { transitivity
        (Session.bind (Session.lift (Session.resolveTestName env editor argument))
           (fun testName =>
              Session.bind
                (Session.buildPytestCommand env filePath testName
                   (Some match options with Some o => o | None => [] end))
                (fun command =>
                   Session.bind
                     (Session.setPreviousCommand (Session.TerminalCommand command))
                     (fun _ =>
                        Session.bind (Session.goToCwd env)
                          (fun _ =>
                             Session.bind (Session.runTerminalCommand env command)
                               (fun _ =>
                                  Session.bind Session.getRunner
                                    (fun r =>
                                       Session.runExternalNativeTerminalCommand env
                                         (Session.commands r))))))) saved).
      - unfold Session.runCurrentTest. rewrite He. unfold Session.bind at 1.
        cbn [Session.emit]. fold filePath. rewrite Hfile. reflexivity.
      - unfold Session.bind at 1. rewrite lift_run.
        change (Session.calls saved) with (Session.calls w).
        rewrite Hres. reflexivity. }
    rewrite Hsaved. apply Hrun; [exact Hq|reflexivity|].
    cbn. rewrite sentTexts_app. cbn. now rewrite app_nil_r.
Qed.

Lemma run_sends_directory_change_then_command_witness :
  Quiet (Session.runner initialWorld)
  /\ Ran calcEnv "pytest -v '/ws/pkg/test_calc.py' -c '/ws/pkg/pytest.ini' -v" initialWorld
       (Session.runTestsOnPath calcEnv "/ws/pkg/test_calc.py" initialWorld)
  /\ sentTexts (Session.events (Session.window
                  (snd (Session.runTestsOnPath calcEnv "/ws/pkg/test_calc.py" initialWorld))))
     = ["cd '/ws'"; "pytest -v '/ws/pkg/test_calc.py' -c '/ws/pkg/pytest.ini' -v"]
  /\ Env.cwd calcEnv noCalls = (Returned "/ws", noCalls)
  /\ Rejected initialWorld initialWorld (Session.runTestsOnPath calcEnv missingPath initialWorld).
Proof.
  pose proof (proj1 (run_sends_directory_change_then_command calcEnv initialWorld
                       (conj eq_refl eq_refl))) as Hrun.
  split; [split; reflexivity|]. split; [exact (Hrun "/ws/pkg/test_calc.py")|].
  split; [reflexivity|]. split; [reflexivity|]. exact (Hrun missingPath).
Defined.

(** *** Running the previous command again *)

(** X25. [runPreviousTest] replays what the runner remembers, whatever
    the file of the active editor and the configuration have become: a
    remembered command is sent again as it was, after the change of
    directory; a remembered debug session is started again with the same
    configuration, without a change of directory and without the working
    directory being determined; with nothing remembered the document is
    saved and that is all. *)
Theorem previous_run_is_replayed (env : Env.t) (editor : Runner.TextEditor)
  (w : Session.World) :
  Quiet (Session.runner w) ->
  Env.activeTextEditor env = Some editor ->
  let saved := logged (Session.DocumentSaved (Runner.document_fileName editor)) w in
  match Session.previousCommand (Session.runner w) with
  | Session.TerminalCommand command =>
      Launched env command w (Session.calls w) (Session.runPreviousTest env w)
  | Session.Debugging d =>
      Session.runPreviousTest env w
      = (Returned tt, logged (Session.DebuggingStarted (Session.debugConfig d)) saved)
  | Session.NoCommand => Session.runPreviousTest env w = (Returned tt, saved)
  end.
Proof.
  intros Hq He saved.
  assert (Hrun : Session.runPreviousTest env w
                 = Session.bind
                     match Session.previousCommand (Session.runner w) with
                     | Session.TerminalCommand command =>
                         Session.bind (Session.goToCwd env)
                           (fun _ => Session.runTerminalCommand env command)
                     | Session.Debugging debugCommand =>
                         Session.executeDebugCommand env debugCommand
                     | Session.NoCommand => Session.ret tt
                     end
                     (fun _ =>
                        Session.bind Session.getRunner
                          (fun r => Session.runExternalNativeTerminalCommand env
                                      (Session.commands r))) saved).
  { unfold Session.runPreviousTest. rewrite He. reflexivity. }
  rewrite Hrun. clear Hrun.
  assert (Hqs : Quiet (Session.runner saved)) by exact Hq.
  destruct (Session.previousCommand (Session.runner w)) as [|command|d] eqn:Hp.
  - unfold Session.bind, Session.ret, Session.getRunner.
    now apply runExternalNativeTerminalCommand_quiet.
  - unfold Session.bind at 1. unfold Session.bind at 1.
    rewrite goToCwd_quiet by apply Hqs.
    change (Session.calls saved) with (Session.calls w).
    unfold Launched.
    destruct (Env.cwd env (Session.calls w)) as [[dir|] c].
    + set (w1 := afterCd env dir (withCalls c saved)).
      destruct (afterCd_facts env dir (withCalls c saved)) as (Hs' & Hp' & Hc' & Hq').
      destruct (afterSending_facts env command w1) as (Hs & Hp1 & Hc & Hq1).
      assert (Hqw1 : Quiet (Session.runner w1)) by (unfold w1; now rewrite Hq').
      rewrite runTerminalCommand_quiet by apply Hqw1.
      unfold Session.bind, Session.getRunner.
      rewrite runExternalNativeTerminalCommand_quiet by now rewrite Hq1.
      cbn [fst snd]. rewrite Hs, Hp1, Hc. unfold w1. rewrite Hs', Hp', Hc'.
      cbn. rewrite sentTexts_app. cbn. rewrite app_nil_r, <- app_assoc.
      repeat split; first [exact Hp | reflexivity].
    + cbn. rewrite sentTexts_app. cbn. rewrite app_nil_r.
      repeat split; first [exact Hp | reflexivity].
  - unfold Session.bind at 1. rewrite executeDebugCommand_quiet by exact Hqs.
    unfold Session.bind, Session.getRunner.
    rewrite runExternalNativeTerminalCommand_quiet by exact Hq.
    f_equal. destruct w as [[p t o cmds] [n evs] c]. cbn in Hp. subst p. reflexivity.
Qed.

Lemma previous_run_is_replayed_witness :
  let w := snd (Session.runCurrentFile calcEnv None initialWorld) in
  Quiet (Session.runner w)
  /\ Env.activeTextEditor notesEnv = Some notesEditor
  /\ Launched notesEnv "pytest -v '/ws/pkg/test_calc.py' -c '/ws/pkg/pytest.ini' -v" w
       (Session.calls w) (Session.runPreviousTest notesEnv w).
Proof.
  cbv zeta. split; [split; reflexivity|]. split; [reflexivity|].
  exact (previous_run_is_replayed notesEnv notesEditor
           (snd (Session.runCurrentFile calcEnv None initialWorld))
           (conj eq_refl eq_refl) eq_refl).
Defined.

(** *** Debugging *)

Section Debugging.

Variable env : Env.t.

Lemma lift_returns {A} (m : Eff.M A) (o : Outcome A) (w : Session.World) :
  (forall c, m c = (o, c)) -> Session.lift m w = (o, w).
Proof. intros Hm. rewrite lift_run, Hm. cbn [fst snd]. now rewrite withCalls_same. Qed.

(** Whenever the working directory can be determined, so can the virtual
    environment path. *)
Lemma virtualEnvPath_returns (dir : string) :
  (forall c, Env.cwd env c = (Returned dir, c)) ->
  exists venvPath, forall c, Env.virtualEnvPath env c = (Returned venvPath, c).
Proof.
  destruct (getPoetryProjectRoot_pure env) as (o & Ho).
  intros Hcwd. specialize (Hcwd noCalls). rewrite (cwd_run env o Ho) in Hcwd.
  destruct (JS.truthy (customVirtualEnvPath env)) eqn:Hc.
  - eexists. intros c0. rewrite (virtualEnvPath_run env o Ho), Hc. reflexivity.
  - destruct (Config.usePoetry (Env.config env)) eqn:Hu.
    + destruct o as [[root|]|]; [| |discriminate];
        eexists; intros c0; rewrite (virtualEnvPath_run env _ Ho), Hc, Hu; reflexivity.
    + eexists. intros c0. rewrite (virtualEnvPath_run env o Ho), Hc, Hu. reflexivity.
Qed.

Lemma venvPython_returns (dir : string) :
  (forall c, Env.cwd env c = (Returned dir, c)) ->
  exists python, forall c, Env.venvPython env c = (Returned python, c).
Proof.
  intros Hcwd. destruct (virtualEnvPath_returns dir Hcwd) as (venvPath & Hv).
  unfold Env.venvPython, Eff.bind.
  destruct (JS.truthy venvPath) eqn:Ht.
  - destruct (existsSync (Config.host (Env.config env))
                (if platformWin32 (Config.host (Env.config env))
                 then Env.path_join env [venvPath; "Scripts"; "python.exe"]
                 else Env.path_join env [venvPath; "bin"; "python"])) eqn:Hex;
      eexists; intros c0; rewrite Hv, Ht; cbv zeta; rewrite Hex; reflexivity.
  - eexists. intros c0. rewrite Hv, Ht. reflexivity.
Qed.

Lemma getDebugConfig_returns (filePath : string) (name : option string)
  (w w1 : Session.World) (config : Env.DebugConfiguration) :
  Session.getDebugConfig env filePath name w = (Returned config, w1) ->
  exists dir, forall c, Env.cwd env c = (Returned dir, c).
Proof.
  destruct pure_cwd with (env := env) as (oc & Hoc).
  unfold Session.getDebugConfig. unfold Session.bind at 1.
  rewrite (lift_returns _ _ _ Hoc). destruct oc as [dir|]; [|discriminate].
  intros _. now exists dir.
Qed.

Lemma getDebugConfig_run (filePath : string) (name : option string) (w : Session.World) :
  match Env.cwd env (Session.calls w) with
  | (Thrown, _) => Session.getDebugConfig env filePath name w = (Thrown, w)
  | (Returned dir, _) =>
      match Session.getPytestConfigPath env filePath w with
      | (Thrown, w1) => Session.getDebugConfig env filePath name w = (Thrown, w1)
      | (Returned pytestConfigPath, w1) =>
          exists config python,
            Session.getDebugConfig env filePath name w = (Returned config, w1)
            /\ (forall c, Env.venvPython env c = (Returned python, c))
            /\ Env.dbg_args config
               = Some (match fromDebugOptions env Env.opt_args with
                       | Some a => a
                       | None => []
                       end
                       ++ Runner.buildPytestArgs
                            (Session.withConfigPath (Env.config env) pytestConfigPath)
                            filePath name false None
                       ++ ["-s"; "--tb=short"])
            /\ Env.dbg_cwd config
               = match fromDebugOptions env Env.opt_cwd with Some d => d | None => dir end
            /\ Env.dbg_python config
               = match python, Env.setting_debugOptions env with
                 | Some pythonPath, Some debugOptions =>
                     if JS.truthy pythonPath then Some pythonPath
                     else Env.opt_python debugOptions
                 | Some pythonPath, None => Some pythonPath
                 | None, Some debugOptions => Env.opt_python debugOptions
                 | None, None => Some "python"
                 end
            /\ (Env.setting_debugOptions env = None ->
                Env.dbg_name config = "Debug Pytest Tests"
                /\ Env.dbg_type config = "python"
                /\ Env.dbg_request config = "launch"
                /\ Env.dbg_module config = "pytest"
                /\ Env.dbg_console config = "integratedTerminal")
      end
  end.
Proof.
  destruct pure_cwd with (env := env) as (oc & Hoc).
  destruct (advisory_getPytestConfigPath env filePath) as (ol & warned & Hl).
  rewrite Hoc, Hl. destruct oc as [dir|].
  - destruct (venvPython_returns dir Hoc) as (python & Hpy).
    assert (Hopts : exists debugOptions,
               (forall c, Env.debugOptions env c = (Returned debugOptions, c))
               /\ match Env.setting_debugOptions env with
                  | Some d => debugOptions = d
                  | None =>
                      debugOptions
                      = {| Env.opt_name := None; Env.opt_type := Some "python";
                           Env.opt_request := Some "launch";
                           Env.opt_module := Some "pytest";
                           Env.opt_console := Some "integratedTerminal";
                           Env.opt_cwd := None; Env.opt_args := None;
                           Env.opt_python :=
                             Some match python with Some p => p | None => "python" end |}
                  end).
    { unfold Env.debugOptions. destruct (Env.setting_debugOptions env) as [d|].
      - exists d. split; reflexivity.
      - eexists. split; [|reflexivity]. intros c.
        unfold Env.getPythonPath, Eff.bind. rewrite Hpy. now destruct python. }
    destruct Hopts as (debugOptions & Hopts & Hshape).
    assert (Hstart : Session.getDebugConfig env filePath name w
                     = Session.bind
                         (Session.buildPytestArgs env filePath name false None)
                         (fun standardArgs =>
                            Session.bind (Session.lift (Session.getPythonPath env))
                              (fun pythonPath =>
                                 Session.ret
                                   {| Env.dbg_name :=
                                        Session.override "Debug Pytest Tests"
                                          (Env.opt_name debugOptions);
                                      Env.dbg_type :=
                                        Session.override "python" (Env.opt_type debugOptions);
                                      Env.dbg_request :=
                                        Session.override "launch"
                                          (Env.opt_request debugOptions);
                                      Env.dbg_module :=
                                        Session.override "pytest"
                                          (Env.opt_module debugOptions);
                                      Env.dbg_console :=
                                        Session.override "integratedTerminal"
                                          (Env.opt_console debugOptions);
                                      Env.dbg_cwd :=
                                        Session.override dir (Env.opt_cwd debugOptions);
                                      Env.dbg_args :=
                                        Some ((fst (UtilRest.pushMany
                                                      match Env.opt_args debugOptions with
                                                      | Some a => a
                                                      | None => []
                                                      end standardArgs)
                                               ++ ["-s"]) ++ ["--tb=short"]);
                                      Env.dbg_python :=
                                        match pythonPath with
                                        | Some pythonPath =>
                                            if JS.truthy pythonPath then Some pythonPath
                                            else Env.opt_python debugOptions
                                        | None => Env.opt_python debugOptions
                                        end |})) w).
    { unfold Session.getDebugConfig. unfold Session.bind at 1.
      rewrite (lift_returns _ _ _ Hoc). unfold Session.bind at 1.
      rewrite (lift_returns _ _ _ Hopts). reflexivity. }
    destruct ol as [pytestConfigPath|].
    2:{ rewrite Hstart. unfold Session.buildPytestArgs. unfold Session.bind at 1.
        unfold Session.bind at 1. now rewrite Hl. }
    assert (Hend : Session.getDebugConfig env filePath name w
                   = (Returned
                        {| Env.dbg_name :=
                             Session.override "Debug Pytest Tests" (Env.opt_name debugOptions);
                           Env.dbg_type :=
                             Session.override "python" (Env.opt_type debugOptions);
                           Env.dbg_request :=
                             Session.override "launch" (Env.opt_request debugOptions);
                           Env.dbg_module :=
                             Session.override "pytest" (Env.opt_module debugOptions);
                           Env.dbg_console :=
                             Session.override "integratedTerminal"
                               (Env.opt_console debugOptions);
                           Env.dbg_cwd := Session.override dir (Env.opt_cwd debugOptions);
                           Env.dbg_args :=
                             Some ((fst (UtilRest.pushMany
                                           match Env.opt_args debugOptions with
                                           | Some a => a
                                           | None => []
                                           end
                                           (Runner.buildPytestArgs
                                              (Session.withConfigPath (Env.config env)
                                                 pytestConfigPath)
                                              filePath name false None))
                                    ++ ["-s"]) ++ ["--tb=short"]);
                           Env.dbg_python :=
                             match python with
                             | Some pythonPath =>
                                 if JS.truthy pythonPath then Some pythonPath
                                 else Env.opt_python debugOptions
                             | None => Env.opt_python debugOptions
                             end |}, warns warned w)).
    { rewrite Hstart. unfold Session.buildPytestArgs. unfold Session.bind at 1.
      unfold Session.bind at 1. rewrite Hl. cbn [Session.ret].
      unfold Session.bind at 1. unfold Session.getPythonPath.
      now rewrite (lift_returns _ _ _ Hpy). }
    clear Hstart. eexists. exists python. split; [exact Hend|]. split; [exact Hpy|].
    cbn [Env.dbg_args Env.dbg_cwd Env.dbg_python Env.dbg_name Env.dbg_type
         Env.dbg_request Env.dbg_module Env.dbg_console UtilRest.pushMany fst].
    unfold fromDebugOptions.
    destruct (Env.setting_debugOptions env) as [d|]; subst debugOptions;
      cbn [Env.opt_args Env.opt_cwd Env.opt_python Env.opt_name Env.opt_type
           Env.opt_request Env.opt_module Env.opt_console Session.override app];
      repeat rewrite <- app_assoc; cbn [app].
    + repeat split; try discriminate; try reflexivity;
        first [now destruct (Env.opt_cwd d) | now destruct python].
    + repeat split; try reflexivity.
      all: destruct python as [p|]; [now destruct (JS.truthy p)|reflexivity].
  - unfold Session.getDebugConfig. unfold Session.bind at 1.
    now rewrite (lift_returns _ _ _ Hoc).
Qed.

(** The common end of the debug methods. *)
Lemma debug_after_config (path : string) (name : option string) (w w0 : Session.World) :
  Quiet (Session.runner w0) ->
  Session.runner w0 = Session.runner w ->
  sentTexts (Session.events (Session.window w0))
  = sentTexts (Session.events (Session.window w)) ->
  let method :=
    Session.bind (Session.getDebugConfig env path name)
      (fun debugConfig =>
         Session.bind (Session.goToCwd env)
           (fun _ =>
              Session.bind
                (Session.executeDebugCommand env (Session.mkDebugCommand path debugConfig))
                (fun _ =>
                   Session.bind Session.getRunner
                     (fun r => Session.runExternalNativeTerminalCommand env
                                 (Session.commands r))))) in
  match Session.getDebugConfig env path name w0 with
  | (Returned config, w1) =>
      exists dir,
        (forall c, Env.cwd env c = (Returned dir, c))
        /\ method w0
           = (Returned tt,
              remembering (Session.Debugging (Session.mkDebugCommand path config))
                (logged (Session.DebuggingStarted config) (afterCd env dir w1)))
  | (Thrown, w1) => Rejected w w1 (method w0)
  end.
Proof.
  intros Hq0 Hr0 Hs0 method. subst method.
  destruct (advisory_getDebugConfig env path name) as (o & warned & Hg).
  destruct (warns_facts warned w0) as (Hwr & Hwc & Hws).
  rewrite (Hg w0). destruct o as [config|].
  - destruct (getDebugConfig_returns path name w0 _ _ (Hg w0)) as (dir & Hdir).
    exists dir. split; [exact Hdir|].
    assert (Hqw : Quiet (Session.runner (warns warned w0))) by now rewrite Hwr.
    unfold Session.bind at 1. rewrite (Hg w0).
    unfold Session.bind at 1. rewrite goToCwd_quiet by apply Hqw.
    rewrite Hdir, withCalls_same.
    destruct (afterCd_facts env dir (warns warned w0)) as (_ & _ & _ & Hq').
    unfold Session.bind at 1.
    rewrite executeDebugCommand_quiet by now rewrite Hq'.
    unfold Session.bind, Session.getRunner.
    apply runExternalNativeTerminalCommand_quiet.
    change (Quiet (Session.runner (afterCd env dir (warns warned w0)))). now rewrite Hq'.
  - unfold Rejected, Session.bind at 1. rewrite (Hg w0), Hwr, Hws.
    repeat split; assumption.
Qed.

End Debugging.

(** X26. The debug configuration can be built exactly when the working
    directory can be determined and the search for the configuration file
    does not throw, which it does when the path cannot be examined. Its
    arguments are those of the [debugOptions] setting, then the arguments
    of a run without quotes and without one-off options, then [-s] and
    [--tb=short]; its [cwd] is the one of [debugOptions] when set, the
    working directory otherwise; the interpreter of the virtual
    environment, when that file exists, replaces the [python] of
    [debugOptions]; and without a [debugOptions] setting the
    configuration launches the module pytest with the system python as
    fallback. *)
Theorem debug_configuration_is_assembled (env : Env.t) (filePath : string)
  (name : option string) (w : Session.World) :
  match Env.cwd env (Session.calls w) with
  | (Thrown, _) => Session.getDebugConfig env filePath name w = (Thrown, w)
  | (Returned dir, _) =>
      match Session.getPytestConfigPath env filePath w with
      | (Thrown, w1) => Session.getDebugConfig env filePath name w = (Thrown, w1)
      | (Returned pytestConfigPath, w1) =>
          exists config python,
            Session.getDebugConfig env filePath name w = (Returned config, w1)
            /\ (forall c, Env.venvPython env c = (Returned python, c))
            /\ Env.dbg_args config
               = Some (match fromDebugOptions env Env.opt_args with
                       | Some a => a
                       | None => []
                       end
                       ++ Runner.buildPytestArgs
                            (Session.withConfigPath (Env.config env) pytestConfigPath)
                            filePath name false None
                       ++ ["-s"; "--tb=short"])
            /\ Env.dbg_cwd config
               = match fromDebugOptions env Env.opt_cwd with Some d => d | None => dir end
            /\ Env.dbg_python config
               = match python, Env.setting_debugOptions env with
                 | Some pythonPath, Some debugOptions =>
                     if JS.truthy pythonPath then Some pythonPath
                     else Env.opt_python debugOptions
                 | Some pythonPath, None => Some pythonPath
                 | None, Some debugOptions => Env.opt_python debugOptions
                 | None, None => Some "python"
                 end
            /\ (Env.setting_debugOptions env = None ->
                Env.dbg_name config = "Debug Pytest Tests"
                /\ Env.dbg_type config = "python"
                /\ Env.dbg_request config = "launch"
                /\ Env.dbg_module config = "pytest"
                /\ Env.dbg_console config = "integratedTerminal")
      end
  end.
Proof. apply getDebugConfig_run. Qed.

(** With the file in place the configuration is built; at a path where
    there is no file it is not, although the working directory is known. *)
Lemma debug_configuration_is_assembled_witness :
  Env.cwd calcEnv noCalls = (Returned "/ws", noCalls)
  /\ Session.getDebugConfig calcEnv missingPath None initialWorld = (Thrown, initialWorld)
  /\ exists config python,
       Session.getDebugConfig calcEnv "/ws/pkg/test_calc.py" None initialWorld
       = (Returned config, initialWorld)
       /\ (forall c, Env.venvPython calcEnv c = (Returned python, c))
       /\ Env.dbg_args config
          = Some ["/ws/pkg/test_calc.py"; "-c"; "/ws/pkg/pytest.ini"; "-v"; "-s"; "--tb=short"].
Proof.
  split; [reflexivity|]. split.
  - exact (debug_configuration_is_assembled calcEnv missingPath None initialWorld).
  - destruct (debug_configuration_is_assembled calcEnv "/ws/pkg/test_calc.py" None
                initialWorld) as (config & python & Hrun & Hpy & Hargs & _).
    exists config, python. split; [exact Hrun|]. split; [exact Hpy|exact Hargs].
Defined.

(** X27. Debugging builds the configuration first, then changes directory
    and starts the session: when the configuration is built,
    [debugTestsOnPath] and [debugCurrentTest] send the change to the
    working directory of the configuration object (also when
    [debugOptions] gives the session another [cwd]), start debugging with
    the configuration built for the path and the resolved test, and
    remember that session as the previous command. When the configuration
    cannot be built, as when the path cannot be examined, they reject
    before anything is sent: no change of directory, and the previous
    command is kept. *)
Theorem debugging_starts_after_directory_change (env : Env.t) (w : Session.World) :
  Quiet (Session.runner w) ->
  let started path config dir w0 :=
    remembering (Session.Debugging (Session.mkDebugCommand path config))
      (logged (Session.DebuggingStarted config) (afterCd env dir w0)) in
  (forall path,
     match Session.getDebugConfig env path None w with
     | (Returned config, w1) =>
         exists dir,
           (forall c, Env.cwd env c = (Returned dir, c))
           /\ Session.debugTestsOnPath env path w = (Returned tt, started path config dir w1)
     | (Thrown, w1) => Rejected w w1 (Session.debugTestsOnPath env path w)
     end)
  /\ (forall editor currentTestName testName c,
        Env.activeTextEditor env = Some editor ->
        UtilRest.isPythonTestFile (Runner.document_fileName editor) = true ->
        Session.resolveTestName env editor currentTestName (Session.calls w)
        = (Returned testName, c) ->
        let filePath := Runner.document_fileName editor in
        let saved := withCalls c (logged (Session.DocumentSaved filePath) w) in
        match Session.getDebugConfig env filePath testName saved with
        | (Returned config, w1) =>
            exists dir,
              (forall c, Env.cwd env c = (Returned dir, c))
              /\ Session.debugCurrentTest env currentTestName w
                 = (Returned tt, started filePath config dir w1)
        | (Thrown, w1) => Rejected w w1 (Session.debugCurrentTest env currentTestName w)
        end).
Proof.
  intros Hq started. subst started. split.
  - intros path. exact (debug_after_config env path None w w Hq eq_refl eq_refl).
  - intros editor currentTestName testName c He Hfile Hres filePath saved.
    subst saved filePath. set (filePath := Runner.document_fileName editor) in *.
    set (saved := withCalls c (logged (Session.DocumentSaved filePath) w)).
    assert (Hsaved : Session.debugCurrentTest env currentTestName w
                     = Session.bind (Session.getDebugConfig env filePath testName)
                         (fun debugConfig =>
                            Session.bind (Session.goToCwd env)
                              (fun _ =>
                                 Session.bind
                                   (Session.executeDebugCommand env
                                      (Session.mkDebugCommand filePath debugConfig))
                                   (fun _ =>
                                      Session.bind Session.getRunner
                                        (fun r =>
                                           Session.runExternalNativeTerminalCommand env
                                             (Session.commands r))))) saved).
    { transitivity
        (Session.bind (Session.lift (Session.resolveTestName env editor currentTestName))
           (fun testName =>
              Session.bind (Session.getDebugConfig env filePath testName)
                (fun debugConfig =>
                   Session.bind (Session.goToCwd env)
                     (fun _ =>
                        Session.bind
                          (Session.executeDebugCommand env
                             (Session.mkDebugCommand filePath debugConfig))
                          (fun _ =>
                             Session.bind Session.getRunner
                               (fun r =>
                                  Session.runExternalNativeTerminalCommand env
                                    (Session.commands r))))))
           (logged (Session.DocumentSaved filePath) w)).
      - unfold Session.debugCurrentTest. rewrite He. unfold Session.bind at 1.
        cbn [Session.emit]. fold filePath. rewrite Hfile. reflexivity.
      - unfold Session.bind at 1. rewrite lift_run.
        change (Session.calls (logged (Session.DocumentSaved filePath) w))
          with (Session.calls w).
        rewrite Hres. reflexivity. }
    rewrite Hsaved.
    apply (debug_after_config env filePath testName w saved); [exact Hq|reflexivity|].
    cbn. rewrite sentTexts_app. cbn. now rewrite app_nil_r.
Qed.

Lemma debugging_starts_after_directory_change_witness :
  Quiet (Session.runner initialWorld)
  /\ Session.events (Session.window
       (snd (Session.debugTestsOnPath calcEnv "/ws/pkg/test_calc.py" initialWorld)))
     = [Session.TerminalCreated (Session.Own 0) "pytest";
        Session.TerminalShown (Session.Own 0) false;
        Session.TerminalCleared;
        Session.TextSent (Session.Own 0) "cd '/ws'";
        Session.DebuggingStarted
          {| Env.dbg_name := "Debug Pytest Tests"; Env.dbg_type := "python";
             Env.dbg_request := "launch"; Env.dbg_module := "pytest";
             Env.dbg_console := "integratedTerminal"; Env.dbg_cwd := "/ws";
             Env.dbg_args :=
               Some ["/ws/pkg/test_calc.py"; "-c"; "/ws/pkg/pytest.ini"; "-v"; "-s";
                     "--tb=short"];
             Env.dbg_python := Some "python" |}]
  /\ Env.cwd calcEnv noCalls = (Returned "/ws", noCalls)
  /\ Rejected initialWorld initialWorld
       (Session.debugTestsOnPath calcEnv missingPath initialWorld).
Proof.
  pose proof (proj1 (debugging_starts_after_directory_change calcEnv initialWorld
                       (conj eq_refl eq_refl))) as Hrun.
  split; [split; reflexivity|]. split; [|split; [reflexivity|exact (Hrun missingPath)]].
  destruct (Hrun "/ws/pkg/test_calc.py") as (dir & Hdir & Hstarted).
  specialize (Hdir noCalls). vm_compute in Hdir. injection Hdir as Hdir. subst dir.
  rewrite Hstarted. reflexivity.
Defined.

(** ** The commands of the extension *)

Section Wiring.

Variable env : Env.t.




End Wiring.



(** X29. A run under a given name does not look at the file: with a
    non-empty name as argument, [runCurrentTest] calls no parser, and its
    outcome is the same wherever the cursor is and whatever is selected in
    the editor. *)
Theorem run_by_name_does_not_parse (env : Env.t) (editor editor' : Runner.TextEditor)
  (name : string) (options : option (list string)) (w : Session.World) :
  Quiet (Session.runner w) ->
  Env.activeTextEditor env = Some editor ->
  UtilRest.isPythonTestFile (Runner.document_fileName editor) = true ->
  JS.truthy name = true ->
  Session.calls (snd (Session.runCurrentTest env (Some name) options false w))
  = Session.calls w
  /\ (Runner.document_fileName editor' = Runner.document_fileName editor ->
      Session.runCurrentTest (withEditor env (Some editor')) (Some name) options false w
      = Session.runCurrentTest env (Some name) options false w).
Proof.
  intros Hq He Hfile Hname.
  assert (Hrun : forall env0 editor0,
             Env.activeTextEditor env0 = Some editor0 ->
             Runner.document_fileName editor0 = Runner.document_fileName editor ->
             Session.runCurrentTest env0 (Some name) options false w
             = Session.bind
                 (Session.buildPytestCommand env0 (Runner.document_fileName editor)
                    (Some name) (Some match options with Some o => o | None => [] end))
                 (fun command =>
                    Session.bind
                      (Session.setPreviousCommand (Session.TerminalCommand command))
                      (fun _ =>
                         Session.bind (Session.goToCwd env0)
                           (fun _ =>
                              Session.bind (Session.runTerminalCommand env0 command)
                                (fun _ =>
                                   Session.bind Session.getRunner
                                     (fun r =>
                                        Session.runExternalNativeTerminalCommand env0
                                          (Session.commands r))))))
                 (logged (Session.DocumentSaved (Runner.document_fileName editor)) w)).
  { intros env0 editor0 He0 Hname0. unfold Session.runCurrentTest. rewrite He0.
    unfold Session.bind at 1. cbn [Session.emit]. rewrite Hname0, Hfile.
    cbn [negb]. unfold Session.bind at 1. unfold Session.resolveTestName.
    rewrite Hname. reflexivity. }
  split.
  - rewrite (Hrun env editor He eq_refl).
    destruct (advisory_buildPytestCommand env (Runner.document_fileName editor)
                (Some name) (Some match options with Some o => o | None => [] end))
      as (ob & warned & Hob).
    destruct (pure_cwd env) as (oc & Hoc).
    set (saved := logged (Session.DocumentSaved (Runner.document_fileName editor)) w).
    destruct (warns_facts warned saved) as (Hwr & Hwc & _).
    unfold Session.bind at 1. rewrite Hob.
    destruct ob as [command|]; [|exact Hwc].
    rewrite launch_quiet by (rewrite Hwr; exact Hq). rewrite Hoc.
    destruct oc as [dir|]; [|exact Hwc]. cbn [snd].
    rewrite (proj1 (proj2 (proj2 (afterSending_facts env command _)))).
    rewrite (proj1 (proj2 (proj2 (afterCd_facts env dir _)))). exact Hwc.
  - intros Hsame.
    rewrite (Hrun env editor He eq_refl).
    rewrite (Hrun (withEditor env (Some editor')) editor' eq_refl Hsame).
    reflexivity.
Qed.

Lemma run_by_name_does_not_parse_witness :
  let elsewhere :=
    {| Runner.selection_isEmpty := false;
       Runner.selection_text := "test_add";
       Runner.selection_active_line := 4;
       Runner.document_fileName := "/ws/pkg/test_calc.py" |} in
  Quiet (Session.runner initialWorld)
  /\ Env.activeTextEditor calcEnv = Some calcEditor
  /\ UtilRest.isPythonTestFile "/ws/pkg/test_calc.py" = true
  /\ JS.truthy "TestCalc::test_divide" = true
  /\ Session.calls (snd (Session.runCurrentTest calcEnv (Some "TestCalc::test_divide")
                           None false initialWorld)) = noCalls
  /\ Session.runCurrentTest (withEditor calcEnv (Some elsewhere))
       (Some "TestCalc::test_divide") None false initialWorld
     = Session.runCurrentTest calcEnv (Some "TestCalc::test_divide") None false initialWorld.
Proof.
  cbv zeta.
  destruct (run_by_name_does_not_parse calcEnv calcEditor
              {| Runner.selection_isEmpty := false;
                 Runner.selection_text := "test_add";
                 Runner.selection_active_line := 4;
                 Runner.document_fileName := "/ws/pkg/test_calc.py" |}
              "TestCalc::test_divide" None initialWorld
              (conj eq_refl eq_refl) eq_refl eq_refl eq_refl) as [Hcalls Hsame].
  split; [split; reflexivity|]. split; [reflexivity|]. split; [reflexivity|].
  split; [reflexivity|]. split; [exact Hcalls|]. apply Hsame. reflexivity.
Defined.
